(** * The observability layer of golang_arxiv: instrument registry, gauge
    adapter, span facade, system sampler and request middleware.

    A shallow embedding of [internal/observability] (the variant with
    [CreateDynamicCounter], [sanitizePath] and per-route counters).

    - Go strings are byte sequences: [string] (a list of 8-bit [ascii]).
    - [float64] is the kernel's binary64 [float]; [int], [int64] and
      [uint32] are [Z] with the wrap-around written out where Go wraps.
    - The package-level variables ([tracer], [meter], the three instrument
      maps and [lastKnownValues]) form the record [State]; every function
      threads it through the monad [M], whose second outcome is a Go panic.
    - What the code hands to the OpenTelemetry SDK, to [log] and to the
      wrapped [http.ResponseWriter] is appended to the [trail]. *)

From Stdlib Require Import ZArith List Bool Ascii String Floats Lia.
From stdpp Require Import gmap strings.
Import ListNotations.

Local Open Scope Z_scope.

(** ** Go's [unicode/utf8] and [strings], as far as the package calls them *)

Module GoStrings.

Definition rune := Z.

Definition byte_of (c : ascii) : Z := Z.of_N (N_of_ascii c).
Definition ascii_of (b : Z) : ascii := ascii_of_N (Z.to_N (b mod 256)).

Definition RuneError : rune := 0xFFFD.
Definition RuneSelf : Z := 0x80.
Definition MaxRune : rune := 0x10FFFF.
Definition surrogateMin : rune := 0xD800.
Definition surrogateMax : rune := 0xDFFF.

Definition locb : Z := 0x80.
Definition hicb : Z := 0xBF.
Definition maskx : Z := 0x3F.
Definition mask2 : Z := 0x1F.
Definition mask3 : Z := 0x0F.
Definition mask4 : Z := 0x07.

(** The table [first] of utf8.go together with [acceptRanges]: what a
    leading byte announces. *)
Inductive lead :=
| LeadASCII
| LeadInvalid
| LeadSeq (size : nat) (lo hi : Z).

Definition first (s0 : Z) : lead :=
  if s0 <? 0x80 then LeadASCII
  else if s0 <? 0xC2 then LeadInvalid
  else if s0 <? 0xE0 then LeadSeq 2 locb hicb
  else if s0 =? 0xE0 then LeadSeq 3 0xA0 hicb
  else if s0 <? 0xED then LeadSeq 3 locb hicb
  else if s0 =? 0xED then LeadSeq 3 locb 0x9F
  else if s0 <? 0xF0 then LeadSeq 3 locb hicb
  else if s0 =? 0xF0 then LeadSeq 4 0x90 hicb
  else if s0 <? 0xF4 then LeadSeq 4 locb hicb
  else if s0 =? 0xF4 then LeadSeq 4 locb 0x8F
  else LeadInvalid.

Definition outside (lo hi b : Z) : bool := (b <? lo) || (hi <? b).

(** [utf8.DecodeRuneInString]: the rune at the head of [s] and its width in
    bytes; an invalid or truncated encoding yields [(RuneError, 1)]. *)
Definition DecodeRuneInString (s : string) : rune * nat :=
  match s with
  | EmptyString => (RuneError, 0%nat)
  | String c0 t0 =>
    let s0 := byte_of c0 in
    match first s0 with
    | LeadASCII => (s0, 1%nat)
    | LeadInvalid => (RuneError, 1%nat)
    | LeadSeq sz lo hi =>
      if (String.length s <? sz)%nat then (RuneError, 1%nat) else
      match t0 with
      | EmptyString => (RuneError, 1%nat)
      | String c1 t1 =>
        let s1 := byte_of c1 in
        if outside lo hi s1 then (RuneError, 1%nat)
        else if (sz <=? 2)%nat then
          (Z.lor (Z.shiftl (Z.land s0 mask2) 6) (Z.land s1 maskx), 2%nat)
        else
        match t1 with
        | EmptyString => (RuneError, 1%nat)
        | String c2 t2 =>
          let s2 := byte_of c2 in
          if outside locb hicb s2 then (RuneError, 1%nat)
          else if (sz <=? 3)%nat then
            (Z.lor (Z.lor (Z.shiftl (Z.land s0 mask3) 12)
                          (Z.shiftl (Z.land s1 maskx) 6))
                   (Z.land s2 maskx), 3%nat)
          else
          match t2 with
          | EmptyString => (RuneError, 1%nat)
          | String c3 _ =>
            let s3 := byte_of c3 in
            if outside locb hicb s3 then (RuneError, 1%nat)
            else
              (Z.lor (Z.lor (Z.lor (Z.shiftl (Z.land s0 mask4) 18)
                                   (Z.shiftl (Z.land s1 maskx) 12))
                            (Z.shiftl (Z.land s2 maskx) 6))
                     (Z.land s3 maskx), 4%nat)
          end
        end
      end
    end
  end.

Fixpoint drop_bytes (n : nat) (s : string) : string :=
  match n, s with
  | O, _ => s
  | S _, EmptyString => EmptyString
  | S n', String _ t => drop_bytes n' t
  end.

(** [for _, c := range s]: the runes of [s] in order. Every turn consumes
    at least one byte, so [String.length s] turns are enough. *)
Fixpoint range_runes (fuel : nat) (s : string) : list rune :=
  match fuel with
  | O => []
  | S fuel' =>
    match s with
    | EmptyString => []
    | _ =>
      let '(r, width) := DecodeRuneInString s in
      r :: range_runes fuel' (drop_bytes width s)
    end
  end.

Definition runes (s : string) : list rune := range_runes (String.length s) s.

(** [utf8.RuneCountInString]. *)
Definition RuneCountInString (s : string) : nat := List.length (runes s).

(** [utf8.AppendRune]: the UTF-8 encoding of [r]; surrogates and values
    beyond [MaxRune] are written as [RuneError]. *)
Definition enc3 (r : rune) : string :=
  String (ascii_of (Z.lor 0xE0 (Z.shiftr r 12)))
  (String (ascii_of (Z.lor 0x80 (Z.land (Z.shiftr r 6) maskx)))
  (String (ascii_of (Z.lor 0x80 (Z.land r maskx))) EmptyString)).

Definition AppendRune (r : rune) : string :=
  if (0 <=? r) && (r <=? 0x7F) then String (ascii_of r) EmptyString
  else if (0 <=? r) && (r <=? 0x7FF) then
    String (ascii_of (Z.lor 0xC0 (Z.shiftr r 6)))
    (String (ascii_of (Z.lor 0x80 (Z.land r maskx))) EmptyString)
  else if (r <? 0) || (MaxRune <? r) || ((surrogateMin <=? r) && (r <=? surrogateMax))
  then enc3 RuneError
  else if r <=? 0xFFFF then enc3 r
  else
    String (ascii_of (Z.lor 0xF0 (Z.shiftr r 18)))
    (String (ascii_of (Z.lor 0x80 (Z.land (Z.shiftr r 12) maskx)))
    (String (ascii_of (Z.lor 0x80 (Z.land (Z.shiftr r 6) maskx)))
    (String (ascii_of (Z.lor 0x80 (Z.land r maskx))) EmptyString))).

(** [strings.Map]: every rune of [s] is replaced by its image, a negative
    image drops the rune. *)
Fixpoint write_runes (mapping : rune -> rune) (rs : list rune) : string :=
  match rs with
  | [] => EmptyString
  | c :: rest =>
    let r := mapping c in
    if 0 <=? r then String.append (AppendRune r) (write_runes mapping rest)
    else write_runes mapping rest
  end.

Definition Map (mapping : rune -> rune) (s : string) : string :=
  write_runes mapping (runes s).

Fixpoint all_bytes (p : Z -> bool) (s : string) : bool :=
  match s with
  | EmptyString => true
  | String c t => p (byte_of c) && all_bytes p t
  end.

Fixpoint map_bytes (f : Z -> Z) (s : string) : string :=
  match s with
  | EmptyString => EmptyString
  | String c t => String (ascii_of (f (byte_of c))) (map_bytes f t)
  end.

Definition lower_byte (c : Z) : Z :=
  if (0x41 <=? c) && (c <=? 0x5A) then c + 0x20 else c.

(** [strings.ToLower]: bytewise on an ASCII string, through [Map] and
    [unicode.ToLower] otherwise. The Unicode case tables are an argument. *)
Definition ToLower (unicode_ToLower : rune -> rune) (s : string) : string :=
  if all_bytes (fun c => c <? RuneSelf) s then map_bytes lower_byte s
  else Map unicode_ToLower s.

End GoStrings.


Import GoStrings.

(** ** Data model *)

(** [float64(x)] of an integer: round to nearest, ties to even. *)
Definition float64_of_Z (z : Z) : float :=
  SF2Prim (binary_normalize 53 1024 z 0 false).

Inductive AttrValue :=
| AttrString (v : string)
| AttrInt (v : Z).

Definition KeyValue : Type := string * AttrValue.

(** The three instrument types the package asks its meter for. *)
Inductive Kind := Int64Counter | Float64Histogram | Float64UpDownCounter.

(** An instrument handed out by the meter. Go compares the interface values
    by the object behind them; [inst_id] is that object's identity. *)
Record Instrument := {
  inst_id : nat;
  inst_kind : Kind;
  inst_name : string;
  inst_description : string;
  inst_unit : string
}.

(** [metric.Meter]. Whether a creation call fails is the SDK's business:
    [meter_error] gives the error (if any) from the instruments created so
    far and the call's arguments. *)
Record Meter := {
  meter_scope : string;
  meter_error : list Instrument -> Kind -> string -> string -> string -> option string
}.

Record Tracer := { tracer_scope : string }.

Inductive Span :=
| NoopSpan
| SdkSpan (id : nat).

(** [context.Context]: the span it carries, and whether its [Done] channel
    can ever be closed ([context.Background] has a nil [Done] channel). *)
Record Context := {
  ctx_span : option Span;
  ctx_cancellable : bool
}.

Definition Background : Context := {| ctx_span := None; ctx_cancellable := false |}.

Definition ContextWithSpan (ctx : Context) (sp : Span) : Context :=
  {| ctx_span := Some sp; ctx_cancellable := ctx_cancellable ctx |}.

(** Everything the package does to the outside world, in program order. *)
Inductive Event :=
| CounterAdd (c : Instrument) (value : Z) (attrs : list KeyValue)
| HistogramRecord (h : Instrument) (value : float) (attrs : list KeyValue)
| UpDownCounterAdd (g : Instrument) (diff : float) (attrs : list KeyValue)
| LogPrintf (line : string)
| SpanStart (sp : Span) (name : string)
| SpanSetAttributes (sp : Span) (attrs : list KeyValue)
| SpanAddEvent (sp : Span) (name : string) (attrs : list KeyValue)
| SpanEnd (sp : Span)
| WriterWriteHeader (statusCode : Z)
| WriterWrite (data : string)
| SetNoopProviders
| SetTracerProvider
| SetMeterProvider
| GoUpdateSystemMetrics (ctx : Context).

(** The package-level variables, the objects created so far, and the trail
    of outside effects. A nil interface value is [None]. *)
Record State := {
  tracer : option Tracer;
  meter : option Meter;
  counters : gmap string Instrument;
  histograms : gmap string Instrument;
  gauges : gmap string Instrument;
  lastKnownValues : gmap string float;
  created : list Instrument;
  spans_started : nat;
  trail : list Event
}.

(** The state at program start: [var tracer], [var meter] unset, the four
    maps made empty. *)
Definition initial_state : State := {|
  tracer := None; meter := None;
  counters := ∅; histograms := ∅; gauges := ∅; lastKnownValues := ∅;
  created := []; spans_started := 0; trail := []
|}.

Definition set_tracer (t : option Tracer) (s : State) : State :=
  {| tracer := t; meter := meter s; counters := counters s;
     histograms := histograms s; gauges := gauges s;
     lastKnownValues := lastKnownValues s; created := created s;
     spans_started := spans_started s; trail := trail s |}.

Definition set_meter (m : option Meter) (s : State) : State :=
  {| tracer := tracer s; meter := m; counters := counters s;
     histograms := histograms s; gauges := gauges s;
     lastKnownValues := lastKnownValues s; created := created s;
     spans_started := spans_started s; trail := trail s |}.

Definition set_counters (m : gmap string Instrument) (s : State) : State :=
  {| tracer := tracer s; meter := meter s; counters := m;
     histograms := histograms s; gauges := gauges s;
     lastKnownValues := lastKnownValues s; created := created s;
     spans_started := spans_started s; trail := trail s |}.

Definition set_histograms (m : gmap string Instrument) (s : State) : State :=
  {| tracer := tracer s; meter := meter s; counters := counters s;
     histograms := m; gauges := gauges s;
     lastKnownValues := lastKnownValues s; created := created s;
     spans_started := spans_started s; trail := trail s |}.

Definition set_gauges (m : gmap string Instrument) (s : State) : State :=
  {| tracer := tracer s; meter := meter s; counters := counters s;
     histograms := histograms s; gauges := m;
     lastKnownValues := lastKnownValues s; created := created s;
     spans_started := spans_started s; trail := trail s |}.

Definition set_lastKnownValues (m : gmap string float) (s : State) : State :=
  {| tracer := tracer s; meter := meter s; counters := counters s;
     histograms := histograms s; gauges := gauges s;
     lastKnownValues := m; created := created s;
     spans_started := spans_started s; trail := trail s |}.

Definition set_created (l : list Instrument) (s : State) : State :=
  {| tracer := tracer s; meter := meter s; counters := counters s;
     histograms := histograms s; gauges := gauges s;
     lastKnownValues := lastKnownValues s; created := l;
     spans_started := spans_started s; trail := trail s |}.

Definition set_spans_started (n : nat) (s : State) : State :=
  {| tracer := tracer s; meter := meter s; counters := counters s;
     histograms := histograms s; gauges := gauges s;
     lastKnownValues := lastKnownValues s; created := created s;
     spans_started := n; trail := trail s |}.

Definition set_trail (t : list Event) (s : State) : State :=
  {| tracer := tracer s; meter := meter s; counters := counters s;
     histograms := histograms s; gauges := gauges s;
     lastKnownValues := lastKnownValues s; created := created s;
     spans_started := spans_started s; trail := t |}.

(** ** The monad of package code: state passing, with Go's panic *)

Inductive Outcome (A : Type) :=
| Returned (a : A) (s : State)
| Panicked (reason : string) (s : State).
Arguments Returned {A} a s.
Arguments Panicked {A} reason s.

Definition M (A : Type) : Type := State -> Outcome A.

Definition ret {A} (a : A) : M A := fun s => Returned a s.

Definition bind {A B} (m : M A) (k : A -> M B) : M B :=
  fun s => match m s with
           | Returned a s' => k a s'
           | Panicked r s' => Panicked r s'
           end.

Notation "x <- m ;; k" := (bind m (fun x => k))
  (at level 100, m at next level, right associativity).
Notation "m ;;; k" := (bind m (fun _ => k))
  (at level 100, right associativity).

Definition get : M State := fun s => Returned s s.
Definition modify (f : State -> State) : M unit := fun s => Returned tt (f s).
Definition emit (e : Event) : M unit := modify (fun s => set_trail (trail s ++ [e]) s).
Definition panic {A} (reason : string) : M A := fun s => Panicked reason s.

(** [defer d]: [d] runs when the body returns and also when it panics. *)
Definition defer {A} (d : State -> State) (body : M A) : M A :=
  fun s => match body s with
           | Returned a s' => Returned a (d s')
           | Panicked r s' => Panicked r (d s')
           end.

Definition nil_dereference : string :=
  "runtime error: invalid memory address or nil pointer dereference".

(** ** The OpenTelemetry objects the package calls *)

(** The object a successful creation call returns: a new one each time. *)
Definition new_instrument (s : State) (k : Kind) (name description unit : string)
  : Instrument :=
  {| inst_id := List.length (created s); inst_kind := k;
     inst_name := name; inst_description := description;
     inst_unit := unit |}.

(** [meter.Int64Counter], [meter.Float64Histogram],
    [meter.Float64UpDownCounter]: a method call on the interface value
    [meter]; on a nil interface the call panics. *)
Definition meter_new (k : Kind) (name description unit : string)
  : M (Instrument + string) :=
  s <- get ;;
  match meter s with
  | None => panic nil_dereference
  | Some mt =>
    match meter_error mt (created s) k name description unit with
    | Some err => ret (inr err)
    | None =>
      let i := new_instrument s k name description unit in
      modify (set_created (created s ++ [i])) ;;;
      ret (inl i)
    end
  end.

(** [tracer.Start]. *)
Definition tracer_Start (ctx : Context) (name : string) : M (Context * Span) :=
  s <- get ;;
  match tracer s with
  | None => panic nil_dereference
  | Some _ =>
    let sp := SdkSpan (spans_started s) in
    modify (set_spans_started (S (spans_started s))) ;;;
    emit (SpanStart sp name) ;;;
    ret (ContextWithSpan ctx sp, sp)
  end.

(** [trace.SpanFromContext]: never nil, the no-op span when [ctx] has none. *)
Definition SpanFromContext (ctx : Context) : Span :=
  match ctx_span ctx with
  | Some sp => sp
  | None => NoopSpan
  end.

(** Methods of a span; those of the no-op span do nothing. *)
Definition span_SetAttributes (sp : Span) (attrs : list KeyValue) : M unit :=
  match sp with
  | NoopSpan => ret tt
  | SdkSpan _ => emit (SpanSetAttributes sp attrs)
  end.

Definition span_AddEvent (sp : Span) (name : string) (attrs : list KeyValue) : M unit :=
  match sp with
  | NoopSpan => ret tt
  | SdkSpan _ => emit (SpanAddEvent sp name attrs)
  end.

Definition span_End (sp : Span) (s : State) : State :=
  match sp with
  | NoopSpan => s
  | SdkSpan _ => set_trail (trail s ++ [SpanEnd sp]) s
  end.

(** ** Metrics helper functions *)

Definition CreateCounter (name description unit : string) : M (Instrument + string) :=
  s <- get ;;
  match counters s !! name with
  | Some counter => ret (inl counter)
  | None =>
    r <- meter_new Int64Counter name description unit ;;
    match r with
    | inr err => ret (inr err)
    | inl counter =>
      modify (fun s => set_counters (<[name := counter]> (counters s)) s) ;;;
      ret (inl counter)
    end
  end.

Definition CreateHistogram (name description unit : string) : M (Instrument + string) :=
  s <- get ;;
  match histograms s !! name with
  | Some histogram => ret (inl histogram)
  | None =>
    r <- meter_new Float64Histogram name description unit ;;
    match r with
    | inr err => ret (inr err)
    | inl histogram =>
      modify (fun s => set_histograms (<[name := histogram]> (histograms s)) s) ;;;
      ret (inl histogram)
    end
  end.

Definition CreateGauge (name description unit : string) : M (Instrument + string) :=
  s <- get ;;
  match gauges s !! name with
  | Some gauge => ret (inl gauge)
  | None =>
    r <- meter_new Float64UpDownCounter name description unit ;;
    match r with
    | inr err => ret (inr err)
    | inl gauge =>
      modify (fun s => set_gauges (<[name := gauge]> (gauges s)) s) ;;;
      ret (inl gauge)
    end
  end.

(** CreateDynamicCounter creates a counter metric if it doesn't already exist. *)
Definition CreateDynamicCounter (name description unit : string) : M (Instrument + string) :=
  s <- get ;;
  match counters s !! name with
  | Some counter => ret (inl counter)
  | None => CreateCounter name description unit
  end.

Definition is_alnum (r : rune) : bool :=
  ((0x61 <=? r) && (r <=? 0x7A)) || ((0x41 <=? r) && (r <=? 0x5A))
  || ((0x30 <=? r) && (r <=? 0x39)).

Definition underscore : rune := 0x5F.

Definition sanitize_rune (r : rune) : rune :=
  if is_alnum r then r else underscore.

(** sanitizePath replaces non-alphanumeric characters with underscores. *)
Definition sanitizePath (path : string) : string := Map sanitize_rune path.

Definition IncrementCounter (ctx : Context) (name : string) (value : Z)
    (attrs : list KeyValue) : M unit :=
  r <- CreateDynamicCounter name ("Dynamic counter for " +:+ name) "" ;;
  match r with
  | inr err =>
    emit (LogPrintf ("Warning: Failed to create counter '" +:+ name +:+ "': " +:+ err))
  | inl counter => emit (CounterAdd counter value attrs)
  end.

Definition RecordHistogram (ctx : Context) (name : string) (value : float)
    (attrs : list KeyValue) : M unit :=
  s <- get ;;
  match histograms s !! name with
  | Some histogram => emit (HistogramRecord histogram value attrs)
  | None => emit (LogPrintf ("Warning: Histogram '" +:+ name +:+ "' not found"))
  end.

(** A missing key reads as the zero value of [float64]. *)
Definition getGaugeValue (ctx : Context) (name : string) : M float :=
  s <- get ;;
  ret (default PrimFloat.zero (lastKnownValues s !! name)).

Definition SetGauge (ctx : Context) (name : string) (value : float)
    (attrs : list KeyValue) : M unit :=
  s <- get ;;
  match gauges s !! name with
  | Some gauge =>
    current <- getGaugeValue ctx name ;;
    let diff := PrimFloat.sub value current in
    emit (UpDownCounterAdd gauge diff attrs) ;;;
    modify (fun s => set_lastKnownValues (<[name := value]> (lastKnownValues s)) s)
  | None => ret tt
  end.

Definition metricsToCreate : list (string * string * string * string) :=
  [ ("memory_alloc_bytes", "Current memory allocation in bytes", "bytes", "gauge");
    ("memory_total_alloc_bytes", "Total memory allocation in bytes", "bytes", "gauge");
    ("memory_sys_bytes", "System memory obtained in bytes", "bytes", "gauge");
    ("num_goroutines", "Number of goroutines", "", "gauge");
    ("num_cpu", "Number of CPUs", "", "gauge");
    ("gc_runs_total", "Total number of completed GC cycles", "", "counter");
    ("http_request_duration_seconds", "HTTP request duration in seconds", "s", "histogram");
    ("http_requests_total", "Total number of HTTP requests", "", "counter") ]%string.

Definition error_of (r : Instrument + string) : option string :=
  match r with inl _ => None | inr err => Some err end.

(** The loop of [createMetrics]; the result is the returned [error]. *)
Fixpoint createMetrics_from (l : list (string * string * string * string))
  : M (option string) :=
  match l with
  | [] => ret None
  | (name, description, unit, metricType) :: rest =>
    let continue (r : Instrument + string) : M (option string) :=
      match error_of r with
      | Some err => ret (Some ("failed to create " +:+ name +:+ ": " +:+ err))
      | None => createMetrics_from rest
      end in
    if String.eqb metricType "counter" then
      r <- CreateCounter name description unit ;; continue r
    else if String.eqb metricType "gauge" then
      r <- CreateGauge name description unit ;; continue r
    else if String.eqb metricType "histogram" then
      r <- CreateHistogram name description unit ;; continue r
    else ret (Some ("unknown metric type: " +:+ metricType))
  end.

Definition createMetrics : M (option string) := createMetrics_from metricsToCreate.

(** ** Tracing helper functions *)

Definition StartSpan (ctx : Context) (name : string) : M (Context * Span) :=
  s <- get ;;
  match tracer s with
  | None => ret (ctx, NoopSpan)
  | Some _ => tracer_Start ctx name
  end.

Definition AddEvent (ctx : Context) (name : string) (attrs : list KeyValue) : M unit :=
  span_AddEvent (SpanFromContext ctx) name attrs.

Definition SetAttributes (ctx : Context) (attrs : list KeyValue) : M unit :=
  span_SetAttributes (SpanFromContext ctx) attrs.

(** ** System sampler *)

(** [runtime.MemStats] (the fields read), [runtime.NumGoroutine()] and
    [runtime.NumCPU()] at one tick. *)
Record MemStats := { Alloc : Z; TotalAlloc : Z; Sys : Z; NumGC : Z }.

Record Reading := {
  rd_MemStats : MemStats;
  rd_NumGoroutine : Z;
  rd_NumCPU : Z
}.

Definition uint32 (z : Z) : Z := z mod 2 ^ 32.

(** The body of [case <-ticker.C]; the result is the new [lastNumGC]. *)
Definition sample (ctx : Context) (rd : Reading) (lastNumGC : Z) : M Z :=
  let m := rd_MemStats rd in
  SetGauge ctx "memory_alloc_bytes" (float64_of_Z (Alloc m)) [] ;;;
  SetGauge ctx "memory_total_alloc_bytes" (float64_of_Z (TotalAlloc m)) [] ;;;
  SetGauge ctx "memory_sys_bytes" (float64_of_Z (Sys m)) [] ;;;
  SetGauge ctx "num_goroutines" (float64_of_Z (rd_NumGoroutine rd)) [] ;;;
  SetGauge ctx "num_cpu" (float64_of_Z (rd_NumCPU rd)) [] ;;;
  let gcRuns := uint32 (NumGC m - lastNumGC) in
  if 0 <? gcRuns then
    IncrementCounter ctx "gc_runs_total" gcRuns [] ;;;
    ret (NumGC m)
  else ret lastNumGC.

(** Where the goroutine of [updateSystemMetrics] is: in its [for] loop
    with a running ticker, returned (the deferred [ticker.Stop] has run),
    or taken down by a panic. *)
Inductive Sampler :=
| Looping (lastNumGC : Z)
| Stopped
| Crashed.

(** What [select] receives. *)
Inductive Received :=
| Done
| Tick (rd : Reading).

(** One turn of the [for { select { ... } }] loop. [<-ctx.Done()] can only
    be received on a context whose [Done] channel is not nil. *)
Inductive sampler_step (ctx : Context)
  : Sampler * State -> Received -> Sampler * State -> Prop :=
| step_done lastNumGC s :
    ctx_cancellable ctx = true ->
    sampler_step ctx (Looping lastNumGC, s) Done (Stopped, s)
| step_tick lastNumGC s rd lastNumGC' s' :
    sample ctx rd lastNumGC s = Returned lastNumGC' s' ->
    sampler_step ctx (Looping lastNumGC, s) (Tick rd) (Looping lastNumGC', s')
| step_tick_panic lastNumGC s rd reason s' :
    sample ctx rd lastNumGC s = Panicked reason s' ->
    sampler_step ctx (Looping lastNumGC, s) (Tick rd) (Crashed, s').

(** A run of the goroutine and what it received, in order. *)
Inductive sampler_run (ctx : Context)
  : Sampler * State -> list Received -> Sampler * State -> Prop :=
| run_nil c : sampler_run ctx c [] c
| run_cons c1 r c2 rs c3 :
    sampler_step ctx c1 r c2 ->
    sampler_run ctx c2 rs c3 ->
    sampler_run ctx c1 (r :: rs) c3.

(** [updateSystemMetrics(ctx)] as it is entered: [var lastNumGC uint32]. *)
Definition updateSystemMetrics_start (s : State) : Sampler * State := (Looping 0, s).

(** ** Initialisation *)

(** What building the export pipeline yields: the errors of
    [resource.New], [otlptracehttp.New] and [otlpmetrichttp.New], and the
    tracer and meter of the two providers. *)
Record Env := {
  env_resource_error : option string;
  env_trace_exporter_error : option string;
  env_metric_exporter_error : option string;
  env_tracer : Tracer;
  env_meter : Meter
}.

Inductive ObservabilityShutdownFunc :=
| ShutdownNothing
| ShutdownProviders.

Definition InitTelemetry (env : Env) (enableTelemetry : bool)
  : M (option ObservabilityShutdownFunc * option string) :=
  if negb enableTelemetry then
    emit SetNoopProviders ;;;
    ret (Some ShutdownNothing, None)
  else
  match env_resource_error env with
  | Some err => ret (None, Some ("failed to create resource: " +:+ err))
  | None =>
  match env_trace_exporter_error env with
  | Some err => ret (None, Some ("failed to create trace exporter: " +:+ err))
  | None =>
    emit SetTracerProvider ;;;
    modify (set_tracer (Some (env_tracer env))) ;;;
    match env_metric_exporter_error env with
    | Some err => ret (None, Some ("failed to create metric exporter: " +:+ err))
    | None =>
      emit SetMeterProvider ;;;
      modify (set_meter (Some (env_meter env))) ;;;
      err <- createMetrics ;;
      match err with
      | Some err => ret (None, Some ("failed to create metrics: " +:+ err))
      | None =>
        emit (GoUpdateSystemMetrics Background) ;;;
        ret (Some ShutdownProviders, None)
      end
    end
  end
  end.

(** ** Request middleware *)

Record Request := {
  Method : string;
  URL_Path : string;
  URL_String : string;
  Host : string;
  UserAgent : string;
  req_Context : Context
}.

Record customResponseWriter := { statusCode : Z }.

Definition StatusOK : Z := 200.

Definition WriteHeader (crw : customResponseWriter) (code : Z) : M customResponseWriter :=
  let crw := {| statusCode := code |} in
  emit (WriterWriteHeader code) ;;;
  ret crw.

(** [Write] is promoted from the embedded [http.ResponseWriter]. *)
Definition Write (crw : customResponseWriter) (data : string) : M customResponseWriter :=
  emit (WriterWrite data) ;;;
  ret crw.

(** What a handler that returns does with the writer it is given. *)
Inductive WriterCall :=
| DoWriteHeader (code : Z)
| DoWrite (data : string).

Fixpoint ServeHTTP (next : list WriterCall) (crw : customResponseWriter)
  : M customResponseWriter :=
  match next with
  | [] => ret crw
  | DoWriteHeader code :: rest => crw' <- WriteHeader crw code ;; ServeHTTP rest crw'
  | DoWrite data :: rest => crw' <- Write crw data ;; ServeHTTP rest crw'
  end.

(** [time.Duration.Seconds] of a duration in nanoseconds. *)
Definition Seconds (d : Z) : float :=
  PrimFloat.add (float64_of_Z (Z.quot d 1000000000))
                (PrimFloat.div (float64_of_Z (Z.rem d 1000000000))
                               (float64_of_Z 1000000000)).

Definition methodPathCounter (unicode_ToLower : rune -> rune) (method path : string)
  : string :=
  "http_requests_" +:+ ToLower unicode_ToLower method +:+ "_" +:+ sanitizePath path.

(** The handler [TraceMiddleware(next)] returns, serving [r]; [elapsed] is
    what [time.Since(startTime)] reads after [next] has returned. *)
Definition TraceMiddleware (unicode_ToLower : rune -> rune)
    (next : list WriterCall) (elapsed : Z) (r : Request) : M unit :=
  started <- StartSpan (req_Context r) "http_request" ;;
  let '(ctx, span) := started in
  defer (span_End span) (
    let method := Method r in
    let path := URL_Path r in
    span_SetAttributes span
      [ ("http.method", AttrString method);
        ("http.url", AttrString (URL_String r));
        ("http.path", AttrString path);
        ("http.host", AttrString (Host r));
        ("http.user_agent", AttrString (UserAgent r)) ]%string ;;;
    crw <- ServeHTTP next {| statusCode := StatusOK |} ;;
    span_SetAttributes span [("http.status_code", AttrInt (statusCode crw))]%string ;;;
    let labels :=
      [ ("method", AttrString method);
        ("path", AttrString path);
        ("status", AttrInt (statusCode crw)) ]%string in
    RecordHistogram ctx "http_request_duration_seconds" (Seconds elapsed) labels ;;;
    IncrementCounter ctx "http_requests_total" 1 labels ;;;
    IncrementCounter ctx (methodPathCounter unicode_ToLower method path) 1
      [("status", AttrInt (statusCode crw))]%string).

(** ** Sequences of registry calls *)

Inductive Call :=
| CallCreateCounter (name description unit : string)
| CallCreateHistogram (name description unit : string)
| CallCreateGauge (name description unit : string)
| CallIncrementCounter (ctx : Context) (name : string) (value : Z) (attrs : list KeyValue)
| CallRecordHistogram (ctx : Context) (name : string) (value : float) (attrs : list KeyValue)
| CallSetGauge (ctx : Context) (name : string) (value : float) (attrs : list KeyValue).

Definition run_call (c : Call) : M unit :=
  match c with
  | CallCreateCounter n d u => CreateCounter n d u ;;; ret tt
  | CallCreateHistogram n d u => CreateHistogram n d u ;;; ret tt
  | CallCreateGauge n d u => CreateGauge n d u ;;; ret tt
  | CallIncrementCounter ctx n v a => IncrementCounter ctx n v a
  | CallRecordHistogram ctx n v a => RecordHistogram ctx n v a
  | CallSetGauge ctx n v a => SetGauge ctx n v a
  end.

Fixpoint run_calls (cs : list Call) : M unit :=
  match cs with
  | [] => ret tt
  | c :: rest => run_call c ;;; run_calls rest
  end.

(** ** Reading the trail *)

#[global] Instance Kind_eq_dec : EqDecision Kind.
Proof. solve_decision. Defined.

(** Identity of instruments. *)
#[global] Instance Instrument_eq_dec : EqDecision Instrument.
Proof. solve_decision. Defined.

(** The deltas handed to [gauge.Add], oldest first. *)
Fixpoint gauge_diffs (g : Instrument) (tr : list Event) : list float :=
  match tr with
  | [] => []
  | UpDownCounterAdd g' diff _ :: rest =>
    if decide (g = g') then diff :: gauge_diffs g rest else gauge_diffs g rest
  | _ :: rest => gauge_diffs g rest
  end.

(** What an up-down counter holds after the deltas [ds]: their float64 sum,
    added in order from zero. *)
Definition accumulate (ds : list float) : float :=
  fold_left PrimFloat.add ds PrimFloat.zero.

(** The values handed to [counter.Add], oldest first. *)
Fixpoint counter_adds (c : Instrument) (tr : list Event) : list (Z * list KeyValue) :=
  match tr with
  | [] => []
  | CounterAdd c' v attrs :: rest =>
    if decide (c = c') then (v, attrs) :: counter_adds c rest else counter_adds c rest
  | _ :: rest => counter_adds c rest
  end.

(** The observations handed to [histogram.Record], oldest first. *)
Fixpoint histogram_records (h : Instrument) (tr : list Event)
  : list (float * list KeyValue) :=
  match tr with
  | [] => []
  | HistogramRecord h' v attrs :: rest =>
    if decide (h = h') then (v, attrs) :: histogram_records h rest
    else histogram_records h rest
  | _ :: rest => histogram_records h rest
  end.

(** The [http.status_code] values attached to spans, oldest first. *)
Fixpoint span_status_codes (tr : list Event) : list Z :=
  match tr with
  | [] => []
  | SpanSetAttributes _ [(key, AttrInt code)] :: rest =>
    if String.eqb key "http.status_code" then code :: span_status_codes rest
    else span_status_codes rest
  | _ :: rest => span_status_codes rest
  end.

Fixpoint log_lines (tr : list Event) : list string :=
  match tr with
  | [] => []
  | LogPrintf line :: rest => line :: log_lines rest
  | _ :: rest => log_lines rest
  end.

(** ** The registry by kind *)

Definition registry (k : Kind) (s : State) : gmap string Instrument :=
  match k with
  | Int64Counter => counters s
  | Float64Histogram => histograms s
  | Float64UpDownCounter => gauges s
  end.

(** The get-or-create operation of a kind. *)
Definition Create (k : Kind) : string -> string -> string -> M (Instrument + string) :=
  match k with
  | Int64Counter => CreateCounter
  | Float64Histogram => CreateHistogram
  | Float64UpDownCounter => CreateGauge
  end.

Definition set_registry (k : Kind) (m : gmap string Instrument) (s : State) : State :=
  match k with
  | Int64Counter => set_counters m s
  | Float64Histogram => set_histograms m s
  | Float64UpDownCounter => set_gauges m s
  end.

Definition state_of {A} (o : Outcome A) : State :=
  match o with
  | Returned _ s => s
  | Panicked _ s => s
  end.



(** Every counter sits in the map under its own name. *)
Definition counters_named (s : State) : Prop :=
  forall n c, counters s !! n = Some c -> inst_name c = n.

(** Telemetry has been switched on: tracer and meter are set, the two HTTP
    instruments of [createMetrics] are registered, and every counter sits
    under its own name. *)
Record ready (s : State) : Prop := {
  ready_tracer : is_Some (tracer s);
  ready_meter : is_Some (meter s);
  ready_histogram : is_Some (histograms s !! "http_request_duration_seconds"%string);
  ready_counter : is_Some (counters s !! "http_requests_total"%string);
  ready_named : counters_named s
}.

(** The [switch m.metricType] of [createMetrics], read as a kind. *)
Definition kind_of_metricType (metricType : string) : option Kind :=
  if String.eqb metricType "counter" then Some Int64Counter
  else if String.eqb metricType "gauge" then Some Float64UpDownCounter
  else if String.eqb metricType "histogram" then Some Float64Histogram
  else None.


(** What a call leaves alone: tracer, meter and every registered
    instrument; counters stay under their own names. *)
Definition extends (s s' : State) : Prop :=
  tracer s' = tracer s /\ meter s' = meter s
  /\ (counters_named s -> counters_named s')
  /\ (forall k n c, registry k s !! n = Some c -> registry k s' !! n = Some c).

(** ** The status code of a response, in the specification's words *)

(** The first status code written: that of the first [WriteHeader] call,
    and the implicit 200 if the handler writes the body first or never
    calls [WriteHeader]. *)
Definition first_status_written (next : list WriterCall) : Z :=
  match next with
  | [] => StatusOK
  | DoWriteHeader code :: _ => code
  | DoWrite _ :: _ => StatusOK
  end.

(** The status code the wrapper holds when the handler returns: that of
    the latest [WriteHeader] call. *)
Fixpoint last_status (next : list WriterCall) (current : Z) : Z :=
  match next with
  | [] => current
  | DoWriteHeader code :: rest => last_status rest code
  | DoWrite _ :: rest => last_status rest current
  end.

(** A handler's calls on the writer other than [WriteHeader]. *)
Definition no_WriteHeader (w : WriterCall) : Prop :=
  match w with
  | DoWriteHeader _ => False
  | DoWrite _ => True
  end.

(** What the handler's calls do to the wrapped writer. *)
Fixpoint writer_events (next : list WriterCall) : list Event :=
  match next with
  | [] => []
  | DoWriteHeader code :: rest => WriterWriteHeader code :: writer_events rest
  | DoWrite data :: rest => WriterWrite data :: writer_events rest
  end.

(** ** Gauge sequences *)

Definition set_gauge_calls (ctx : Context) (n : string)
    (vs : list (float * list KeyValue)) : list Call :=
  map (fun va => CallSetGauge ctx n (fst va) (snd va)) vs.

(** The deltas of consecutive values, starting from [prev]. *)
Fixpoint consecutive_diffs (prev : float) (vs : list float) : list float :=
  match vs with
  | [] => []
  | v :: rest => PrimFloat.sub v prev :: consecutive_diffs v rest
  end.

(** Every step of the sequence is exact in float64: adding the delta to
    the previous value gives the new value. *)
Fixpoint exact_steps (prev : float) (vs : list float) : Prop :=
  match vs with
  | [] => True
  | v :: rest => PrimFloat.add prev (PrimFloat.sub v prev) = v /\ exact_steps v rest
  end.

(** ** Strings as byte lists *)

Fixpoint string_bytes (s : string) : list Z :=
  match s with
  | EmptyString => []
  | String c t => byte_of c :: string_bytes t
  end.

Fixpoint bytes_string (l : list Z) : string :=
  match l with
  | [] => EmptyString
  | b :: rest => String (ascii_of b) (bytes_string rest)
  end.

(** A byte [sanitizePath] may write: an ASCII letter, a digit or the filler. *)
Definition is_sanitized (b : Z) : bool := is_alnum b || (b =? underscore).

(** ** A concrete pipeline, for running the code on examples *)

(** A meter that refuses the empty instrument name and accepts the rest. *)
Definition example_meter : Meter := {|
  meter_scope := "application-metrics";
  meter_error := fun _ _ name _ _ =>
    if String.eqb name "" then Some "invalid instrument name"%string else None
|}.

Definition example_env : Env := {|
  env_resource_error := None;
  env_trace_exporter_error := None;
  env_metric_exporter_error := None;
  env_tracer := {| tracer_scope := "application-tracer" |};
  env_meter := example_meter
|}.

(** The package after [InitTelemetry(..., true)] and after
    [InitTelemetry(..., false)]. *)
Definition enabled_state : State :=
  state_of (InitTelemetry example_env true initial_state).

Definition disabled_state : State :=
  state_of (InitTelemetry example_env false initial_state).

Definition example_request : Request := {|
  Method := "GET";
  URL_Path := "/v1/healthcheck";
  URL_String := "/v1/healthcheck?verbose=1";
  Host := "localhost:4000";
  UserAgent := "curl/8.5.0";
  req_Context := Background
|}.

(** A context obtained from [context.WithCancel]. *)
Definition cancellable_context : Context :=
  {| ctx_span := None; ctx_cancellable := true |}.

Definition example_reading : Reading := {|
  rd_MemStats := {| Alloc := 4194304; TotalAlloc := 50331648; Sys := 16777216; NumGC := 3 |};
  rd_NumGoroutine := 9;
  rd_NumCPU := 8
|}.

(** ** Runs of the whole package *)

(** Every registered instrument was made by the meter for the kind and
    name it is registered under, and is the object with its identity. *)
Record well_registered (s : State) : Prop := {
  registered_as_made : forall k n c,
    registry k s !! n = Some c -> inst_kind c = k /\ inst_name c = n;
  registered_identity : forall k n c,
    registry k s !! n = Some c -> created s !! inst_id c = Some c
}.

(** One use of the package by the application: a registry call, a call of
    the span facade, a request through the middleware, or one tick of the
    sampler. *)
Inductive Step :=
| StepCall (c : Call)
| StepCreateDynamicCounter (name description unit : string)
| StepStartSpan (ctx : Context) (name : string)
| StepAddEvent (ctx : Context) (name : string) (attrs : list KeyValue)
| StepSetAttributes (ctx : Context) (attrs : list KeyValue)
| StepRequest (next : list WriterCall) (elapsed : Z) (r : Request)
| StepTick (ctx : Context) (rd : Reading) (lastNumGC : Z).

Definition run_step (unicode_ToLower : rune -> rune) (st : Step) : M unit :=
  match st with
  | StepCall c => run_call c
  | StepCreateDynamicCounter n d u => CreateDynamicCounter n d u ;;; ret tt
  | StepStartSpan ctx name => StartSpan ctx name ;;; ret tt
  | StepAddEvent ctx name attrs => AddEvent ctx name attrs
  | StepSetAttributes ctx attrs => SetAttributes ctx attrs
  | StepRequest next elapsed r => TraceMiddleware unicode_ToLower next elapsed r
  | StepTick ctx rd lastNumGC => sample ctx rd lastNumGC ;;; ret tt
  end.

Fixpoint run_steps (unicode_ToLower : rune -> rune) (sts : list Step) : M unit :=
  match sts with
  | [] => ret tt
  | st :: rest => run_step unicode_ToLower st ;;; run_steps unicode_ToLower rest
  end.

(** What a piece of package code guarantees in every state: it keeps
    tracer, meter and every registered instrument, it only appends to the
    trail, it keeps the registry well formed, and it returns whenever the
    meter is set. *)
Definition safe {A} (m : M A) : Prop :=
  forall s,
    extends s (state_of (m s))
    /\ (exists evs, trail (state_of (m s)) = trail s ++ evs)
    /\ (well_registered s -> well_registered (state_of (m s)))
    /\ (is_Some (meter s) -> exists a, m s = Returned a (state_of (m s))).

(** The calls a trail shows on the wrapped [http.ResponseWriter]. *)
Fixpoint writer_calls (tr : list Event) : list WriterCall :=
  match tr with
  | [] => []
  | WriterWriteHeader code :: rest => DoWriteHeader code :: writer_calls rest
  | WriterWrite data :: rest => DoWrite data :: writer_calls rest
  | _ :: rest => writer_calls rest
  end.

(** What was recorded on a span, oldest first. *)
Fixpoint span_events (sp : Span) (tr : list Event) : list Event :=
  match tr with
  | [] => []
  | e :: rest =>
    match e with
    | SpanStart sp' _ | SpanSetAttributes sp' _ | SpanAddEvent sp' _ _ | SpanEnd sp' =>
      match sp, sp' with
      | SdkSpan a, SdkSpan b =>
        if Nat.eqb a b then e :: span_events sp rest else span_events sp rest
      | _, _ => span_events sp rest
      end
    | _ => span_events sp rest
    end
  end.

(** The sum of the values handed to a counter. *)
Fixpoint total_added (adds : list (Z * list KeyValue)) : Z :=
  match adds with
  | [] => 0
  | (v, _) :: rest => v + total_added rest
  end.

(** The [NumGC] readings of the ticks received. *)
Fixpoint NumGC_readings (rs : list Received) : list Z :=
  match rs with
  | [] => []
  | Tick rd :: rest => NumGC (rd_MemStats rd) :: NumGC_readings rest
  | Done :: rest => NumGC_readings rest
  end.

(** The readings are [uint32] values. *)
Definition uint32_readings (rs : list Received) : Prop :=
  Forall (fun n => 0 <= n < 2 ^ 32) (NumGC_readings rs).

(** The readings never go down, starting from [from]. *)
Fixpoint nondecreasing (from : Z) (ns : list Z) : Prop :=
  match ns with
  | [] => True
  | n :: rest => from <= n /\ nondecreasing n rest
  end.

(** The gauges the sampler sets, with what it reads for each. *)
Definition sampled_gauges (rd : Reading) : list (string * Z) :=
  [ ("memory_alloc_bytes", Alloc (rd_MemStats rd));
    ("memory_total_alloc_bytes", TotalAlloc (rd_MemStats rd));
    ("memory_sys_bytes", Sys (rd_MemStats rd));
    ("num_goroutines", rd_NumGoroutine rd);
    ("num_cpu", rd_NumCPU rd) ]%string.

(** ** The first variant of the file *)

(** The helpers as the first variant of the file has them: [StartSpan]
    without the nil check, [IncrementCounter] and [RecordHistogram] as
    plain lookups, and a catalogue of six instruments. *)
Module FirstVariant.

Definition StartSpan (ctx : Context) (name : string) : M (Context * Span) :=
  tracer_Start ctx name.

Definition AddEvent (ctx : Context) (name : string) (attrs : list KeyValue) : M unit :=
  span_AddEvent (SpanFromContext ctx) name attrs.

Definition SetAttributes (ctx : Context) (attrs : list KeyValue) : M unit :=
  span_SetAttributes (SpanFromContext ctx) attrs.

Definition IncrementCounter (ctx : Context) (name : string) (value : Z)
    (attrs : list KeyValue) : M unit :=
  s <- get ;;
  match counters s !! name with
  | Some counter => emit (CounterAdd counter value attrs)
  | None => ret tt
  end.

Definition RecordHistogram (ctx : Context) (name : string) (value : float)
    (attrs : list KeyValue) : M unit :=
  s <- get ;;
  match histograms s !! name with
  | Some histogram => emit (HistogramRecord histogram value attrs)
  | None => ret tt
  end.

Definition metricsToCreate : list (string * string * string * string) :=
  [ ("memory_alloc_bytes", "Current memory allocation in bytes", "bytes", "gauge");
    ("memory_total_alloc_bytes", "Total memory allocation in bytes", "bytes", "gauge");
    ("memory_sys_bytes", "System memory obtained in bytes", "bytes", "gauge");
    ("num_goroutines", "Number of goroutines", "{count}", "gauge");
    ("num_cpu", "Number of CPUs", "{count}", "gauge");
    ("gc_runs_total", "Total number of completed GC cycles", "{count}", "counter") ]%string.

Definition createMetrics : M (option string) := createMetrics_from metricsToCreate.

Definition InitTelemetry (env : Env) (enableTelemetry : bool)
  : M (option ObservabilityShutdownFunc * option string) :=
  if negb enableTelemetry then
    emit SetNoopProviders ;;;
    ret (Some ShutdownNothing, None)
  else
  match env_resource_error env with
  | Some err => ret (None, Some ("failed to create resource: " +:+ err))
  | None =>
  match env_trace_exporter_error env with
  | Some err => ret (None, Some ("failed to create trace exporter: " +:+ err))
  | None =>
    emit SetTracerProvider ;;;
    modify (set_tracer (Some (env_tracer env))) ;;;
    match env_metric_exporter_error env with
    | Some err => ret (None, Some ("failed to create metric exporter: " +:+ err))
    | None =>
      emit SetMeterProvider ;;;
      modify (set_meter (Some (env_meter env))) ;;;
      err <- createMetrics ;;
      match err with
      | Some err => ret (None, Some ("failed to create metrics: " +:+ err))
      | None =>
        emit (GoUpdateSystemMetrics Background) ;;;
        ret (Some ShutdownProviders, None)
      end
    end
  end
  end.

(** The tick of the first variant's sampler: the same gauges, and the
    first variant's [IncrementCounter]. *)
Definition sample (ctx : Context) (rd : Reading) (lastNumGC : Z) : M Z :=
  let m := rd_MemStats rd in
  SetGauge ctx "memory_alloc_bytes" (float64_of_Z (Alloc m)) [] ;;;
  SetGauge ctx "memory_total_alloc_bytes" (float64_of_Z (TotalAlloc m)) [] ;;;
  SetGauge ctx "memory_sys_bytes" (float64_of_Z (Sys m)) [] ;;;
  SetGauge ctx "num_goroutines" (float64_of_Z (rd_NumGoroutine rd)) [] ;;;
  SetGauge ctx "num_cpu" (float64_of_Z (rd_NumCPU rd)) [] ;;;
  let gcRuns := uint32 (NumGC m - lastNumGC) in
  if 0 <? gcRuns then
    IncrementCounter ctx "gc_runs_total" gcRuns [] ;;;
    ret (NumGC m)
  else ret lastNumGC.

End FirstVariant.

(** The contexts on which the sampler goroutine was started. *)
Fixpoint samplers_started (tr : list Event) : list Context :=
  match tr with
  | [] => []
  | GoUpdateSystemMetrics ctx :: rest => ctx :: samplers_started rest
  | _ :: rest => samplers_started rest
  end.

(** An example run of the application after start-up. *)
Definition example_steps : list Step :=
  [ StepRequest [DoWriteHeader 404] 900000 example_request;
    StepTick Background example_reading 0;
    StepCall (CallCreateHistogram "db_query_seconds" "Query time" "s");
    StepCall (CallRecordHistogram Background "db_query_seconds" (float64_of_Z 2) []);
    StepStartSpan Background "job";
    StepRequest [DoWrite "ok"] 1200000 example_request ]%string.

(** The package when [InitTelemetry] reaches [createMetrics]: both
    providers installed, [tracer] and [meter] assigned. *)
Definition providers_installed (env : Env) (s : State) : State :=
  set_meter (Some (env_meter env))
    (set_trail (trail s ++ [SetTracerProvider; SetMeterProvider])
       (set_tracer (Some (env_tracer env)) s)).

(** The instruments [createMetrics] declares, as a meter that accepts them
    all makes them at program start, in order. *)
Fixpoint declared_from (i : nat) (l : list (string * string * string * string))
  : list Instrument :=
  match l with
  | [] => []
  | (n, d, u, ty) :: rest =>
    match kind_of_metricType ty with
    | Some k =>
      {| inst_id := i; inst_kind := k; inst_name := n;
         inst_description := d; inst_unit := u |} :: declared_from (S i) rest
    | None => declared_from i rest
    end
  end.

Definition declared_instruments : list Instrument := declared_from 0 metricsToCreate.

(** The declared instruments of a kind, by name. *)
Definition declared_registry (k : Kind) : gmap string Instrument :=
  list_to_map (map (fun c => (inst_name c, c))
                   (filter (fun c => inst_kind c = k) declared_instruments)).

(** Two states with the same registry and the same instruments made. *)
Definition same_registry (s t : State) : Prop :=
  (forall k, registry k s = registry k t) /\ created s = created t.

(** What a sequence of [SetGauge] calls on one name hands to the up-down
    counter: each call its own label set, each delta taken from the value
    of the call before, whatever that call's labels were. *)
Fixpoint gauge_adds (g : Instrument) (prev : float)
    (vs : list (float * list KeyValue)) : list Event :=
  match vs with
  | [] => []
  | (v, attrs) :: rest =>
    UpDownCounterAdd g (PrimFloat.sub v prev) attrs :: gauge_adds g v rest
  end.

(** A piece of package code never lowers the count of spans started. *)
Definition counts_spans {A} (m : M A) : Prop :=
  forall s, (spans_started s <= spans_started (state_of (m s)))%nat.

(** The reading of the last tick received, [d] if there was none. *)
Fixpoint last_tick (d : option Reading) (rs : list Received) : option Reading :=
  match rs with
  | [] => d
  | Tick rd :: rest => last_tick (Some rd) rest
  | Done :: rest => last_tick d rest
  end.

(** A reading taken some ticks after [example_reading]. *)
Definition later_reading : Reading := {|
  rd_MemStats := {| Alloc := 3145728; TotalAlloc := 83886080; Sys := 16777216; NumGC := 7 |};
  rd_NumGoroutine := 12;
  rd_NumCPU := 8
|}.

(** A piece of package code whose calls on the wrapped
    [http.ResponseWriter] are exactly [ws], whether it returns or panics. *)
Definition writes {A} (m : M A) (ws : list WriterCall) : Prop :=
  forall s, exists evs,
    trail (state_of (m s)) = trail s ++ evs /\ writer_calls evs = ws.

(** A piece of package code that returns in every state. *)
Definition returns {A} (m : M A) : Prop :=
  forall s, exists a, m s = Returned a (state_of (m s)).

(** Start-up against a collector whose metric exporter cannot be built. *)
Definition no_metrics_env : Env :=
  {| env_resource_error := None;
     env_trace_exporter_error := None;
     env_metric_exporter_error := Some "connection refused"%string;
     env_tracer := env_tracer example_env;
     env_meter := env_meter example_env |}.

(** ** A meter that refuses long names *)






(** * Facts about the string functions *)

Section StringFacts.

Lemma byte_of_range (c : ascii) : 0 <= byte_of c < 256.
Proof.
  unfold byte_of. pose proof (N_ascii_bounded c). lia.
Qed.

Lemma byte_of_ascii_of (b : Z) : 0 <= b < 256 -> byte_of (ascii_of b) = b.
Proof.
  intros Hb. unfold byte_of, ascii_of.
  rewrite Z.mod_small by lia.
  rewrite N_ascii_embedding by lia.
  lia.
Qed.

Lemma is_alnum_range (r : rune) : is_alnum r = true -> 0x30 <= r <= 0x7A.
Proof. unfold is_alnum. lia. Qed.

Lemma sanitize_rune_range (r : rune) : 0x30 <= sanitize_rune r <= 0x7A.
Proof.
  unfold sanitize_rune. destruct (is_alnum r) eqn:E.
  - by apply is_alnum_range.
  - unfold underscore. lia.
Qed.

Lemma sanitize_rune_sanitized (r : rune) : is_sanitized (sanitize_rune r) = true.
Proof.
  unfold is_sanitized, sanitize_rune. destruct (is_alnum r) eqn:E.
  - by rewrite E.
  - by rewrite Z.eqb_refl, orb_true_r.
Qed.

Lemma sanitize_rune_fixed (b : Z) : is_sanitized b = true -> sanitize_rune b = b.
Proof.
  unfold is_sanitized, sanitize_rune. destruct (is_alnum b); simpl; [done|].
  intros H. apply Z.eqb_eq in H. by subst.
Qed.

Lemma sanitize_rune_idempotent (r : rune) :
  sanitize_rune (sanitize_rune r) = sanitize_rune r.
Proof. apply sanitize_rune_fixed, sanitize_rune_sanitized. Qed.

Lemma AppendRune_ascii (r : rune) :
  0 <= r <= 0x7F -> AppendRune r = String (ascii_of r) EmptyString.
Proof.
  intros H. unfold AppendRune.
  destruct (0 <=? r) eqn:E1; [|lia].
  destruct (r <=? 0x7F) eqn:E2; [done|lia].
Qed.

Lemma write_runes_sanitize (rs : list rune) :
  write_runes sanitize_rune rs = bytes_string (map sanitize_rune rs).
Proof.
  induction rs as [|c rs IH]; simpl; [done|].
  pose proof (sanitize_rune_range c) as Hr.
  destruct (0 <=? sanitize_rune c) eqn:E; [|lia].
  rewrite AppendRune_ascii by lia. simpl. by rewrite IH.
Qed.

Lemma DecodeRuneInString_ascii (c : ascii) (t : string) :
  byte_of c < RuneSelf -> DecodeRuneInString (String c t) = (byte_of c, 1%nat).
Proof.
  unfold RuneSelf. intros H. unfold DecodeRuneInString, first.
  destruct (byte_of c <? 128) eqn:E; [done|lia].
Qed.

Lemma runes_ascii (s : string) :
  all_bytes (fun c => c <? RuneSelf) s = true -> runes s = string_bytes s.
Proof.
  unfold runes. induction s as [|c t IH]; [done|].
  cbn [all_bytes]. intros [Hc Ht]%andb_true_iff.
  cbn [String.length range_runes string_bytes].
  rewrite DecodeRuneInString_ascii by lia.
  cbn [drop_bytes]. by rewrite IH.
Qed.

Lemma string_bytes_bytes_string (l : list Z) :
  Forall (fun b => 0 <= b < 256) l -> string_bytes (bytes_string l) = l.
Proof.
  induction 1 as [|b l Hb _ IH]; simpl; [done|].
  by rewrite byte_of_ascii_of, IH.
Qed.

Lemma all_bytes_bytes_string (p : Z -> bool) (l : list Z) :
  Forall (fun b => 0 <= b < 256 /\ p b = true) l -> all_bytes p (bytes_string l) = true.
Proof.
  induction 1 as [|b l [Hb Hp] _ IH]; simpl; [done|].
  by rewrite byte_of_ascii_of, Hp, IH.
Qed.

Lemma length_bytes_string (l : list Z) : String.length (bytes_string l) = List.length l.
Proof. induction l; simpl; congruence. Qed.

Lemma sanitizePath_bytes (p : string) :
  sanitizePath p = bytes_string (map sanitize_rune (runes p)).
Proof. apply write_runes_sanitize. Qed.

Lemma Forall_map_sanitize (P : Z -> Prop) (rs : list rune) :
  (forall r, P (sanitize_rune r)) -> Forall P (map sanitize_rune rs).
Proof. intros H. induction rs; simpl; constructor; auto. Qed.

Lemma sanitizePath_sanitized (p : string) :
  all_bytes is_sanitized (sanitizePath p) = true.
Proof.
  rewrite sanitizePath_bytes. apply all_bytes_bytes_string.
  apply Forall_map_sanitize. intros r.
  pose proof (sanitize_rune_range r). split; [lia|apply sanitize_rune_sanitized].
Qed.

Lemma runes_sanitizePath (p : string) :
  runes (sanitizePath p) = map sanitize_rune (runes p).
Proof.
  rewrite runes_ascii.
  - rewrite sanitizePath_bytes. apply string_bytes_bytes_string.
    apply Forall_map_sanitize. intros r.
    pose proof (sanitize_rune_range r). lia.
  - rewrite sanitizePath_bytes. apply all_bytes_bytes_string.
    apply Forall_map_sanitize. intros r.
    pose proof (sanitize_rune_range r). unfold RuneSelf. lia.
Qed.

End StringFacts.

Example sanitizePath_route :
  sanitizePath "/v1/users/42" = "_v1_users_42"%string.
Proof. reflexivity. Qed.

(** A two-byte rune and a byte that is not UTF-8 each give one underscore. *)
Example sanitizePath_non_ascii :
  sanitizePath (String (ascii_of 0xC3) (String (ascii_of 0xA9)
                 (String (ascii_of 0xFF) "x")))
  = "__x"%string.
Proof. reflexivity. Qed.

(** C10. [sanitizePath] is idempotent; what it returns consists of ASCII
    letters, digits and underscores only; and it has as many characters
    (runes, and here also bytes) as its argument has runes. *)
Theorem sanitizePath_idempotent_shape (p : string) :
  sanitizePath (sanitizePath p) = sanitizePath p
  /\ all_bytes is_sanitized (sanitizePath p) = true
  /\ RuneCountInString (sanitizePath p) = RuneCountInString p
  /\ String.length (sanitizePath p) = RuneCountInString p.
Proof.
  split; [|split; [|split]].
  - rewrite (sanitizePath_bytes (sanitizePath p)), runes_sanitizePath.
    rewrite map_map, sanitizePath_bytes. f_equal.
    apply map_ext. intros r. apply sanitize_rune_idempotent.
  - apply sanitizePath_sanitized.
  - unfold RuneCountInString. by rewrite runes_sanitizePath, length_map.
  - unfold RuneCountInString.
    by rewrite sanitizePath_bytes, length_bytes_string, length_map.
Qed.

(** * The registry *)

Ltac run_M :=
  unfold bind, get, ret, modify, emit, panic; cbn.

Section Registry.

Lemma registry_set_registry k k' m s :
  registry k (set_registry k' m s) = if decide (k = k') then m else registry k s.
Proof. by destruct k, k'. Qed.

(** Get-or-create in closed form. *)
Lemma Create_outcome k n d u s :
  Create k n d u s =
    match registry k s !! n with
    | Some c => Returned (inl c) s
    | None =>
      match meter s with
      | None => Panicked nil_dereference s
      | Some mt =>
        match meter_error mt (created s) k n d u with
        | Some err => Returned (inr err) s
        | None =>
          let c := new_instrument s k n d u in
          let s1 := set_created (created s ++ [c]) s in
          Returned (inl c) (set_registry k (<[n := c]> (registry k s1)) s1)
        end
      end
    end.
Proof.
  destruct k; cbn [Create registry];
    unfold CreateCounter, CreateHistogram, CreateGauge, meter_new; run_M;
    (destruct (_ !! n); [done|]);
    (destruct (meter s) as [mt|]; [|done]);
    by destruct (meter_error mt _ _ _ _ _).
Qed.

Lemma CreateDynamicCounter_Create n d u s :
  CreateDynamicCounter n d u s = Create Int64Counter n d u s.
Proof.
  rewrite Create_outcome. unfold CreateDynamicCounter. run_M.
  destruct (counters s !! n) eqn:E; [done|].
  change (CreateCounter n d u s) with (Create Int64Counter n d u s).
  rewrite Create_outcome. cbn [registry]. by rewrite E.
Qed.

(** [IncrementCounter] in closed form. *)
Lemma IncrementCounter_outcome ctx n v attrs s :
  IncrementCounter ctx n v attrs s =
    match counters s !! n with
    | Some c => Returned tt (set_trail (trail s ++ [CounterAdd c v attrs]) s)
    | None =>
      match meter s with
      | None => Panicked nil_dereference s
      | Some mt =>
        match meter_error mt (created s) Int64Counter n ("Dynamic counter for " +:+ n) "" with
        | Some err =>
          Returned tt (set_trail (trail s ++
            [LogPrintf ("Warning: Failed to create counter '" +:+ n +:+ "': " +:+ err)]) s)
        | None =>
          let c := new_instrument s Int64Counter n ("Dynamic counter for " +:+ n) "" in
          Returned tt
            (set_trail (trail s ++ [CounterAdd c v attrs])
               (set_counters (<[n := c]> (counters s))
                  (set_created (created s ++ [c]) s)))
        end
      end
    end.
Proof.
  unfold IncrementCounter. unfold bind at 1.
  rewrite CreateDynamicCounter_Create, Create_outcome. cbn [registry].
  destruct (counters s !! n); [done|].
  destruct (meter s) as [mt|]; [|done].
  by destruct (meter_error mt _ _ _ _ _).
Qed.

Lemma RecordHistogram_outcome ctx n v attrs s :
  RecordHistogram ctx n v attrs s =
    match histograms s !! n with
    | Some h => Returned tt (set_trail (trail s ++ [HistogramRecord h v attrs]) s)
    | None =>
      Returned tt (set_trail (trail s ++
        [LogPrintf ("Warning: Histogram '" +:+ n +:+ "' not found")]) s)
    end.
Proof. unfold RecordHistogram. run_M. by destruct (histograms s !! n). Qed.

Lemma SetGauge_outcome ctx n v attrs s :
  SetGauge ctx n v attrs s =
    match gauges s !! n with
    | Some g =>
      let current := default PrimFloat.zero (lastKnownValues s !! n) in
      Returned tt
        (set_lastKnownValues (<[n := v]> (lastKnownValues s))
           (set_trail (trail s ++ [UpDownCounterAdd g (PrimFloat.sub v current) attrs]) s))
    | None => Returned tt s
    end.
Proof. unfold SetGauge, getGaugeValue. run_M. by destruct (gauges s !! n). Qed.

(** No call removes or replaces a registered instrument. *)
Lemma Create_keeps k' n' d u s k n c :
  registry k s !! n = Some c ->
  registry k (state_of (Create k' n' d u s)) !! n = Some c.
Proof.
  intros H. rewrite Create_outcome.
  destruct (registry k' s !! n') eqn:E; [done|].
  destruct (meter s) as [mt|]; [|done].
  destruct (meter_error mt _ _ _ _ _); [done|].
  cbn [state_of]. rewrite registry_set_registry.
  destruct (decide (k = k')) as [->|Hk].
  - rewrite lookup_insert_ne; [by destruct k'|].
    intros ->. destruct k'; cbn in *; congruence.
  - by destruct k.
Qed.

Lemma IncrementCounter_keeps ctx n' v attrs s k n c :
  registry k s !! n = Some c ->
  registry k (state_of (IncrementCounter ctx n' v attrs s)) !! n = Some c.
Proof.
  intros H. rewrite IncrementCounter_outcome.
  destruct (counters s !! n') eqn:E; [by destruct k|].
  destruct (meter s) as [mt|]; [|done].
  destruct (meter_error mt _ _ _ _ _); [by destruct k|].
  destruct k; cbn in *; try done.
  rewrite lookup_insert_ne; [done|congruence].
Qed.

Lemma run_call_keeps call s k n c :
  registry k s !! n = Some c ->
  registry k (state_of (run_call call s)) !! n = Some c.
Proof.
  intros H. destruct call as [n' d u|n' d u|n' d u|ctx n' v a|ctx n' v a|ctx n' v a];
    cbn [run_call].
  - pose proof (Create_keeps Int64Counter n' d u s k n c H) as Hk.
    cbn [Create] in Hk. unfold bind. by destruct (CreateCounter n' d u s).
  - pose proof (Create_keeps Float64Histogram n' d u s k n c H) as Hk.
    cbn [Create] in Hk. unfold bind. by destruct (CreateHistogram n' d u s).
  - pose proof (Create_keeps Float64UpDownCounter n' d u s k n c H) as Hk.
    cbn [Create] in Hk. unfold bind. by destruct (CreateGauge n' d u s).
  - by apply IncrementCounter_keeps.
  - rewrite RecordHistogram_outcome. destruct (histograms s !! n'); by destruct k.
  - rewrite SetGauge_outcome. destruct (gauges s !! n'); by destruct k.
Qed.

Lemma run_calls_keeps calls s k n c :
  registry k s !! n = Some c ->
  registry k (state_of (run_calls calls s)) !! n = Some c.
Proof.
  revert s. induction calls as [|call calls IH]; intros s H; [done|].
  cbn [run_calls]. unfold bind.
  pose proof (run_call_keeps call s k n c H) as Hk.
  destruct (run_call call s) as [[] s1|r s1]; cbn [state_of] in *; [by apply IH|done].
Qed.

End Registry.

Section GetOrCreate.

Lemma Create_stores k n d u s c s1 :
  Create k n d u s = Returned (inl c) s1 -> registry k s1 !! n = Some c.
Proof.
  rewrite Create_outcome.
  destruct (registry k s !! n) eqn:E.
  - by intros [= <- <-].
  - destruct (meter s) as [mt|]; [|done].
    destruct (meter_error mt _ _ _ _ _); [done|].
    intros [= <- <-]. rewrite registry_set_registry.
    destruct (decide (k = k)); [|done]. apply lookup_insert_eq.
Qed.

Lemma Create_registered k n d u s c :
  registry k s !! n = Some c -> Create k n d u s = Returned (inl c) s.
Proof. intros H. by rewrite Create_outcome, H. Qed.

End GetOrCreate.

(** C4. Get-or-create, called again with a name whose first call
    succeeded, returns the very instrument that call stored, returns no
    error and leaves the registry as it is, whatever registry calls were
    made in between and whatever description and unit are passed. *)
Theorem Create_again_same_instrument
    (k : Kind) (n d u : string) (s s1 : State) (c : Instrument)
    (calls : list Call) (s2 : State) (d' u' : string) :
  Create k n d u s = Returned (inl c) s1 ->
  run_calls calls s1 = Returned tt s2 ->
  registry k s1 !! n = Some c
  /\ Create k n d' u' s2 = Returned (inl c) s2
  /\ registry k s2 !! n = Some c.
Proof.
  intros H1 H2.
  pose proof (Create_stores _ _ _ _ _ _ _ H1) as Hs.
  pose proof (run_calls_keeps calls s1 k n c Hs) as Hk.
  rewrite H2 in Hk. cbn [state_of] in Hk.
  split; [done|]. split; [|done]. by apply Create_registered.
Qed.

Lemma Create_again_same_instrument_witness :
  let s := enabled_state in
  let c := new_instrument s Float64UpDownCounter "queue_depth" "Queue depth" "" in
  let s1 := state_of (CreateGauge "queue_depth" "Queue depth" "" s) in
  let calls := [CallSetGauge Background "queue_depth" (float64_of_Z 3) [];
                CallCreateCounter "queue_depth" "" "";
                CallIncrementCounter Background "jobs" 1 []] in
  let s2 := state_of (run_calls calls s1) in
  registry Float64UpDownCounter s1 !! "queue_depth"%string = Some c
  /\ CreateGauge "queue_depth" "again" "items" s2 = Returned (inl c) s2
  /\ registry Float64UpDownCounter s2 !! "queue_depth"%string = Some c.
Proof.
  intros s c s1 calls s2.
  apply (Create_again_same_instrument Float64UpDownCounter
           "queue_depth" "Queue depth" "" s s1 c calls s2 "again" "items").
  - vm_compute. reflexivity.
  - vm_compute. reflexivity.
Defined.

(** [IncrementCounter] on a name with no counter, once the meter is set:
    the counter is created with the generated description, stored and
    incremented; if the meter returns an error, the error is logged,
    nothing is added to any counter, the registry is unchanged, and the
    call returns normally (it has no error result to hand back). *)
Lemma IncrementCounter_creates_or_logs
    (ctx : Context) (n : string) (value : Z) (attrs : list KeyValue)
    (s : State) (mt : Meter) :
  counters s !! n = None ->
  meter s = Some mt ->
  let description := "Dynamic counter for " +:+ n in
  exists s', IncrementCounter ctx n value attrs s = Returned tt s'
  /\ match meter_error mt (created s) Int64Counter n description "" with
     | None =>
       exists c, counters s' = <[n := c]> (counters s)
         /\ inst_name c = n /\ inst_description c = description
         /\ inst_kind c = Int64Counter
         /\ trail s' = trail s ++ [CounterAdd c value attrs]
     | Some err =>
       counters s' = counters s
       /\ trail s' = trail s ++
            [LogPrintf ("Warning: Failed to create counter '" +:+ n +:+ "': " +:+ err)]
       /\ forall c, counter_adds c (trail s') = counter_adds c (trail s)
     end.
Proof.
  intros Hn Hm description. rewrite IncrementCounter_outcome, Hn, Hm.
  fold description.
  destruct (meter_error mt (created s) Int64Counter n description "") as [err|].
  - eexists. split; [done|]. cbn. split; [done|]. split; [done|].
    intros c. induction (trail s) as [|e tr IH]; cbn; [done|].
    destruct e; try done. case_decide; by rewrite IH.
  - eexists. split; [done|]. cbn. eexists. by repeat split.
Qed.

Example IncrementCounter_creates :
  exists s', IncrementCounter Background "jobs_done" 2 [] enabled_state = Returned tt s'
    /\ (inst_description <$> counters s' !! "jobs_done"%string)
       = Some "Dynamic counter for jobs_done"%string
    /\ trail s' = trail enabled_state ++
         [CounterAdd (new_instrument enabled_state Int64Counter "jobs_done"
                        "Dynamic counter for jobs_done" "") 2 []].
Proof. eexists. split; [vm_compute; reflexivity|]. split; vm_compute; reflexivity. Qed.

Example IncrementCounter_logs :
  exists s', IncrementCounter Background "" 1 [] enabled_state = Returned tt s'
    /\ counters s' = counters enabled_state
    /\ trail s' = trail enabled_state ++
         [LogPrintf "Warning: Failed to create counter '': invalid instrument name"].
Proof. eexists. split; [vm_compute; reflexivity|]. split; vm_compute; reflexivity. Qed.

(** C5. On a name with no counter, while [meter] is nil (as
    [InitTelemetry] with telemetry off leaves it), the creation on first
    use neither succeeds nor fails with an error: [IncrementCounter]
    panics in [meter.Int64Counter], with the state untouched. *)
Theorem IncrementCounter_nil_meter_panics
    (ctx : Context) (n : string) (value : Z) (attrs : list KeyValue) (s : State) :
  counters s !! n = None ->
  meter s = None ->
  IncrementCounter ctx n value attrs s = Panicked nil_dereference s.
Proof. intros Hn Hm. by rewrite IncrementCounter_outcome, Hn, Hm. Qed.

Lemma IncrementCounter_nil_meter_panics_witness :
  IncrementCounter (ContextWithSpan Background NoopSpan) "http_requests_total" 1
    [("status", AttrInt 200)]%string disabled_state
  = Panicked nil_dereference disabled_state.
Proof.
  apply IncrementCounter_nil_meter_panics; vm_compute; reflexivity.
Defined.

(** * Telemetry switched off *)

Section Disabled.

Variable env : Env.

Lemma InitTelemetry_disabled :
  InitTelemetry env false initial_state =
    Returned (Some ShutdownNothing, None)
             (set_trail [SetNoopProviders] initial_state).
Proof. reflexivity. Qed.

(** With telemetry off, the span facade and the two recording functions
    that only look their instrument up return normally. *)
Lemma disabled_calls_that_return ctx name attrs (v : float) :
  let s := set_trail [SetNoopProviders] initial_state in
  StartSpan ctx name s = Returned (ctx, NoopSpan) s
  /\ (exists s', AddEvent ctx name attrs s = Returned tt s')
  /\ (exists s', SetAttributes ctx attrs s = Returned tt s')
  /\ (exists s', RecordHistogram ctx name v attrs s = Returned tt s')
  /\ SetGauge ctx name v attrs s = Returned tt s.
Proof.
  intros s. split; [done|]. split; [|split; [|split]].
  - unfold AddEvent, span_AddEvent. destruct (SpanFromContext ctx); by eexists.
  - unfold SetAttributes, span_SetAttributes. destruct (SpanFromContext ctx); by eexists.
  - rewrite RecordHistogram_outcome. cbn. by eexists.
  - by rewrite SetGauge_outcome.
Qed.

End Disabled.

Example TraceMiddleware_disabled_panics :
  exists s', TraceMiddleware (fun c => c) [DoWrite "ok"] 1200000 example_request
               disabled_state = Panicked nil_dereference s'.
Proof. eexists. vm_compute. reflexivity. Qed.

(** C2. After [InitTelemetry] with [enableTelemetry = false] the variable
    [meter] is still nil, no counter is registered, and [IncrementCounter]
    panics on the nil interface for every name, value and label set. *)
Theorem IncrementCounter_disabled_panics
    (env : Env) (ctx : Context) (name : string) (value : Z) (attrs : list KeyValue) :
  exists s,
    InitTelemetry env false initial_state = Returned (Some ShutdownNothing, None) s
    /\ meter s = None
    /\ IncrementCounter ctx name value attrs s = Panicked nil_dereference s.
Proof.
  eexists. split; [apply InitTelemetry_disabled|]. split; [done|].
  by rewrite IncrementCounter_outcome.
Qed.

(** * Recording against a name that was never declared *)

(** C6. On a name with no gauge, [SetGauge] returns with the state
    untouched: no delta, no change of [lastKnownValues], and also no log
    line. [RecordHistogram] on a name with no histogram records nothing
    and logs its warning. *)
Theorem undeclared_SetGauge_is_silent
    (ctx : Context) (n : string) (v : float) (attrs : list KeyValue) (s : State) :
  gauges s !! n = None ->
  histograms s !! n = None ->
  SetGauge ctx n v attrs s = Returned tt s
  /\ log_lines (trail (state_of (SetGauge ctx n v attrs s))) = log_lines (trail s)
  /\ RecordHistogram ctx n v attrs s =
       Returned tt (set_trail (trail s ++
         [LogPrintf ("Warning: Histogram '" +:+ n +:+ "' not found")]) s).
Proof.
  intros Hg Hh. rewrite SetGauge_outcome, RecordHistogram_outcome, Hg, Hh. done.
Qed.

Lemma undeclared_SetGauge_is_silent_witness :
  SetGauge Background "undeclared" (float64_of_Z 1) [] enabled_state
    = Returned tt enabled_state
  /\ log_lines (trail (state_of
       (SetGauge Background "undeclared" (float64_of_Z 1) [] enabled_state)))
     = log_lines (trail enabled_state)
  /\ RecordHistogram Background "undeclared" (float64_of_Z 1) [] enabled_state =
       Returned tt (set_trail (trail enabled_state ++
         [LogPrintf "Warning: Histogram 'undeclared' not found"]) enabled_state).
Proof.
  exact (undeclared_SetGauge_is_silent Background "undeclared" (float64_of_Z 1) []
           enabled_state eq_refl eq_refl).
Defined.

(** * One name, several kinds *)


(** * Start-up *)

Section StartUp.

Lemma extends_refl s : extends s s.
Proof. by repeat split. Qed.

Lemma extends_trans s1 s2 s3 : extends s1 s2 -> extends s2 s3 -> extends s1 s3.
Proof.
  intros (Ht & Hm & Hn & Hr) (Ht' & Hm' & Hn' & Hr').
  repeat split; [congruence|congruence|auto|auto].
Qed.

Lemma Create_extends k n d u s r s1 :
  Create k n d u s = Returned r s1 -> extends s s1 /\ trail s1 = trail s.
Proof.
  rewrite Create_outcome.
  destruct (registry k s !! n) eqn:E; [intros [= <- <-]; split; [apply extends_refl|done]|].
  destruct (meter s) as [mt|]; [|done].
  destruct (meter_error mt _ _ _ _ _);
    [intros [= <- <-]; split; [apply extends_refl|done]|].
  intros [= <- <-]. split; [|by destruct k].
  repeat split; try by destruct k.
  - intros Hn n' c'. destruct k; cbn; try apply Hn.
    cbn in E. rewrite lookup_insert.
    case_decide as Hd; [|by apply Hn]. by intros [= <-].
  - intros k' n' c' H'. rewrite registry_set_registry.
    destruct (decide (k' = k)) as [->|]; [|by destruct k'].
    rewrite lookup_insert_ne; [by destruct k|]. intros ->.
    destruct k; cbn in *; congruence.
Qed.

Lemma createMetrics_from_cons n d u ty l s :
  createMetrics_from ((n, d, u, ty) :: l) s =
    match kind_of_metricType ty with
    | None => Returned (Some ("unknown metric type: " +:+ ty)) s
    | Some k =>
      match Create k n d u s with
      | Returned r s1 =>
        match error_of r with
        | Some err => Returned (Some ("failed to create " +:+ n +:+ ": " +:+ err)) s1
        | None => createMetrics_from l s1
        end
      | Panicked reason s1 => Panicked reason s1
      end
    end.
Proof.
  cbn [createMetrics_from]. unfold kind_of_metricType. cbv zeta.
  destruct (String.eqb ty "counter");
    [unfold bind; cbn [Create]; by destruct (CreateCounter n d u s) as [[?|?] ?|]|].
  destruct (String.eqb ty "gauge");
    [unfold bind; cbn [Create]; by destruct (CreateGauge n d u s) as [[?|?] ?|]|].
  destruct (String.eqb ty "histogram"); [|done].
  unfold bind; cbn [Create]; by destruct (CreateHistogram n d u s) as [[?|?] ?|].
Qed.

Lemma createMetrics_from_success l s s' :
  createMetrics_from l s = Returned None s' ->
  extends s s' /\ trail s' = trail s
  /\ forall n d u ty k, In (n, d, u, ty) l -> kind_of_metricType ty = Some k ->
       is_Some (registry k s' !! n).
Proof.
  revert s. induction l as [|[[[n d] u] ty] l IH]; intros s.
  - intros [= <-]. split; [apply extends_refl|]. split; [done|]. by intros ? ? ? ? ? [].
  - rewrite createMetrics_from_cons.
    destruct (kind_of_metricType ty) as [k|] eqn:Ek; [|done].
    destruct (Create k n d u s) as [r s1|] eqn:Ec; [|done].
    destruct r as [c|err]; cbn [error_of]; [|done].
    intros Hl. destruct (IH _ Hl) as (Hx & Ht & Hin).
    destruct (Create_extends _ _ _ _ _ _ _ Ec) as [Hx1 Ht1].
    split; [by eapply extends_trans|]. split; [congruence|].
    intros n0 d0 u0 ty0 k0 [Heq|Hi] Hk0.
    + injection Heq as <- <- <- <-. rewrite Ek in Hk0. injection Hk0 as <-.
      exists c. destruct Hx as (_ & _ & _ & Hr). apply Hr.
      by eapply Create_stores.
    + by eapply Hin.
Qed.

(** A successful [InitTelemetry(..., true)] leaves the package [ready]. *)
Lemma InitTelemetry_ready env f s :
  InitTelemetry env true initial_state = Returned (Some f, None) s -> ready s.
Proof.
  unfold InitTelemetry. cbn [negb].
  destruct (env_resource_error env); [done|].
  destruct (env_trace_exporter_error env); [done|].
  unfold bind at 1 2. cbn [emit modify].
  destruct (env_metric_exporter_error env); [done|].
  unfold bind at 1 2 3. cbn [emit modify]. unfold createMetrics.
  match goal with |- context [createMetrics_from _ ?s0] =>
    destruct (createMetrics_from metricsToCreate s0) as [[err|] s1|] eqn:E;
      [done| |done];
    destruct (createMetrics_from_success _ _ _ E) as ((Ht & Hm & Hn & _) & _ & Hin)
  end.
  unfold bind, emit, modify, ret. intros [= _ <-].
  split; cbn.
  - rewrite Ht. by eexists.
  - rewrite Hm. by eexists.
  - apply (Hin _ "HTTP request duration in seconds"%string "s"%string
             "histogram"%string Float64Histogram); [|done].
    unfold metricsToCreate. do 6 right. by left.
  - apply (Hin _ "Total number of HTTP requests"%string ""%string
             "counter"%string Int64Counter); [|done].
    unfold metricsToCreate. do 7 right. by left.
  - apply Hn. intros n c. cbn. by rewrite lookup_empty.
Qed.

Lemma enabled_state_ready : ready enabled_state.
Proof.
  apply (InitTelemetry_ready example_env ShutdownProviders).
  vm_compute. reflexivity.
Qed.

End StartUp.

Section Catalogue.




End Catalogue.



(** * The request middleware *)

Ltac simpl_state :=
  cbn [tracer meter counters histograms gauges lastKnownValues created
       spans_started trail set_tracer set_meter set_counters set_histograms
       set_gauges set_lastKnownValues set_created set_spans_started set_trail].

Section Middleware.

Lemma set_trail_set_trail t t' s : set_trail t (set_trail t' s) = set_trail t s.
Proof. done. Qed.

Lemma ServeHTTP_outcome next crw s :
  ServeHTTP next crw s =
    Returned {| statusCode := last_status next (statusCode crw) |}
             (set_trail (trail s ++ writer_events next) s).
Proof.
  revert crw s. induction next as [|[code|data] next IH]; intros [c] s; cbn.
  - rewrite app_nil_r. by destruct s.
  - unfold WriteHeader, bind, emit, modify, ret. rewrite IH. cbn.
    by rewrite <- app_assoc.
  - unfold Write, bind, emit, modify, ret. rewrite IH. cbn.
    by rewrite <- app_assoc.
Qed.

Lemma TraceMiddleware_outcome lower next elapsed r s tr h c0 :
  tracer s = Some tr ->
  histograms s !! "http_request_duration_seconds"%string = Some h ->
  counters s !! "http_requests_total"%string = Some c0 ->
  let sp := SdkSpan (spans_started s) in
  let ctx := ContextWithSpan (req_Context r) sp in
  let code := last_status next StatusOK in
  let labels := [ ("method", AttrString (Method r)); ("path", AttrString (URL_Path r));
                  ("status", AttrInt code) ]%string in
  let n := methodPathCounter lower (Method r) (URL_Path r) in
  let evs :=
    [ SpanStart sp "http_request";
      SpanSetAttributes sp
        [ ("http.method", AttrString (Method r));
          ("http.url", AttrString (URL_String r));
          ("http.path", AttrString (URL_Path r));
          ("http.host", AttrString (Host r));
          ("http.user_agent", AttrString (UserAgent r)) ]%string ]
    ++ writer_events next
    ++ [ SpanSetAttributes sp [("http.status_code", AttrInt code)]%string;
         HistogramRecord h (Seconds elapsed) labels;
         CounterAdd c0 1 labels ] in
  let s1 := set_trail (trail s ++ evs) (set_spans_started (S (spans_started s)) s) in
  TraceMiddleware lower next elapsed r s =
    match IncrementCounter ctx n 1 [("status", AttrInt code)]%string s1 with
    | Returned _ s2 => Returned tt (span_End sp s2)
    | Panicked reason s2 => Panicked reason (span_End sp s2)
    end.
Proof.
  intros Ht Hh Hc sp ctx code labels n evs s1.
  unfold TraceMiddleware, StartSpan, tracer_Start.
  unfold bind at 1. unfold bind at 1. cbn [get]. rewrite Ht.
  unfold bind at 1 2 3. cbn [get modify emit ret]. rewrite Ht. cbn [modify emit ret bind].
  simpl_state.
  unfold defer. unfold bind at 1. cbn [span_SetAttributes emit modify]. simpl_state.
  unfold bind at 1. rewrite ServeHTTP_outcome. simpl_state.
  unfold bind at 1. cbn [span_SetAttributes emit modify statusCode]. simpl_state.
  unfold bind at 1. rewrite RecordHistogram_outcome. simpl_state.
  rewrite Hh. simpl_state.
  unfold bind at 1. rewrite (IncrementCounter_outcome _ "http_requests_total").
  simpl_state. rewrite Hc. simpl_state.
  subst s1 evs. simpl_state.
  rewrite <- !app_assoc. cbn [app].
  by destruct (IncrementCounter _ _ _ _ _) as [[] ?|].
Qed.

(** With [meter] nil and no request counter registered, the middleware
    panics in [IncrementCounter] once the handler has returned; the
    deferred [span.End] still runs. *)
Lemma TraceMiddleware_nil_meter_panics lower next elapsed r s :
  tracer s = None -> meter s = None ->
  counters s !! "http_requests_total"%string = None ->
  exists s', TraceMiddleware lower next elapsed r s = Panicked nil_dereference s'.
Proof.
  intros Ht Hm Hc.
  unfold TraceMiddleware, StartSpan.
  unfold bind at 1. unfold bind at 1. cbn [get]. rewrite Ht. cbn [ret].
  unfold defer. unfold bind at 1. cbn [span_SetAttributes ret].
  unfold bind at 1. rewrite ServeHTTP_outcome.
  unfold bind at 1. cbn [span_SetAttributes ret].
  unfold bind at 1. rewrite RecordHistogram_outcome.
  match goal with |- context [match ?x with Some _ => _ | None => _ end] =>
    destruct x end;
    unfold bind at 1; rewrite (IncrementCounter_outcome _ "http_requests_total");
    cbn [counters meter set_trail]; rewrite Hc, Hm; by eexists.
Qed.

Lemma counter_adds_app c tr1 tr2 :
  counter_adds c (tr1 ++ tr2) = counter_adds c tr1 ++ counter_adds c tr2.
Proof.
  induction tr1 as [|e tr1 IH]; [done|]. destruct e; cbn; try done.
  case_decide; cbn; by rewrite IH.
Qed.

Lemma histogram_records_app h tr1 tr2 :
  histogram_records h (tr1 ++ tr2) = histogram_records h tr1 ++ histogram_records h tr2.
Proof.
  induction tr1 as [|e tr1 IH]; [done|]. destruct e; cbn; try done.
  case_decide; cbn; by rewrite IH.
Qed.

Lemma span_status_codes_cons e tr :
  span_status_codes (e :: tr) = span_status_codes [e] ++ span_status_codes tr.
Proof.
  destruct e; try done. cbn.
  destruct attrs as [|[key [v|code]] [|? ?]]; try done.
  by destruct (String.eqb key "http.status_code").
Qed.

Lemma span_status_codes_app tr1 tr2 :
  span_status_codes (tr1 ++ tr2) = span_status_codes tr1 ++ span_status_codes tr2.
Proof.
  induction tr1 as [|e tr1 IH]; [done|]. cbn [app].
  rewrite span_status_codes_cons, (span_status_codes_cons e tr1), IH.
  by rewrite app_assoc.
Qed.

Lemma writer_events_quiet next c h :
  counter_adds c (writer_events next) = []
  /\ histogram_records h (writer_events next) = []
  /\ span_status_codes (writer_events next) = [].
Proof. induction next as [|[?|?] next IH]; cbn; done. Qed.

(** The per-route counter never goes by the name of the request counter. *)
Lemma methodPathCounter_not_total lower method path :
  methodPathCounter lower method path <> "http_requests_total"%string.
Proof.
  unfold methodPathCounter. generalize (ToLower lower method) as m.
  generalize (sanitizePath path) as p. intros p m. cbn.
  intros [= H]. revert H.
  destruct m as [|a1 [|a2 [|a3 [|a4 [|a5 [|a6 m]]]]]]; cbn; intros [=].
Qed.

End Middleware.

Section MiddlewareReady.

Lemma last_status_no_header next current :
  Forall no_WriteHeader next -> last_status next current = current.
Proof.
  intros H. revert current. induction H as [|[?|?] next Hw _ IH]; intros current; cbn; auto.
  destruct Hw.
Qed.

Lemma last_status_app next1 next2 current :
  last_status (next1 ++ next2) current = last_status next2 (last_status next1 current).
Proof.
  revert current. induction next1 as [|[?|?] next1 IH]; intros current; cbn; auto.
Qed.

(** What one request does to a [ready] package. *)
Lemma TraceMiddleware_ready lower next elapsed r s :
  ready s ->
  let code := last_status next StatusOK in
  let labels := [ ("method", AttrString (Method r)); ("path", AttrString (URL_Path r));
                  ("status", AttrInt code) ]%string in
  let n := methodPathCounter lower (Method r) (URL_Path r) in
  exists h c0 sp attrs dyn s',
    TraceMiddleware lower next elapsed r s = Returned tt s'
    /\ histograms s !! "http_request_duration_seconds"%string = Some h
    /\ counters s !! "http_requests_total"%string = Some c0
    /\ trail s' = trail s ++
         ([SpanStart sp "http_request"; SpanSetAttributes sp attrs]
          ++ writer_events next
          ++ [ SpanSetAttributes sp [("http.status_code", AttrInt code)]%string;
               HistogramRecord h (Seconds elapsed) labels;
               CounterAdd c0 1 labels ]
          ++ dyn ++ [SpanEnd sp])
    /\ List.length attrs = 5%nat
    /\ ((exists c, dyn = [CounterAdd c 1 [("status", AttrInt code)]%string]
                   /\ counters s' !! n = Some c /\ inst_name c = n)
        \/ (exists line, dyn = [LogPrintf line] /\ counters s' !! n = None))
    /\ ((is_Some (counters s !! n)
         \/ forall mt, meter s = Some mt ->
              meter_error mt (created s) Int64Counter n ("Dynamic counter for " +:+ n) ""
              = None)
        -> is_Some (counters s' !! n)).
Proof.
  intros [[tr Ht] [mt Hm] [h Hh] [c0 Hc] Hnamed] code labels n.
  rewrite (TraceMiddleware_outcome _ _ _ _ _ _ _ _ Ht Hh Hc).
  rewrite IncrementCounter_outcome. fold n code labels.
  cbn [counters meter created trail set_trail set_spans_started].
  rewrite Hm.
  destruct (counters s !! n) as [c|] eqn:En;
    [|destruct (meter_error mt (created s) Int64Counter n _ "") as [err|] eqn:Ee].
  - eexists h, c0, _, _, [CounterAdd c 1 _], _. split; [reflexivity|].
    split; [done|]. split; [done|]. split.
    { cbn. rewrite <- !app_assoc. cbn. by rewrite <- !app_assoc. }
    split; [done|]. split.
    { left. exists c. cbn. split; [done|]. split; [done|]. by apply Hnamed. }
    intros _. cbn. by eexists.
  - eexists h, c0, _, _, [LogPrintf _], _. split; [reflexivity|].
    split; [done|]. split; [done|]. split.
    { cbn. rewrite <- !app_assoc. cbn. by rewrite <- !app_assoc. }
    split; [done|]. split.
    { right. eexists. cbn. by split. }
    intros [[c Hc']|Hacc]; [congruence|]. specialize (Hacc mt eq_refl). congruence.
  - eexists h, c0, _, _, [CounterAdd _ 1 _], _. split; [reflexivity|].
    split; [done|]. split; [done|]. split.
    { cbn. rewrite <- !app_assoc. cbn. by rewrite <- !app_assoc. }
    split; [done|]. split.
    { left. eexists. cbn. split; [done|]. split; [apply lookup_insert_eq|done]. }
    intros _. cbn. rewrite lookup_insert_eq. by eexists.
Qed.

End MiddlewareReady.

(** C3, as stated, fails: a handler that calls [WriteHeader(404)] and then
    [WriteHeader(500)] has 500 attached to its span, not the first status
    written. *)
Lemma first_status_written_not_captured :
  ~ (forall (next : list WriterCall) (s' : State),
       TraceMiddleware (fun c => c) next 0 example_request enabled_state = Returned tt s' ->
       span_status_codes (trail s') = [first_status_written next]).
Proof.
  intros H.
  specialize (H [DoWriteHeader 404; DoWriteHeader 500]
                (state_of (TraceMiddleware (fun c => c)
                   [DoWriteHeader 404; DoWriteHeader 500] 0 example_request enabled_state))).
  assert (Hrun : TraceMiddleware (fun c => c) [DoWriteHeader 404; DoWriteHeader 500] 0
                   example_request enabled_state
                 = Returned tt (state_of (TraceMiddleware (fun c => c)
                     [DoWriteHeader 404; DoWriteHeader 500] 0 example_request enabled_state)))
    by (vm_compute; reflexivity).
  specialize (H Hrun). vm_compute in H. discriminate H.
Qed.

(** C3, amended. For a request served with telemetry on: the status
    attached to the span and to the metric labels is the one of the
    handler's latest [WriteHeader] call, 200 if there was none (so 200 for
    a handler that never calls [WriteHeader], and 404 for one whose only
    or last call is [WriteHeader(404)]); and the request adds exactly one
    observation to [http_request_duration_seconds] and exactly one
    increment, by 1, to [http_requests_total]. *)
Theorem TraceMiddleware_records_latest_status
    (lower : rune -> rune) (next : list WriterCall) (elapsed : Z)
    (r : Request) (s : State) :
  ready s ->
  let code := last_status next StatusOK in
  let labels := [ ("method", AttrString (Method r)); ("path", AttrString (URL_Path r));
                  ("status", AttrInt code) ]%string in
  exists h c0 evs s',
    TraceMiddleware lower next elapsed r s = Returned tt s'
    /\ trail s' = trail s ++ evs
    /\ histograms s !! "http_request_duration_seconds"%string = Some h
    /\ counters s !! "http_requests_total"%string = Some c0
    /\ span_status_codes evs = [code]
    /\ histogram_records h evs = [(Seconds elapsed, labels)]
    /\ counter_adds c0 evs = [(1, labels)]
    /\ (Forall no_WriteHeader next -> code = 200)
    /\ (forall before c after, next = before ++ DoWriteHeader c :: after ->
          Forall no_WriteHeader after -> code = c).
Proof.
  intros Hready code labels.
  destruct (TraceMiddleware_ready lower next elapsed r s Hready)
    as (h & c0 & sp & attrs & dyn & s' & Hrun & Hh & Hc & Htr & Hlen & Hdyn & _).
  fold code labels in Htr, Hdyn.
  destruct (writer_events_quiet next c0 h) as (Hw1 & Hw2 & Hw3).
  eexists h, c0, _, s'. split; [done|]. split; [exact Htr|].
  split; [done|]. split; [done|].
  assert (Hc0 : inst_name c0 = "http_requests_total"%string)
    by (by apply (ready_named _ Hready)).
  split; [|split; [|split; [|split]]].
  - rewrite !span_status_codes_app, Hw3.
    destruct attrs as [|[key [v|v]] [|a2 attrs]]; try discriminate Hlen;
      by destruct Hdyn as [(c & -> & _)|(line & -> & _)].
  - rewrite !histogram_records_app, Hw2. cbn.
    rewrite decide_True by done.
    by destruct Hdyn as [(c & -> & _)|(line & -> & _)].
  - rewrite !counter_adds_app, Hw1. cbn. rewrite decide_True by done.
    destruct Hdyn as [(c & -> & _ & Hname)|(line & -> & _)]; cbn; [|done].
    rewrite decide_False; [done|]. intros ->.
    by apply (methodPathCounter_not_total lower (Method r) (URL_Path r)); congruence.
  - intros Hn. by apply last_status_no_header.
  - intros before c after -> Hafter. subst code.
    rewrite last_status_app. cbn. by apply last_status_no_header.
Qed.

Lemma TraceMiddleware_records_latest_status_witness :
  let next := [DoWrite "partial"; DoWriteHeader 404] in
  let code := last_status next StatusOK in
  let labels := [ ("method", AttrString "GET"); ("path", AttrString "/v1/healthcheck");
                  ("status", AttrInt code) ]%string in
  exists h c0 evs s',
    TraceMiddleware (fun c => c) next 1500000000 example_request enabled_state
      = Returned tt s'
    /\ trail s' = trail enabled_state ++ evs
    /\ histograms enabled_state !! "http_request_duration_seconds"%string = Some h
    /\ counters enabled_state !! "http_requests_total"%string = Some c0
    /\ span_status_codes evs = [code]
    /\ histogram_records h evs = [(Seconds 1500000000, labels)]
    /\ counter_adds c0 evs = [(1, labels)]
    /\ (Forall no_WriteHeader next -> code = 200)
    /\ (forall before c after, next = before ++ DoWriteHeader c :: after ->
          Forall no_WriteHeader after -> code = c).
Proof.
  exact (TraceMiddleware_records_latest_status (fun c => c)
           [DoWrite "partial"; DoWriteHeader 404] 1500000000 example_request
           enabled_state enabled_state_ready).
Defined.




(** * The gauge adapter *)

Section GaugeAdapter.

Lemma gauge_diffs_app g tr1 tr2 :
  gauge_diffs g (tr1 ++ tr2) = gauge_diffs g tr1 ++ gauge_diffs g tr2.
Proof.
  induction tr1 as [|e tr1 IH]; [done|]. destruct e; cbn; try done.
  case_decide; cbn; by rewrite IH.
Qed.

Lemma last_cons_default {A} (a : A) (l : list A) (d : A) :
  List.last (a :: l) d = List.last l a.
Proof.
  revert a d. induction l as [|b l IH]; intros a d; [done|].
  change (List.last (a :: b :: l) d) with (List.last (b :: l) d).
  by rewrite !IH.
Qed.

(** A run of [SetGauge] calls on a registered gauge, from any last value. *)
Lemma set_gauge_calls_outcome ctx n g vs s :
  gauges s !! n = Some g ->
  let prev := default PrimFloat.zero (lastKnownValues s !! n) in
  exists evs s',
    run_calls (set_gauge_calls ctx n vs) s = Returned tt s'
    /\ trail s' = trail s ++ evs
    /\ gauge_diffs g evs = consecutive_diffs prev (map fst vs)
    /\ default PrimFloat.zero (lastKnownValues s' !! n) = List.last (map fst vs) prev
    /\ (vs <> [] -> lastKnownValues s' !! n = Some (List.last (map fst vs) prev)).
Proof.
  revert s. induction vs as [|[v attrs] vs IH]; intros s Hg prev.
  - exists [], s. cbn. by rewrite app_nil_r.
  - cbn [set_gauge_calls map run_calls run_call fst snd].
    unfold bind at 1. rewrite SetGauge_outcome, Hg. fold prev. cbv beta iota zeta.
    fold (set_gauge_calls ctx n vs).
    match goal with |- context [run_calls _ ?s1] =>
      destruct (IH s1) as (evs & s' & Hrun & Htr & Hd & Hl & Hsome); [done|]
    end.
    cbn [lastKnownValues set_lastKnownValues set_trail trail] in Htr, Hd, Hl, Hsome.
    rewrite lookup_insert_eq in Hd, Hl, Hsome. cbn [default] in Hd, Hl, Hsome.
    exists (UpDownCounterAdd g (PrimFloat.sub v prev) attrs :: evs), s'.
    split; [exact Hrun|]. split; [by rewrite Htr, <- app_assoc|].
    split; [cbn; rewrite decide_True by done; by rewrite Hd|].
    cbn [map fst]. rewrite last_cons_default. split; [done|]. intros _.
    destruct vs as [|va vs']; [|apply Hsome; done].
    cbn in Hrun. injection Hrun as <-. cbn. by rewrite lookup_insert_eq.
Qed.

(** When every step is exact, the deltas add up to the last value. *)
Lemma accumulate_exact prev vs :
  exact_steps prev vs ->
  fold_left PrimFloat.add (consecutive_diffs prev vs) prev = List.last vs prev.
Proof.
  revert prev. induction vs as [|v vs IH]; intros prev; [done|].
  intros [Hstep Hrest]. cbn [consecutive_diffs fold_left]. rewrite Hstep.
  by rewrite (IH v Hrest), last_cons_default.
Qed.

End GaugeAdapter.

(** C1, as stated, fails: setting the gauge to 1e17 and then to 1 hands
    the accumulator the deltas 1e17 and -1e17, which add up to 0. *)
Lemma cumulative_delta_not_last_value :
  ~ (forall (vs : list float) (g : Instrument) (s' : State),
       gauges enabled_state !! "num_cpu"%string = Some g ->
       run_calls (set_gauge_calls Background "num_cpu" (map (fun v => (v, [])) vs))
                 enabled_state = Returned tt s' ->
       accumulate (gauge_diffs g (trail s')) = List.last vs PrimFloat.zero).
Proof.
  intros H.
  pose (vs := [float64_of_Z (10 ^ 17); float64_of_Z 1]).
  pose (g := {| inst_id := 4%nat; inst_kind := Float64UpDownCounter;
                inst_name := "num_cpu"; inst_description := "Number of CPUs";
                inst_unit := "" |}).
  specialize (H vs g
    (state_of (run_calls (set_gauge_calls Background "num_cpu"
                            (map (fun v => (v, [])) vs)) enabled_state))).
  assert (Hg : gauges enabled_state !! "num_cpu"%string = Some g)
    by (vm_compute; reflexivity).
  assert (Hrun : run_calls (set_gauge_calls Background "num_cpu"
                              (map (fun v => (v, [])) vs)) enabled_state
                 = Returned tt (state_of (run_calls (set_gauge_calls Background "num_cpu"
                              (map (fun v => (v, [])) vs)) enabled_state)))
    by (vm_compute; reflexivity).
  specialize (H Hg Hrun). vm_compute in H. discriminate H.
Qed.

(** C1, amended. On a registered gauge whose last known value is still
    the default 0, a sequence of [SetGauge(n, v1)], ..., [SetGauge(n, vk)]
    hands the accumulator exactly the float64 deltas [v1 - 0], [v2 - v1],
    ..., [vk - v(k-1)]; after it [lastKnownValues[n]] is [vk] (so after
    each call it is the value just set); and the deltas add up to [vk]
    whenever every step is exact in float64, i.e. [v(i-1) + (vi - v(i-1))]
    is [vi]. *)
Theorem SetGauge_deltas_follow_values
    (ctx : Context) (n : string) (g : Instrument)
    (vs : list (float * list KeyValue)) (s : State) :
  gauges s !! n = Some g ->
  lastKnownValues s !! n = None ->
  let values := map fst vs in
  exists evs s',
    run_calls (set_gauge_calls ctx n vs) s = Returned tt s'
    /\ trail s' = trail s ++ evs
    /\ gauge_diffs g evs = consecutive_diffs PrimFloat.zero values
    /\ (vs <> [] -> lastKnownValues s' !! n = Some (List.last values PrimFloat.zero))
    /\ (exact_steps PrimFloat.zero values ->
        accumulate (gauge_diffs g evs) = List.last values PrimFloat.zero).
Proof.
  intros Hg Hl values.
  destruct (set_gauge_calls_outcome ctx n g vs s Hg)
    as (evs & s' & Hrun & Htr & Hd & _ & Hsome).
  rewrite Hl in Hd, Hsome. cbn [default] in Hd, Hsome. fold values in Hd, Hsome.
  exists evs, s'. repeat (split; [done|]).
  intros Hex. unfold accumulate. rewrite Hd. by apply accumulate_exact.
Qed.

Lemma SetGauge_deltas_follow_values_witness :
  let g := {| inst_id := 4%nat; inst_kind := Float64UpDownCounter;
              inst_name := "num_cpu"; inst_description := "Number of CPUs";
              inst_unit := "" |} in
  let values := [float64_of_Z 8; float64_of_Z 16; float64_of_Z 4] in
  exists evs s',
    run_calls (set_gauge_calls Background "num_cpu" (map (fun v => (v, [])) values))
              enabled_state = Returned tt s'
    /\ trail s' = trail enabled_state ++ evs
    /\ gauge_diffs g evs = [float64_of_Z 8; float64_of_Z 8; float64_of_Z (-12)]
    /\ lastKnownValues s' !! "num_cpu"%string = Some (float64_of_Z 4)
    /\ accumulate (gauge_diffs g evs) = float64_of_Z 4.
Proof.
  intros g values.
  destruct (SetGauge_deltas_follow_values Background "num_cpu" g
              (map (fun v => (v, [])) values) enabled_state)
    as (evs & s' & Hrun & Htr & Hd & Hlast & Hsum).
  - vm_compute. reflexivity.
  - vm_compute. reflexivity.
  - exists evs, s'. split; [exact Hrun|]. split; [exact Htr|].
    split; [rewrite Hd; vm_compute; reflexivity|].
    split; [rewrite Hlast; [vm_compute; reflexivity|discriminate]|].
    rewrite Hsum; [vm_compute; reflexivity|].
    repeat split; vm_compute; reflexivity.
Defined.

(** * The system sampler *)

Section SamplerSteps.

Variable ctx : Context.

Lemma no_step_when_stopped s r c : ~ sampler_step ctx (Stopped, s) r c.
Proof. intros H. inversion H. Qed.

Lemma no_step_when_crashed s r c : ~ sampler_step ctx (Crashed, s) r c.
Proof. intros H. inversion H. Qed.

Lemma run_when_stopped s rs c : sampler_run ctx (Stopped, s) rs c -> rs = [] /\ c = (Stopped, s).
Proof.
  intros H. inversion H as [|? ? ? ? ? Hstep]; subst; [done|].
  by apply no_step_when_stopped in Hstep.
Qed.


End SamplerSteps.

Section Launch.

Lemma Create_trail k n d u s : trail (state_of (Create k n d u s)) = trail s.
Proof.
  rewrite Create_outcome.
  destruct (registry k s !! n); [done|].
  destruct (meter s) as [mt|]; [|done].
  destruct (meter_error mt _ _ _ _ _); [done|]. by destruct k.
Qed.

Lemma createMetrics_from_trail l s :
  trail (state_of (createMetrics_from l s)) = trail s.
Proof.
  revert s. induction l as [|[[[n d] u] ty] l IH]; intros s; [done|].
  rewrite createMetrics_from_cons.
  destruct (kind_of_metricType ty) as [k|]; [|done].
  pose proof (Create_trail k n d u s) as Ht.
  destruct (Create k n d u s) as [[c|err] s1|]; cbn [error_of state_of] in *;
    [by rewrite IH|done|done].
Qed.


End Launch.






(** * What every piece of package code keeps *)

Section Safe.

Lemma safe_ret {A} (a : A) : safe (ret a).
Proof.
  intros s. cbn. split; [apply extends_refl|]. split; [exists []; by rewrite app_nil_r|].
  split; [done|]. intros _. by exists a.
Qed.

Lemma safe_bind {A B} (m : M A) (k : A -> M B) :
  safe m -> (forall a, safe (k a)) -> safe (bind m k).
Proof.
  intros Hm Hk s. destruct (Hm s) as (Hx & [evs Ht] & Hw & Hr).
  unfold bind. destruct (m s) as [a s1|r s1] eqn:E; cbn [state_of] in *.
  - destruct (Hk a s1) as (Hx' & [evs' Ht'] & Hw' & Hr').
    split; [by eapply extends_trans|].
    split; [exists (evs ++ evs'); by rewrite Ht', Ht, app_assoc|].
    split; [auto|]. intros Hmeter. apply Hr'.
    destruct Hx as (_ & -> & _). done.
  - split; [done|]. split; [by exists evs|]. split; [done|].
    intros Hmeter. destruct (Hr Hmeter) as [a Ha]. discriminate Ha.
Qed.

Lemma safe_get_bind {B} (k : State -> M B) :
  (forall s, safe (k s)) -> safe (bind get k).
Proof. intros Hk s. unfold bind, get. apply Hk. Qed.

Lemma well_registered_same s s' :
  counters s' = counters s -> histograms s' = histograms s -> gauges s' = gauges s ->
  created s' = created s -> well_registered s -> well_registered s'.
Proof.
  intros Hc Hh Hg Hcr [H1 H2].
  assert (Hreg : forall k, registry k s' = registry k s) by (by intros []).
  split; intros k n c; rewrite Hreg, ?Hcr; [apply H1|apply H2].
Qed.

Lemma extends_same s s' :
  tracer s' = tracer s -> meter s' = meter s ->
  counters s' = counters s -> histograms s' = histograms s -> gauges s' = gauges s ->
  extends s s'.
Proof.
  intros Ht Hm Hc Hh Hg. repeat split; try done.
  - unfold counters_named. by rewrite Hc.
  - intros k n c. by destruct k; cbn; rewrite ?Hc, ?Hh, ?Hg.
Qed.

(** A change of the trail, of [lastKnownValues] or of the span count. *)
Lemma safe_modify (f : State -> State) :
  (forall s, tracer (f s) = tracer s /\ meter (f s) = meter s
             /\ counters (f s) = counters s /\ histograms (f s) = histograms s
             /\ gauges (f s) = gauges s /\ created (f s) = created s
             /\ exists evs, trail (f s) = trail s ++ evs) ->
  safe (modify f).
Proof.
  intros Hf s. destruct (Hf s) as (Ht & Hm & Hc & Hh & Hg & Hcr & Hev).
  cbn. split; [by apply extends_same|]. split; [done|].
  split; [by apply well_registered_same|]. intros _. by exists tt.
Qed.

Lemma safe_emit e : safe (emit e).
Proof. apply safe_modify. intros s. cbn. repeat split; by eexists. Qed.

Lemma safe_Create k n d u : safe (Create k n d u).
Proof.
  intros s. rewrite Create_outcome.
  destruct (registry k s !! n) as [c|] eqn:E.
  { apply (safe_ret (inl c)). }
  destruct (meter s) as [mt|] eqn:Em.
  2: { cbn. split; [apply extends_refl|]. split; [exists []; by rewrite app_nil_r|].
       split; [done|]. by intros [? ?]. }
  destruct (meter_error mt (created s) k n d u) as [err|] eqn:Ee.
  { pose proof (safe_ret (inr err : Instrument + string) s) as H. cbn in *.
    rewrite Em in H. exact H. }
  cbn [state_of].
  pose proof (Create_extends k n d u s) as Hx. rewrite Create_outcome, E, Em, Ee in Hx.
  destruct (Hx _ _ eq_refl) as [Hext Htr].
  split; [exact Hext|]. split; [exists []; by rewrite app_nil_r, Htr|].
  split; [|intros _; by eexists].
  intros [H1 H2]. split.
  - intros k' n' c'. rewrite registry_set_registry.
    destruct (decide (k' = k)) as [->|Hk].
    + rewrite lookup_insert. case_decide as Hn.
      * intros [= <-]. by subst.
      * intros Hc. apply (H1 k n' c'). by destruct k.
    + intros Hc. apply (H1 k' n' c'). by destruct k, k'.
  - intros k' n' c'. rewrite registry_set_registry.
    assert (Hcr : created (set_registry k
                    (<[n:=new_instrument s k n d u]>
                       (registry k (set_created (created s ++ [new_instrument s k n d u]) s)))
                    (set_created (created s ++ [new_instrument s k n d u]) s))
                  = created s ++ [new_instrument s k n d u]) by (by destruct k).
    rewrite Hcr.
    assert (Hold : forall c'', registry k' s !! n' = Some c'' ->
                     (created s ++ [new_instrument s k n d u]) !! inst_id c'' = Some c'').
    { intros c'' Hc. apply lookup_app_l_Some. by eapply H2. }
    destruct (decide (k' = k)) as [->|Hk].
    + rewrite lookup_insert. case_decide as Hn.
      * intros [= <-]. cbn [inst_id new_instrument].
        rewrite lookup_app_r by done. by rewrite Nat.sub_diag.
      * intros Hc. apply Hold. by destruct k.
    + intros Hc. apply Hold. by destruct k, k'.
Qed.

Lemma safe_CreateDynamicCounter n d u : safe (CreateDynamicCounter n d u).
Proof.
  intros s. rewrite CreateDynamicCounter_Create. apply safe_Create.
Qed.

Lemma safe_IncrementCounter ctx n v attrs : safe (IncrementCounter ctx n v attrs).
Proof.
  unfold IncrementCounter. apply safe_bind; [apply safe_CreateDynamicCounter|].
  intros [c|err]; apply safe_emit.
Qed.

Lemma safe_RecordHistogram ctx n v attrs : safe (RecordHistogram ctx n v attrs).
Proof.
  unfold RecordHistogram. apply safe_get_bind. intros s.
  destruct (histograms s !! n); apply safe_emit.
Qed.

Lemma safe_SetGauge ctx n v attrs : safe (SetGauge ctx n v attrs).
Proof.
  unfold SetGauge. apply safe_get_bind. intros s.
  destruct (gauges s !! n); [|apply safe_ret].
  apply safe_bind.
  { unfold getGaugeValue. apply safe_get_bind. intros s'. apply safe_ret. }
  intros current. apply safe_bind; [apply safe_emit|]. intros _.
  apply safe_modify. intros s'. cbn. repeat split; exists []; by rewrite app_nil_r.
Qed.

Lemma safe_StartSpan ctx name : safe (StartSpan ctx name).
Proof.
  intros s. unfold StartSpan, tracer_Start, bind, get. cbn.
  destruct (tracer s) eqn:Et; [|apply (safe_ret (ctx, NoopSpan))].
  cbn. rewrite Et. cbn.
  split; [by apply extends_same|]. split; [by eexists|].
  split; [by apply well_registered_same|]. intros _. by eexists.
Qed.

Lemma safe_span_SetAttributes sp attrs : safe (span_SetAttributes sp attrs).
Proof. destruct sp; [apply safe_ret|apply safe_emit]. Qed.

Lemma safe_span_AddEvent sp name attrs : safe (span_AddEvent sp name attrs).
Proof. destruct sp; [apply safe_ret|apply safe_emit]. Qed.

Lemma safe_defer_span_End {A} sp (m : M A) : safe m -> safe (defer (span_End sp) m).
Proof.
  intros Hm s. destruct (Hm s) as (Hx & [evs Ht] & Hw & Hr). unfold defer.
  assert (Hend : forall s1, extends s1 (span_End sp s1)
                   /\ (exists e, trail (span_End sp s1) = trail s1 ++ e)
                   /\ (well_registered s1 -> well_registered (span_End sp s1))).
  { intros s1. destruct sp; cbn.
    - split; [apply extends_refl|]. split; [exists []; by rewrite app_nil_r|done].
    - split; [by apply extends_same|]. split; [by eexists|].
      by apply well_registered_same. }
  destruct (m s) as [a s1|r s1] eqn:E; cbn [state_of] in *;
    destruct (Hend s1) as (Hx' & [e He] & Hw').
  - split; [by eapply extends_trans|].
    split; [exists (evs ++ e); by rewrite He, Ht, app_assoc|].
    split; [auto|]. intros _. by eexists.
  - split; [by eapply extends_trans|].
    split; [exists (evs ++ e); by rewrite He, Ht, app_assoc|].
    split; [auto|]. intros Hmeter. destruct (Hr Hmeter) as [a Ha]. discriminate Ha.
Qed.

Lemma safe_ServeHTTP next crw : safe (ServeHTTP next crw).
Proof.
  revert crw. induction next as [|[code|data] next IH]; intros crw; cbn [ServeHTTP].
  - apply safe_ret.
  - apply safe_bind; [|intros crw'; apply IH].
    unfold WriteHeader. apply safe_bind; [apply safe_emit|intros _; apply safe_ret].
  - apply safe_bind; [|intros crw'; apply IH].
    unfold Write. apply safe_bind; [apply safe_emit|intros _; apply safe_ret].
Qed.

Lemma safe_TraceMiddleware lower next elapsed r :
  safe (TraceMiddleware lower next elapsed r).
Proof.
  unfold TraceMiddleware. apply safe_bind; [apply safe_StartSpan|].
  intros [ctx span]. apply safe_defer_span_End.
  apply safe_bind; [apply safe_span_SetAttributes|]. intros _.
  apply safe_bind; [apply safe_ServeHTTP|]. intros crw.
  apply safe_bind; [apply safe_span_SetAttributes|]. intros _.
  apply safe_bind; [apply safe_RecordHistogram|]. intros _.
  apply safe_bind; [apply safe_IncrementCounter|]. intros _.
  apply safe_IncrementCounter.
Qed.

Lemma safe_sample ctx rd lastNumGC : safe (sample ctx rd lastNumGC).
Proof.
  unfold sample.
  do 5 (apply safe_bind; [apply safe_SetGauge|intros _]).
  cbv zeta. destruct (0 <? _); [|apply safe_ret].
  apply safe_bind; [apply safe_IncrementCounter|intros _; apply safe_ret].
Qed.

Lemma safe_run_call c : safe (run_call c).
Proof.
  destruct c; cbn [run_call].
  - apply safe_bind; [apply (safe_Create Int64Counter)|intros _; apply safe_ret].
  - apply safe_bind; [apply (safe_Create Float64Histogram)|intros _; apply safe_ret].
  - apply safe_bind; [apply (safe_Create Float64UpDownCounter)|intros _; apply safe_ret].
  - apply safe_IncrementCounter.
  - apply safe_RecordHistogram.
  - apply safe_SetGauge.
Qed.

Lemma safe_run_step lower st : safe (run_step lower st).
Proof.
  destruct st; cbn [run_step].
  - apply safe_run_call.
  - apply safe_bind; [apply safe_CreateDynamicCounter|intros _; apply safe_ret].
  - apply safe_bind; [apply safe_StartSpan|intros _; apply safe_ret].
  - apply safe_span_AddEvent.
  - apply safe_span_SetAttributes.
  - apply safe_TraceMiddleware.
  - apply safe_bind; [apply safe_sample|intros _; apply safe_ret].
Qed.

Lemma safe_run_steps lower sts : safe (run_steps lower sts).
Proof.
  induction sts as [|st sts IH]; cbn [run_steps]; [apply safe_ret|].
  apply safe_bind; [apply safe_run_step|intros _; apply IH].
Qed.

Lemma extends_ready s s' : extends s s' -> ready s -> ready s'.
Proof.
  intros (Ht & Hm & Hn & Hr) [H1 H2 [h H3] [c H4] H5].
  split; [by rewrite Ht|by rewrite Hm| | |auto].
  - exists h. apply (Hr Float64Histogram _ _ H3).
  - exists c. apply (Hr Int64Counter _ _ H4).
Qed.

Lemma well_registered_initial : well_registered initial_state.
Proof. split; intros [] n c; cbn; by rewrite lookup_empty. Qed.

End Safe.

(** * Runs of the package *)

(** X1. Once the meter is set, no sequence of registry calls, span calls,
    requests through the middleware and sampler ticks panics; the trail
    only grows, every registered instrument stays registered, and a
    package that was [ready] stays [ready]. *)
Theorem no_panic_once_meter_set
    (lower : rune -> rune) (sts : list Step) (s : State) :
  is_Some (meter s) ->
  exists s',
    run_steps lower sts s = Returned tt s'
    /\ (exists evs, trail s' = trail s ++ evs)
    /\ (forall k n c, registry k s !! n = Some c -> registry k s' !! n = Some c)
    /\ (ready s -> ready s').
Proof.
  intros Hm. destruct (safe_run_steps lower sts s) as (Hx & Ht & _ & Hr).
  destruct (Hr Hm) as [[] Hrun]. rewrite Hrun in *. cbn [state_of] in *.
  eexists. split; [done|]. split; [done|]. split.
  - by destruct Hx as (_ & _ & _ & Hk).
  - by apply extends_ready.
Qed.

Lemma no_panic_once_meter_set_witness :
  exists s',
    run_steps (fun c => c) example_steps enabled_state = Returned tt s'
    /\ (exists evs, trail s' = trail enabled_state ++ evs)
    /\ (forall k n c, registry k enabled_state !! n = Some c -> registry k s' !! n = Some c)
    /\ (ready enabled_state -> ready s').
Proof.
  apply (no_panic_once_meter_set (fun c => c) example_steps enabled_state).
  vm_compute. by eexists.
Defined.

Section Reachable.

Lemma safe_createMetrics_from l : safe (createMetrics_from l).
Proof.
  induction l as [|[[[n d] u] ty] l IH]; cbn [createMetrics_from]; [apply safe_ret|].
  cbv zeta.
  assert (Hcont : forall r : Instrument + string,
            safe (match error_of r with
                  | Some err => ret (Some ("failed to create " +:+ n +:+ ": " +:+ err))
                  | None => createMetrics_from l
                  end)).
  { intros r. destruct (error_of r); [apply safe_ret|apply IH]. }
  destruct (String.eqb ty "counter");
    [apply safe_bind; [apply (safe_Create Int64Counter)|apply Hcont]|].
  destruct (String.eqb ty "gauge");
    [apply safe_bind; [apply (safe_Create Float64UpDownCounter)|apply Hcont]|].
  destruct (String.eqb ty "histogram");
    [apply safe_bind; [apply (safe_Create Float64Histogram)|apply Hcont]|].
  apply safe_ret.
Qed.

(** [InitTelemetry] in every state: what it returns and what it leaves. *)
Lemma InitTelemetry_outcome env enable s :
  exists r s' evs,
    InitTelemetry env enable s = Returned r s'
    /\ trail s' = trail s ++ evs
    /\ (well_registered s -> well_registered s')
    /\ (forall k n c, registry k s !! n = Some c -> registry k s' !! n = Some c)
    /\ ((exists f, r = (Some f, None)
           /\ samplers_started evs = (if enable then [Background] else [])
           /\ (enable = true -> f = ShutdownProviders
                 /\ tracer s' = Some (env_tracer env) /\ meter s' = Some (env_meter env))
           /\ (enable = false -> f = ShutdownNothing
                 /\ tracer s' = tracer s /\ meter s' = meter s))
        \/ (exists e, r = (None, Some e) /\ enable = true /\ samplers_started evs = [])).
Proof.
  unfold InitTelemetry. destruct enable; cbn [negb].
  2: { eexists _, _, [SetNoopProviders]. split; [reflexivity|]. cbn.
       split; [done|]. split; [by apply well_registered_same|]. split; [by intros []|].
       left. eexists. by repeat split. }
  destruct (env_resource_error env).
  { eexists _, s, []. split; [reflexivity|]. rewrite app_nil_r.
    repeat (split; [done|]). right. by eexists. }
  destruct (env_trace_exporter_error env).
  { eexists _, s, []. split; [reflexivity|]. rewrite app_nil_r.
    repeat (split; [done|]). right. by eexists. }
  unfold bind at 1 2. cbn [emit modify].
  destruct (env_metric_exporter_error env).
  { eexists _, _, [SetTracerProvider]. split; [reflexivity|]. cbn.
    split; [done|]. split; [by apply well_registered_same|]. split; [by intros []|].
    right. by eexists. }
  unfold bind at 1 2 3. cbn [emit modify]. unfold createMetrics.
  match goal with |- context [createMetrics_from _ ?s0] =>
    set (s0' := s0);
    pose proof (safe_createMetrics_from metricsToCreate s0') as Hsafe;
    pose proof (createMetrics_from_trail metricsToCreate s0') as Htr;
    unfold safe in Hsafe;
    assert (Hw0 : well_registered s -> well_registered s0')
      by (by apply well_registered_same);
    assert (Hk0 : forall k n c, registry k s !! n = Some c -> registry k s0' !! n = Some c)
      by (by intros []);
    assert (Hm0 : is_Some (meter s0')) by (by eexists);
    assert (Htr0 : trail s0' = (trail s ++ [SetTracerProvider]) ++ [SetMeterProvider])
      by done;
    assert (Ht0 : tracer s0' = Some (env_tracer env)) by done;
    assert (Hmm0 : meter s0' = Some (env_meter env)) by done;
    clearbody s0'
  end.
  destruct Hsafe as ((Ht & Hm & _ & Hk) & _ & Hw & Hr).
  destruct (Hr Hm0) as [a Ha]. rewrite Ha in *. cbn [state_of] in *.
  set (s1 := state_of (createMetrics_from metricsToCreate s0')) in *. clearbody s1.
  destruct a as [err|]; unfold bind, emit, modify, ret.
  - eexists _, _, [SetTracerProvider; SetMeterProvider].
    split; [reflexivity|]. split; [by rewrite Htr, Htr0, <- app_assoc|].
    split; [auto|]. split; [auto|]. right. by eexists.
  - eexists _, _, [SetTracerProvider; SetMeterProvider; GoUpdateSystemMetrics Background].
    split; [reflexivity|]. split; [cbn; by rewrite Htr, Htr0, <- !app_assoc|].
    split; [intros H; eapply well_registered_same; [..|apply Hw; auto]; done|].
    split; [intros k n c H; destruct k; apply (Hk _ _ _ (Hk0 _ _ _ H))|].
    left. eexists. split; [done|]. split; [done|]. split; [|done].
    intros _. cbn. by rewrite Ht, Hm, Ht0, Hmm0.
Qed.

End Reachable.

(** X2. [InitTelemetry] never panics, in any state. It returns either a
    shutdown function and no error, or an error and no function; the
    sampler goroutine is started exactly when telemetry is enabled and
    start-up succeeded, once, on [context.Background()]; a disabled or
    failed start-up starts none, and a disabled one leaves tracer and
    meter as they were. *)
Theorem InitTelemetry_returns
    (env : Env) (enable : bool) (s : State) :
  exists r s' evs,
    InitTelemetry env enable s = Returned r s'
    /\ trail s' = trail s ++ evs
    /\ ((exists f, r = (Some f, None)
           /\ samplers_started evs = (if enable then [Background] else [])
           /\ (enable = true -> f = ShutdownProviders
                 /\ tracer s' = Some (env_tracer env) /\ meter s' = Some (env_meter env))
           /\ (enable = false -> f = ShutdownNothing
                 /\ tracer s' = tracer s /\ meter s' = meter s))
        \/ (exists e, r = (None, Some e) /\ enable = true /\ samplers_started evs = [])).
Proof.
  destruct (InitTelemetry_outcome env enable s) as (r & s' & evs & H1 & H2 & _ & _ & H3).
  by exists r, s', evs.
Qed.

(** X3. In every state the program can reach from its start, through any
    [InitTelemetry] and any uses of the package after it, each registered
    instrument is an object the meter made for the kind and the name it
    is registered under; so two different registrations never share an
    instrument, nor an identity. *)
Theorem reachable_registry_well_formed
    (lower : rune -> rune) (env : Env) (enable : bool) (sts : list Step)
    (k1 k2 : Kind) (n1 n2 : string) (c1 c2 : Instrument) :
  let s := state_of (run_steps lower sts
                       (state_of (InitTelemetry env enable initial_state))) in
  registry k1 s !! n1 = Some c1 ->
  registry k2 s !! n2 = Some c2 ->
  inst_kind c1 = k1 /\ inst_name c1 = n1
  /\ (inst_id c1 = inst_id c2 -> k1 = k2 /\ n1 = n2 /\ c1 = c2).
Proof.
  intros s H1 H2.
  assert (Hw : well_registered s).
  { unfold s. apply safe_run_steps.
    destruct (InitTelemetry_outcome env enable initial_state)
      as (r & s' & evs & Hrun & _ & Hw & _).
    rewrite Hrun. cbn [state_of]. apply Hw, well_registered_initial. }
  destruct Hw as [Hmade Hid].
  destruct (Hmade _ _ _ H1) as [Hk1 Hn1]. destruct (Hmade _ _ _ H2) as [Hk2 Hn2].
  split; [done|]. split; [done|]. intros Heq.
  pose proof (Hid _ _ _ H1) as Hc1. pose proof (Hid _ _ _ H2) as Hc2.
  rewrite Heq in Hc1. assert (c1 = c2) as -> by congruence.
  by subst.
Qed.

Lemma reachable_registry_well_formed_witness :
  let s := state_of (run_steps (fun c => c) example_steps
                       (state_of (InitTelemetry example_env true initial_state))) in
  let c1 := {| inst_id := 8; inst_kind := Int64Counter;
               inst_name := "http_requests_get__v1_healthcheck";
               inst_description := "Dynamic counter for http_requests_get__v1_healthcheck";
               inst_unit := "" |} in
  let c2 := {| inst_id := 9; inst_kind := Float64Histogram;
               inst_name := "db_query_seconds";
               inst_description := "Query time"; inst_unit := "s" |} in
  inst_kind c1 = Int64Counter /\ inst_name c1 = "http_requests_get__v1_healthcheck"%string
  /\ (inst_id c1 = inst_id c2 ->
      Int64Counter = Float64Histogram
      /\ "http_requests_get__v1_healthcheck"%string = "db_query_seconds"%string
      /\ c1 = c2).
Proof.
  intros s c1 c2.
  apply (reachable_registry_well_formed (fun c => c) example_env true example_steps
           Int64Counter Float64Histogram
           "http_requests_get__v1_healthcheck" "db_query_seconds" c1 c2).
  - vm_compute. reflexivity.
  - vm_compute. reflexivity.
Defined.

(** * Start-up, step by step *)

Section StartUpSteps.

(** [InitTelemetry] with telemetry on and exporters that build. *)
Lemma InitTelemetry_enabled env s :
  env_resource_error env = None ->
  env_trace_exporter_error env = None ->
  env_metric_exporter_error env = None ->
  InitTelemetry env true s =
    match createMetrics (providers_installed env s) with
    | Returned None s1 =>
      Returned (Some ShutdownProviders, None)
               (set_trail (trail s1 ++ [GoUpdateSystemMetrics Background]) s1)
    | Returned (Some e) s1 =>
      Returned (None, Some ("failed to create metrics: " +:+ e)) s1
    | Panicked reason s1 => Panicked reason s1
    end.
Proof.
  intros H1 H2 H3. unfold InitTelemetry. cbn [negb]. rewrite H1, H2.
  unfold bind at 1 2. cbn [emit modify]. rewrite H3.
  unfold bind at 1 2 3. cbn [emit modify].
  assert (Hs : set_meter (Some (env_meter env))
                 (set_trail
                    (trail (set_tracer (Some (env_tracer env))
                              (set_trail (trail s ++ [SetTracerProvider]) s))
                     ++ [SetMeterProvider])
                    (set_tracer (Some (env_tracer env))
                       (set_trail (trail s ++ [SetTracerProvider]) s)))
               = providers_installed env s).
  { unfold providers_installed. cbn. by rewrite <- app_assoc. }
  rewrite Hs. destruct (createMetrics (providers_installed env s)) as [[e|] s1|]; done.
Qed.

Lemma InitTelemetry_success_inv env f s s' :
  InitTelemetry env true s = Returned (Some f, None) s' ->
  f = ShutdownProviders
  /\ exists s1, createMetrics (providers_installed env s) = Returned None s1
                /\ s' = set_trail (trail s1 ++ [GoUpdateSystemMetrics Background]) s1.
Proof.
  destruct (env_resource_error env) eqn:H1;
    [unfold InitTelemetry; cbn [negb]; by rewrite H1|].
  destruct (env_trace_exporter_error env) eqn:H2;
    [unfold InitTelemetry; cbn [negb]; by rewrite H1, H2|].
  destruct (env_metric_exporter_error env) eqn:H3.
  { unfold InitTelemetry. cbn [negb]. rewrite H1, H2.
    unfold bind at 1 2. cbn [emit modify]. by rewrite H3. }
  rewrite InitTelemetry_enabled by done.
  destruct (createMetrics (providers_installed env s)) as [[e|] s1|]; try done.
  intros [= <- <-]. split; [done|]. by exists s1.
Qed.

Lemma createMetrics_from_kinds_known l s s' :
  createMetrics_from l s = Returned None s' ->
  forall n d u ty, In (n, d, u, ty) l -> is_Some (kind_of_metricType ty).
Proof.
  revert s. induction l as [|[[[n0 d0] u0] ty0] l IH]; intros s; [by intros _ ? ? ? ? []|].
  rewrite createMetrics_from_cons.
  destruct (kind_of_metricType ty0) as [k|] eqn:Ek; [|done].
  destruct (Create k n0 d0 u0 s) as [[c|err] s1|]; cbn [error_of]; [|done|done].
  intros Hl n d u ty [[= <- <- <- <-]|Hin]; [by rewrite Ek|by eapply IH].
Qed.

(** With every entry already registered, [createMetrics] asks the meter
    for nothing. *)
Lemma createMetrics_from_all_registered l s :
  (forall n d u ty, In (n, d, u, ty) l ->
     exists k, kind_of_metricType ty = Some k /\ is_Some (registry k s !! n)) ->
  createMetrics_from l s = Returned None s.
Proof.
  induction l as [|[[[n0 d0] u0] ty0] l IH]; intros H; [done|].
  rewrite createMetrics_from_cons.
  destruct (H n0 d0 u0 ty0) as (k & -> & [c Hc]); [by left|].
  rewrite Create_outcome, Hc. cbn [error_of]. apply IH.
  intros n d u ty Hin. apply (H n d u ty). by right.
Qed.

Lemma createMetrics_from_declared l s s' :
  createMetrics_from l s = Returned None s' ->
  forall n d u ty, In (n, d, u, ty) l ->
    exists k, kind_of_metricType ty = Some k /\ is_Some (registry k s' !! n).
Proof.
  intros Hl n d u ty Hin.
  destruct (createMetrics_from_kinds_known _ _ _ Hl _ _ _ _ Hin) as [k Hk].
  exists k. split; [done|].
  destruct (createMetrics_from_success _ _ _ Hl) as (_ & _ & Hreg). by eapply Hreg.
Qed.

End StartUpSteps.

(** X4. Once [createMetrics] has succeeded, calling it again, at any later
    point of the run, returns nil and changes nothing: every built-in is
    found registered, the meter is not asked again and no instrument is
    replaced. *)
Theorem createMetrics_again_is_noop
    (lower : rune -> rune) (s s1 : State) (sts : list Step) (s2 : State) :
  createMetrics s = Returned None s1 ->
  run_steps lower sts s1 = Returned tt s2 ->
  createMetrics s2 = Returned None s2.
Proof.
  intros H1 H2. apply createMetrics_from_all_registered.
  intros n d u ty Hin.
  destruct (createMetrics_from_declared _ _ _ H1 _ _ _ _ Hin) as (k & Hk & [c Hc]).
  exists k. split; [done|]. exists c.
  destruct (safe_run_steps lower sts s1) as ((_ & _ & _ & Hkeep) & _).
  rewrite H2 in Hkeep. by apply Hkeep.
Qed.

Lemma createMetrics_again_is_noop_witness :
  let s2 := state_of (run_steps (fun c => c) example_steps
                        (state_of (createMetrics (providers_installed example_env
                                                    initial_state)))) in
  createMetrics s2 = Returned None s2.
Proof.
  intros s2.
  apply (createMetrics_again_is_noop (fun c => c)
           (providers_installed example_env initial_state)
           (state_of (createMetrics (providers_installed example_env initial_state)))
           example_steps s2).
  - vm_compute. reflexivity.
  - vm_compute. reflexivity.
Defined.

(** X5. Calling [InitTelemetry] a second time, with telemetry on and
    exporters that build, never rebuilds the registry: [tracer] and
    [meter] are replaced by the new ones, but every instrument stays the
    one the first meter made, nothing is created, and a second sampler
    goroutine is started. *)
Theorem InitTelemetry_again_keeps_instruments
    (lower : rune -> rune) (env1 env2 : Env) (f : ObservabilityShutdownFunc)
    (s1 : State) (sts : list Step) (s2 : State) :
  InitTelemetry env1 true initial_state = Returned (Some f, None) s1 ->
  run_steps lower sts s1 = Returned tt s2 ->
  env_resource_error env2 = None ->
  env_trace_exporter_error env2 = None ->
  env_metric_exporter_error env2 = None ->
  exists s3,
    InitTelemetry env2 true s2 = Returned (Some ShutdownProviders, None) s3
    /\ tracer s3 = Some (env_tracer env2) /\ meter s3 = Some (env_meter env2)
    /\ (forall k, registry k s3 = registry k s2)
    /\ created s3 = created s2
    /\ trail s3 = trail s2 ++ [SetTracerProvider; SetMeterProvider;
                               GoUpdateSystemMetrics Background].
Proof.
  intros Hinit Hrun E1 E2 E3.
  destruct (InitTelemetry_success_inv _ _ _ _ Hinit) as (_ & s0 & Hcm & ->).
  rewrite InitTelemetry_enabled by done.
  assert (Hnoop : createMetrics (providers_installed env2 s2)
                  = Returned None (providers_installed env2 s2)).
  { apply createMetrics_from_all_registered. intros n d u ty Hin.
    destruct (createMetrics_from_declared _ _ _ Hcm _ _ _ _ Hin) as (k & Hk & [c Hc]).
    exists k. split; [done|]. exists c.
    destruct (safe_run_steps lower sts
                (set_trail (trail s0 ++ [GoUpdateSystemMetrics Background]) s0))
      as ((_ & _ & _ & Hkeep) & _).
    rewrite Hrun in Hkeep. cbn [state_of] in Hkeep.
    assert (Hk2 : registry k (providers_installed env2 s2) = registry k s2)
      by (by destruct k).
    rewrite Hk2. apply Hkeep. by destruct k. }
  rewrite Hnoop. eexists. split; [reflexivity|].
  split; [done|]. split; [done|]. split; [by intros []|]. split; [done|].
  cbn. by rewrite <- app_assoc.
Qed.

Lemma InitTelemetry_again_keeps_instruments_witness :
  let s2 := state_of (run_steps (fun c => c) example_steps enabled_state) in
  exists s3,
    InitTelemetry example_env true s2 = Returned (Some ShutdownProviders, None) s3
    /\ tracer s3 = Some (env_tracer example_env) /\ meter s3 = Some (env_meter example_env)
    /\ (forall k, registry k s3 = registry k s2)
    /\ created s3 = created s2
    /\ trail s3 = trail s2 ++ [SetTracerProvider; SetMeterProvider;
                               GoUpdateSystemMetrics Background].
Proof.
  intros s2.
  apply (InitTelemetry_again_keeps_instruments (fun c => c) example_env example_env
           ShutdownProviders enabled_state example_steps s2).
  - vm_compute. reflexivity.
  - vm_compute. reflexivity.
  - reflexivity.
  - reflexivity.
  - reflexivity.
Defined.

Section DeclaredInstruments.

(** What a successful creation registers does not depend on the meter. *)
Lemma Create_same_registry k n d u s t c c' s' t' :
  same_registry s t ->
  Create k n d u s = Returned (inl c) s' ->
  Create k n d u t = Returned (inl c') t' ->
  same_registry s' t'.
Proof.
  intros [Hreg Hcr]. rewrite !Create_outcome, <- Hreg.
  destruct (registry k s !! n) as [c0|] eqn:E.
  { intros [= <- <-] [= <- <-]. by split. }
  destruct (meter s) as [ms|]; [|done].
  destruct (meter_error ms _ _ _ _ _); [done|].
  destruct (meter t) as [mt|]; [|done].
  destruct (meter_error mt _ _ _ _ _); [done|].
  intros [= <- <-] [= <- <-].
  assert (Hnew : new_instrument s k n d u = new_instrument t k n d u)
    by (unfold new_instrument; by rewrite Hcr).
  split.
  - intros k'. rewrite !registry_set_registry. case_decide.
    + rewrite Hnew. f_equal.
      destruct k; [exact (Hreg Int64Counter)|exact (Hreg Float64Histogram)
                   |exact (Hreg Float64UpDownCounter)].
    + destruct k'; [exact (Hreg Int64Counter)|exact (Hreg Float64Histogram)
                    |exact (Hreg Float64UpDownCounter)].
  - destruct k; cbn; by rewrite Hnew, Hcr.
Qed.

Lemma createMetrics_from_same_registry l s t s' t' :
  same_registry s t ->
  createMetrics_from l s = Returned None s' ->
  createMetrics_from l t = Returned None t' ->
  same_registry s' t'.
Proof.
  revert s t. induction l as [|[[[n d] u] ty] l IH]; intros s t Hsame.
  - by intros [= <-] [= <-].
  - rewrite !createMetrics_from_cons.
    destruct (kind_of_metricType ty) as [k|]; [|done].
    destruct (Create k n d u s) as [[c|err] s1|] eqn:Es; cbn [error_of]; [|done|done].
    destruct (Create k n d u t) as [[c'|err] t1|] eqn:Et; cbn [error_of]; [|done|done].
    apply IH. by eapply Create_same_registry.
Qed.

End DeclaredInstruments.

(** X6. Whatever the meter, a start-up from the program's initial state
    that succeeds leaves the registry holding exactly the eight declared
    instruments, each under its declared kind and name with its declared
    description and unit, made in declaration order and nothing else. *)
Theorem InitTelemetry_registers_catalogue
    (env : Env) (f : ObservabilityShutdownFunc) (s : State) :
  InitTelemetry env true initial_state = Returned (Some f, None) s ->
  created s = declared_instruments
  /\ forall k, registry k s = declared_registry k.
Proof.
  intros Hinit.
  destruct (InitTelemetry_success_inv _ _ _ _ Hinit) as (_ & s1 & Hcm & ->).
  assert (Hex : createMetrics (providers_installed example_env initial_state)
                = Returned None
                    (state_of (createMetrics (providers_installed example_env
                                                initial_state))))
    by (vm_compute; reflexivity).
  destruct (createMetrics_from_same_registry _ _ _ _ _
              (conj (fun k => eq_refl) eq_refl : same_registry
                 (providers_installed env initial_state)
                 (providers_installed example_env initial_state)) Hcm Hex)
    as [Hreg Hcr].
  split.
  - cbn [created set_trail]. rewrite Hcr. vm_compute. reflexivity.
  - intros k.
    assert (Hk : registry k (set_trail (trail s1 ++ [GoUpdateSystemMetrics Background]) s1)
                 = registry k s1) by (by destruct k).
    rewrite Hk, Hreg. destruct k; apply (bool_decide_unpack _); vm_compute; exact I.
Qed.

Lemma InitTelemetry_registers_catalogue_witness :
  created enabled_state = declared_instruments
  /\ forall k, registry k enabled_state = declared_registry k.
Proof.
  apply (InitTelemetry_registers_catalogue example_env ShutdownProviders).
  vm_compute. reflexivity.
Defined.

Example declared_registry_gauges :
  map fst (map_to_list (declared_registry Float64UpDownCounter))
  = ["memory_sys_bytes"; "memory_alloc_bytes"; "memory_total_alloc_bytes";
     "num_goroutines"; "num_cpu"]%string.
Proof. vm_compute. reflexivity. Qed.

(** * More on the gauge adapter *)

Section GaugeValues.

Lemma getGaugeValue_outcome ctx n s :
  getGaugeValue ctx n s = Returned (default PrimFloat.zero (lastKnownValues s !! n)) s.
Proof. reflexivity. Qed.

Lemma run_set_gauge_calls ctx n g vs s :
  gauges s !! n = Some g ->
  exists s',
    run_calls (set_gauge_calls ctx n vs) s = Returned tt s'
    /\ trail s' = trail s ++
         gauge_adds g (default PrimFloat.zero (lastKnownValues s !! n)) vs.
Proof.
  revert s. induction vs as [|[v attrs] vs IH]; intros s Hg.
  - exists s. cbn. by rewrite app_nil_r.
  - cbn [set_gauge_calls map run_calls run_call fst snd gauge_adds].
    unfold bind at 1. rewrite SetGauge_outcome, Hg. cbv beta iota zeta.
    fold (set_gauge_calls ctx n vs).
    match goal with |- context [run_calls _ ?s1] =>
      destruct (IH s1) as (s' & Hrun & Htr); [done|]
    end.
    exists s'. split; [exact Hrun|]. rewrite Htr. cbn.
    by rewrite lookup_insert_eq, <- app_assoc.
Qed.

End GaugeValues.

(** X7. [lastKnownValues] is kept per name, not per label set: in a
    sequence of [SetGauge] calls on one registered gauge every delta is
    taken from the value of the previous call, whatever labels that call
    carried, and is handed to the accumulator of the current call's
    labels. *)
Theorem SetGauge_deltas_ignore_labels
    (ctx : Context) (n : string) (g : Instrument)
    (vs : list (float * list KeyValue)) (s : State) :
  gauges s !! n = Some g ->
  lastKnownValues s !! n = None ->
  exists s',
    run_calls (set_gauge_calls ctx n vs) s = Returned tt s'
    /\ trail s' = trail s ++ gauge_adds g PrimFloat.zero vs.
Proof.
  intros Hg Hl. destruct (run_set_gauge_calls ctx n g vs s Hg) as (s' & Hrun & Htr).
  rewrite Hl in Htr. by exists s'.
Qed.

Lemma SetGauge_deltas_ignore_labels_witness :
  let g := {| inst_id := 3%nat; inst_kind := Float64UpDownCounter;
              inst_name := "num_goroutines";
              inst_description := "Number of goroutines"; inst_unit := "" |} in
  exists s',
    run_calls (set_gauge_calls Background "num_goroutines"
                 [(float64_of_Z 10, [("pool", AttrString "a")]);
                  (float64_of_Z 4, [("pool", AttrString "b")])]%string)
              enabled_state = Returned tt s'
    /\ trail s' = trail enabled_state ++
         [UpDownCounterAdd g (float64_of_Z 10) [("pool", AttrString "a")];
          UpDownCounterAdd g (float64_of_Z (-6)) [("pool", AttrString "b")]]%string.
Proof.
  intros g.
  destruct (SetGauge_deltas_ignore_labels Background "num_goroutines" g
              [(float64_of_Z 10, [("pool", AttrString "a")]);
               (float64_of_Z 4, [("pool", AttrString "b")])]%string enabled_state)
    as (s' & Hrun & Htr).
  - vm_compute. reflexivity.
  - vm_compute. reflexivity.
  - exists s'. split; [exact Hrun|]. rewrite Htr. f_equal.
Defined.

(** * The span facade *)

Section SpanCount.

Lemma counts_ret {A} (a : A) : counts_spans (ret a).
Proof. intros s. done. Qed.

Lemma counts_bind {A B} (m : M A) (k : A -> M B) :
  counts_spans m -> (forall a, counts_spans (k a)) -> counts_spans (bind m k).
Proof.
  intros Hm Hk s. specialize (Hm s). unfold bind.
  destruct (m s) as [a s1|r s1]; cbn [state_of] in *; [|done].
  specialize (Hk a s1). lia.
Qed.

Lemma counts_get_bind {B} (k : State -> M B) :
  (forall s, counts_spans (k s)) -> counts_spans (bind get k).
Proof. intros Hk s. unfold bind, get. apply Hk. Qed.

Lemma counts_modify f :
  (forall s, (spans_started s <= spans_started (f s))%nat) -> counts_spans (modify f).
Proof. intros Hf s. apply Hf. Qed.

Lemma counts_emit e : counts_spans (emit e).
Proof. by apply counts_modify. Qed.

Lemma counts_Create k n d u : counts_spans (Create k n d u).
Proof.
  intros s. rewrite Create_outcome.
  destruct (registry k s !! n); [done|]. destruct (meter s) as [mt|]; [|done].
  destruct (meter_error mt _ _ _ _ _); [done|]. by destruct k.
Qed.

Lemma counts_IncrementCounter ctx n v attrs : counts_spans (IncrementCounter ctx n v attrs).
Proof.
  intros s. rewrite IncrementCounter_outcome.
  destruct (counters s !! n); [done|]. destruct (meter s) as [mt|]; [|done].
  by destruct (meter_error mt _ _ _ _ _).
Qed.

Lemma counts_RecordHistogram ctx n v attrs : counts_spans (RecordHistogram ctx n v attrs).
Proof. intros s. rewrite RecordHistogram_outcome. by destruct (histograms s !! n). Qed.

Lemma counts_SetGauge ctx n v attrs : counts_spans (SetGauge ctx n v attrs).
Proof. intros s. rewrite SetGauge_outcome. by destruct (gauges s !! n). Qed.

Lemma counts_StartSpan ctx name : counts_spans (StartSpan ctx name).
Proof.
  intros s. unfold StartSpan, tracer_Start, bind, get. cbn.
  destruct (tracer s) eqn:Et; [|done]. cbn. rewrite Et. cbn. lia.
Qed.

Lemma counts_span_SetAttributes sp attrs : counts_spans (span_SetAttributes sp attrs).
Proof. destruct sp; [apply counts_ret|apply counts_emit]. Qed.

Lemma counts_span_AddEvent sp name attrs : counts_spans (span_AddEvent sp name attrs).
Proof. destruct sp; [apply counts_ret|apply counts_emit]. Qed.

Lemma counts_ServeHTTP next crw : counts_spans (ServeHTTP next crw).
Proof. intros s. by rewrite ServeHTTP_outcome. Qed.

Lemma counts_defer_span_End {A} sp (m : M A) :
  counts_spans m -> counts_spans (defer (span_End sp) m).
Proof.
  intros Hm s. specialize (Hm s). unfold defer.
  destruct (m s) as [a s1|r s1]; cbn [state_of] in *; by destruct sp.
Qed.

Lemma counts_TraceMiddleware lower next elapsed r :
  counts_spans (TraceMiddleware lower next elapsed r).
Proof.
  unfold TraceMiddleware. apply counts_bind; [apply counts_StartSpan|].
  intros [ctx span]. apply counts_defer_span_End.
  apply counts_bind; [apply counts_span_SetAttributes|]. intros _.
  apply counts_bind; [apply counts_ServeHTTP|]. intros crw.
  apply counts_bind; [apply counts_span_SetAttributes|]. intros _.
  apply counts_bind; [apply counts_RecordHistogram|]. intros _.
  apply counts_bind; [apply counts_IncrementCounter|]. intros _.
  apply counts_IncrementCounter.
Qed.

Lemma counts_sample ctx rd lastNumGC : counts_spans (sample ctx rd lastNumGC).
Proof.
  unfold sample.
  do 5 (apply counts_bind; [apply counts_SetGauge|intros _]).
  cbv zeta. destruct (0 <? _); [|apply counts_ret].
  apply counts_bind; [apply counts_IncrementCounter|intros _; apply counts_ret].
Qed.

Lemma counts_run_step lower st : counts_spans (run_step lower st).
Proof.
  destruct st as [c| | | | | |]; cbn [run_step].
  - destruct c; cbn [run_call].
    + apply counts_bind; [apply (counts_Create Int64Counter)|intros _; apply counts_ret].
    + apply counts_bind; [apply (counts_Create Float64Histogram)|intros _; apply counts_ret].
    + apply counts_bind; [apply (counts_Create Float64UpDownCounter)|intros _; apply counts_ret].
    + apply counts_IncrementCounter.
    + apply counts_RecordHistogram.
    + apply counts_SetGauge.
  - apply counts_bind; [|intros _; apply counts_ret].
    intros s. rewrite CreateDynamicCounter_Create. apply counts_Create.
  - apply counts_bind; [apply counts_StartSpan|intros _; apply counts_ret].
  - apply counts_span_AddEvent.
  - apply counts_span_SetAttributes.
  - apply counts_TraceMiddleware.
  - apply counts_bind; [apply counts_sample|intros _; apply counts_ret].
Qed.

Lemma counts_run_steps lower sts : counts_spans (run_steps lower sts).
Proof.
  induction sts as [|st sts IH]; cbn [run_steps]; [apply counts_ret|].
  apply counts_bind; [apply counts_run_step|intros _; apply IH].
Qed.

End SpanCount.

(** X8. With the tracer set, [StartSpan] returns a new span and a context
    that carries it: [AddEvent] and [SetAttributes] through that context
    are recorded on that span, and no later [StartSpan], whatever the
    package did in between, returns the same span again. *)
Theorem StartSpan_context_carries_new_span
    (lower : rune -> rune) (ctx : Context) (name : string) (s : State) (tr : Tracer) :
  tracer s = Some tr ->
  exists sp s1,
    StartSpan ctx name s = Returned (ContextWithSpan ctx sp, sp) s1
    /\ trail s1 = trail s ++ [SpanStart sp name]
    /\ (forall ev attrs,
          AddEvent (ContextWithSpan ctx sp) ev attrs s1
          = Returned tt (set_trail (trail s1 ++ [SpanAddEvent sp ev attrs]) s1))
    /\ (forall attrs,
          SetAttributes (ContextWithSpan ctx sp) attrs s1
          = Returned tt (set_trail (trail s1 ++ [SpanSetAttributes sp attrs]) s1))
    /\ (forall sts s2 ctx2 name2 ctx3 sp3 s3,
          run_steps lower sts s1 = Returned tt s2 ->
          StartSpan ctx2 name2 s2 = Returned (ctx3, sp3) s3 ->
          sp3 <> sp).
Proof.
  intros Ht. exists (SdkSpan (spans_started s)). eexists. split.
  { unfold StartSpan, tracer_Start, bind, get. cbn. rewrite Ht. cbn. rewrite Ht. cbn.
    reflexivity. }
  split; [done|]. split; [done|]. split; [done|].
  intros sts s2 ctx2 name2 ctx3 sp3 s3 Hrun Hstart.
  match type of Hrun with run_steps _ _ ?s1 = _ =>
    pose proof (counts_run_steps lower sts s1) as Hcount;
    destruct (safe_run_steps lower sts s1) as ((Htr & _) & _)
  end.
  rewrite Hrun in Hcount, Htr. cbn in Hcount, Htr. rewrite Ht in Htr.
  revert Hstart. unfold StartSpan, tracer_Start, bind, get. cbn. rewrite Htr. cbn.
  rewrite Htr. cbn. intros [= _ <- _]. intros [= Heq]. lia.
Qed.

Lemma StartSpan_context_carries_new_span_witness :
  exists sp s1,
    StartSpan Background "job" enabled_state
      = Returned (ContextWithSpan Background sp, sp) s1
    /\ trail s1 = trail enabled_state ++ [SpanStart sp "job"]
    /\ (forall ev attrs,
          AddEvent (ContextWithSpan Background sp) ev attrs s1
          = Returned tt (set_trail (trail s1 ++ [SpanAddEvent sp ev attrs]) s1))
    /\ (forall attrs,
          SetAttributes (ContextWithSpan Background sp) attrs s1
          = Returned tt (set_trail (trail s1 ++ [SpanSetAttributes sp attrs]) s1))
    /\ (forall sts s2 ctx2 name2 ctx3 sp3 s3,
          run_steps (fun c => c) sts s1 = Returned tt s2 ->
          StartSpan ctx2 name2 s2 = Returned (ctx3, sp3) s3 ->
          sp3 <> sp).
Proof.
  apply (StartSpan_context_carries_new_span (fun c => c) Background "job" enabled_state
           (env_tracer example_env)).
  vm_compute. reflexivity.
Defined.

(** * The sampler, tick by tick *)

Section SamplerTicks.

(** A [SetGauge] followed by the rest of the tick. *)
Lemma SetGauge_bind {B} ctx n v attrs (k : unit -> M B) s :
  exists s1,
    bind (SetGauge ctx n v attrs) k s = k tt s1
    /\ counters s1 = counters s /\ gauges s1 = gauges s
    /\ (exists evs, trail s1 = trail s ++ evs /\ forall gc, counter_adds gc evs = [])
    /\ (is_Some (gauges s !! n) -> lastKnownValues s1 !! n = Some v)
    /\ (forall n', n <> n' -> lastKnownValues s1 !! n' = lastKnownValues s !! n').
Proof.
  unfold bind. rewrite SetGauge_outcome.
  destruct (gauges s !! n) as [g|]; cbn.
  - eexists. split; [reflexivity|]. cbn. split; [done|]. split; [done|].
    split; [eexists; split; [reflexivity|done]|].
    split; [intros _; by rewrite lookup_insert_eq|].
    intros n' Hn. by rewrite lookup_insert_ne.
  - exists s. split; [done|]. split; [done|]. split; [done|].
    split; [exists []; by rewrite app_nil_r|].
    split; [by intros [? ?]|done].
Qed.

(** The five [SetGauge] calls of a tick, and what is left to run. *)
Lemma sample_gauges_then ctx rd lastNumGC s :
  let m := rd_MemStats rd in
  let gcRuns := uint32 (NumGC m - lastNumGC) in
  exists s5,
    sample ctx rd lastNumGC s =
      (if 0 <? gcRuns
       then IncrementCounter ctx "gc_runs_total" gcRuns [] ;;; ret (NumGC m)
       else ret lastNumGC) s5
    /\ counters s5 = counters s /\ gauges s5 = gauges s
    /\ (exists evs, trail s5 = trail s ++ evs /\ forall gc, counter_adds gc evs = [])
    /\ (forall n z, In (n, z) (sampled_gauges rd) -> is_Some (gauges s !! n) ->
          lastKnownValues s5 !! n = Some (float64_of_Z z)).
Proof.
  intros m gcRuns. unfold sample. fold m. cbv zeta. fold gcRuns.
  destruct (SetGauge_bind ctx "memory_alloc_bytes" (float64_of_Z (Alloc m)) []
    (fun _ =>
       SetGauge ctx "memory_total_alloc_bytes" (float64_of_Z (TotalAlloc m)) [] ;;;
       SetGauge ctx "memory_sys_bytes" (float64_of_Z (Sys m)) [] ;;;
       SetGauge ctx "num_goroutines" (float64_of_Z (rd_NumGoroutine rd)) [] ;;;
       SetGauge ctx "num_cpu" (float64_of_Z (rd_NumCPU rd)) [] ;;;
       if 0 <? gcRuns
       then IncrementCounter ctx "gc_runs_total" gcRuns [] ;;; ret (NumGC m)
       else ret lastNumGC) s) as (s1 & -> & Hc1 & Hg1 & (e1 & Ht1 & Hq1) & Hl1e & Hl1n).
  destruct (SetGauge_bind ctx "memory_total_alloc_bytes" (float64_of_Z (TotalAlloc m)) []
    (fun _ =>
       SetGauge ctx "memory_sys_bytes" (float64_of_Z (Sys m)) [] ;;;
       SetGauge ctx "num_goroutines" (float64_of_Z (rd_NumGoroutine rd)) [] ;;;
       SetGauge ctx "num_cpu" (float64_of_Z (rd_NumCPU rd)) [] ;;;
       if 0 <? gcRuns
       then IncrementCounter ctx "gc_runs_total" gcRuns [] ;;; ret (NumGC m)
       else ret lastNumGC) s1) as (s2 & -> & Hc2 & Hg2 & (e2 & Ht2 & Hq2) & Hl2e & Hl2n).
  destruct (SetGauge_bind ctx "memory_sys_bytes" (float64_of_Z (Sys m)) []
    (fun _ =>
       SetGauge ctx "num_goroutines" (float64_of_Z (rd_NumGoroutine rd)) [] ;;;
       SetGauge ctx "num_cpu" (float64_of_Z (rd_NumCPU rd)) [] ;;;
       if 0 <? gcRuns
       then IncrementCounter ctx "gc_runs_total" gcRuns [] ;;; ret (NumGC m)
       else ret lastNumGC) s2) as (s3 & -> & Hc3 & Hg3 & (e3 & Ht3 & Hq3) & Hl3e & Hl3n).
  destruct (SetGauge_bind ctx "num_goroutines" (float64_of_Z (rd_NumGoroutine rd)) []
    (fun _ =>
       SetGauge ctx "num_cpu" (float64_of_Z (rd_NumCPU rd)) [] ;;;
       if 0 <? gcRuns
       then IncrementCounter ctx "gc_runs_total" gcRuns [] ;;; ret (NumGC m)
       else ret lastNumGC) s3) as (s4 & -> & Hc4 & Hg4 & (e4 & Ht4 & Hq4) & Hl4e & Hl4n).
  destruct (SetGauge_bind ctx "num_cpu" (float64_of_Z (rd_NumCPU rd)) []
    (fun _ =>
       if 0 <? gcRuns
       then IncrementCounter ctx "gc_runs_total" gcRuns [] ;;; ret (NumGC m)
       else ret lastNumGC) s4) as (s5 & -> & Hc5 & Hg5 & (e5 & Ht5 & Hq5) & Hl5e & Hl5n).
  exists s5. split; [reflexivity|].
  split; [congruence|]. split; [congruence|]. split.
  { exists (e1 ++ e2 ++ e3 ++ e4 ++ e5). split.
    - rewrite Ht5, Ht4, Ht3, Ht2, Ht1. by rewrite <- !app_assoc.
    - intros gc. by rewrite !counter_adds_app, Hq1, Hq2, Hq3, Hq4, Hq5. }
  intros n z Hin Hsome.
  cbn in Hin. fold m in Hin.
  destruct Hin as [[= <- <-]|[[= <- <-]|[[= <- <-]|[[= <- <-]|[[= <- <-]|[]]]]]].
  - rewrite Hl5n, Hl4n, Hl3n, Hl2n by discriminate. by apply Hl1e.
  - rewrite Hl5n, Hl4n, Hl3n by discriminate. apply Hl2e. by rewrite Hg1.
  - rewrite Hl5n, Hl4n by discriminate. apply Hl3e. by rewrite Hg2, Hg1.
  - rewrite Hl5n by discriminate. apply Hl4e. by rewrite Hg3, Hg2, Hg1.
  - apply Hl5e. by rewrite Hg4, Hg3, Hg2, Hg1.
Qed.

Lemma IncrementCounter_lastKnownValues ctx n v attrs s :
  lastKnownValues (state_of (IncrementCounter ctx n v attrs s)) = lastKnownValues s
  /\ gauges (state_of (IncrementCounter ctx n v attrs s)) = gauges s.
Proof.
  rewrite IncrementCounter_outcome.
  destruct (counters s !! n); [done|]. destruct (meter s) as [mt|]; [|done].
  by destruct (meter_error mt _ _ _ _ _).
Qed.

(** A tick, whether it returns or panics, leaves the readings in
    [lastKnownValues]. *)
Lemma sample_lastKnownValues ctx rd lastNumGC s :
  gauges (state_of (sample ctx rd lastNumGC s)) = gauges s
  /\ forall n z, In (n, z) (sampled_gauges rd) -> is_Some (gauges s !! n) ->
       lastKnownValues (state_of (sample ctx rd lastNumGC s)) !! n = Some (float64_of_Z z).
Proof.
  destruct (sample_gauges_then ctx rd lastNumGC s) as (s5 & -> & _ & Hg & _ & Hl).
  destruct (0 <? _).
  - unfold bind.
    destruct (IncrementCounter_lastKnownValues ctx "gc_runs_total"
                (uint32 (NumGC (rd_MemStats rd) - lastNumGC)) [] s5) as [E1 E2].
    destruct (IncrementCounter _ _ _ _ s5) as [[] s6|r s6]; cbn in *.
    + split; [congruence|]. intros n z Hin Hs. rewrite E1. by apply Hl.
    + split; [congruence|]. intros n z Hin Hs. rewrite E1. by apply Hl.
  - cbn. split; [done|exact Hl].
Qed.

(** A tick with the GC counter registered. *)
Lemma sample_outcome ctx rd lastNumGC s gc :
  counters s !! "gc_runs_total"%string = Some gc ->
  let gcRuns := uint32 (NumGC (rd_MemStats rd) - lastNumGC) in
  exists s' evs,
    sample ctx rd lastNumGC s =
      Returned (if 0 <? gcRuns then NumGC (rd_MemStats rd) else lastNumGC) s'
    /\ trail s' = trail s ++ evs
    /\ counter_adds gc evs = (if 0 <? gcRuns then [(gcRuns, [])] else [])
    /\ counters s' = counters s.
Proof.
  intros Hgc gcRuns.
  destruct (sample_gauges_then ctx rd lastNumGC s) as (s5 & -> & Hc & _ & (evs & Ht & Hq) & _).
  fold gcRuns. destruct (0 <? gcRuns).
  - unfold bind. rewrite IncrementCounter_outcome, Hc, Hgc. cbn.
    eexists. exists (evs ++ [CounterAdd gc gcRuns []]). split; [reflexivity|]. cbn.
    split; [by rewrite Ht, <- app_assoc|]. split; [|done].
    rewrite counter_adds_app, Hq. cbn. by rewrite decide_True.
  - exists s5, evs. cbn. done.
Qed.

Lemma sampler_counts_gc_runs ctx gc rs :
  forall lastNumGC s c s',
  counters s !! "gc_runs_total"%string = Some gc ->
  0 <= lastNumGC < 2 ^ 32 ->
  uint32_readings rs ->
  sampler_run ctx (Looping lastNumGC, s) rs (c, s') ->
  let final := List.last (NumGC_readings rs) lastNumGC in
  c <> Crashed
  /\ (forall l, c = Looping l -> l = final)
  /\ exists evs,
       trail s' = trail s ++ evs
       /\ Forall (fun a => 0 < fst a < 2 ^ 32) (counter_adds gc evs)
       /\ total_added (counter_adds gc evs) mod 2 ^ 32 = (final - lastNumGC) mod 2 ^ 32
       /\ (nondecreasing lastNumGC (NumGC_readings rs) ->
           total_added (counter_adds gc evs) = final - lastNumGC).
Proof.
  induction rs as [|r rs IH]; intros l0 s c s' Hgc Hl0 Hu Hrun.
  - inversion Hrun; subst. cbn. split; [done|]. split; [by intros l [= ->]|].
    exists []. rewrite app_nil_r. cbn. rewrite Z.sub_diag. done.
  - inversion Hrun as [|? ? c2 ? ? Hstep Hrest]; subst.
    inversion Hstep as [l s0 Hc|l s0 rd l' s1 Hs|l s0 rd reason s1 Hs]; subst.
    + apply run_when_stopped in Hrest as [-> [= -> ->]]. cbn.
      split; [done|]. split; [done|]. exists []. rewrite app_nil_r. cbn.
      rewrite Z.sub_diag. done.
    + destruct (sample_outcome ctx rd l0 s gc Hgc) as (s1' & evs & Hs' & Ht & Hq & Hc).
      rewrite Hs' in Hs. injection Hs as Hl' <-.
      unfold uint32_readings in Hu. cbn [NumGC_readings] in Hu.
      apply Forall_cons in Hu as [Hn Hu].
      set (n := NumGC (rd_MemStats rd)) in *.
      set (g := uint32 (n - l0)) in *.
      assert (Hg : 0 <= g < 2 ^ 32) by (apply Z.mod_pos_bound; lia).
      assert (Hgm : g mod 2 ^ 32 = (n - l0) mod 2 ^ 32)
        by (unfold g, uint32; apply Z.mod_mod; lia).
      assert (El : l' = n).
      { rewrite <- Hl'. destruct (0 <? g) eqn:E; [done|].
        apply Z.ltb_ge in E. assert (g = 0) by lia.
        unfold g, uint32 in *.
        destruct (Z_le_gt_dec l0 n).
        - rewrite Z.mod_small in * by lia. lia.
        - assert ((n - l0) mod 2 ^ 32 = n - l0 + 2 ^ 32); [|lia].
          symmetry. apply (Z.mod_unique_pos _ _ (-1)); lia. }
      rewrite El in Hrest.
      destruct (IH n s1' c s') as (Hnc & Hfin & evs' & Ht' & Hpos & Hsum & Hex);
        [congruence|lia|exact Hu|exact Hrest|].
      cbn [NumGC_readings]. fold n. rewrite last_cons_default.
      split; [done|]. split; [exact Hfin|].
      exists (evs ++ evs'). split; [by rewrite Ht', Ht, <- app_assoc|].
      rewrite counter_adds_app, Hq.
      set (T := total_added (counter_adds gc evs')) in *.
      set (L := List.last (NumGC_readings rs) n) in *.
      destruct (0 <? g) eqn:E.
      * apply Z.ltb_lt in E. cbn [app total_added]. fold T. split; [|split].
        -- constructor; [cbn; lia|exact Hpos].
        -- rewrite (Z.add_mod g T), Hgm, Hsum, <- (Z.add_mod (n - l0) (L - n)) by lia.
           f_equal. lia.
        -- cbn [nondecreasing]. intros [Hle Hnd]. rewrite (Hex Hnd).
           unfold g, uint32. rewrite Z.mod_small by lia. lia.
      * apply Z.ltb_ge in E. assert (Eg : g = 0) by lia. cbn [app]. fold T. split; [|split].
        -- exact Hpos.
        -- rewrite Hsum. rewrite Eg in Hgm.
           replace (L - l0) with ((L - n) + (n - l0)) by lia.
           rewrite (Z.add_mod (L - n) (n - l0)), <- Hgm by lia. rewrite Z.mod_0_l by lia.
           rewrite Z.add_0_r. by rewrite Z.mod_mod by lia.
        -- cbn [nondecreasing]. intros [Hle Hnd]. rewrite (Hex Hnd).
           unfold g, uint32 in Eg. rewrite Z.mod_small in Eg by lia. lia.
    + destruct (sample_outcome ctx rd l0 s gc Hgc) as (s1' & evs & Hs' & _).
      rewrite Hs' in Hs. discriminate.
Qed.

Lemma run_when_crashed ctx s rs c :
  sampler_run ctx (Crashed, s) rs c -> rs = [] /\ c = (Crashed, s).
Proof.
  intros H. inversion H as [|? ? ? ? ? Hstep]; subst; [done|].
  by apply no_step_when_crashed in Hstep.
Qed.

Lemma sampler_gauges_from ctx rs :
  forall c s c' s' d n,
  sampler_run ctx (c, s) rs (c', s') ->
  is_Some (gauges s !! n) ->
  is_Some (gauges s' !! n)
  /\ match last_tick d rs with
     | Some rd =>
       (d = Some rd /\ last_tick None rs = None /\ lastKnownValues s' = lastKnownValues s)
       \/ (forall z, In (n, z) (sampled_gauges rd) ->
             lastKnownValues s' !! n = Some (float64_of_Z z))
     | None => d = None
     end.
Proof.
  induction rs as [|r rs IH]; intros c s c' s' d n Hrun Hs.
  - inversion Hrun; subst. cbn. split; [done|]. destruct d; [by left|done].
  - inversion Hrun as [|? ? [c2 s2] ? ? Hstep Hrest]; subst.
    inversion Hstep as [l s0 Hc|l s0 rd l' s1 Hsm|l s0 rd reason s1 Hsm]; subst.
    + cbn [last_tick]. exact (IH _ _ _ _ d n Hrest Hs).
    + destruct (sample_lastKnownValues ctx rd l s) as [Hg Hl]. rewrite Hsm in Hg, Hl.
      cbn in Hg, Hl. cbn [last_tick].
      assert (Hs2 : is_Some (gauges s2 !! n)) by (by rewrite Hg).
      destruct (IH _ _ _ _ (Some rd) n Hrest Hs2) as [Hs' Hlast]. split; [done|].
      destruct (last_tick (Some rd) rs) as [rd'|]; [|done]. right.
      destruct Hlast as [([= <-] & _ & E)|Hlast]; [|done].
      intros z Hin. rewrite E. by apply Hl.
    + apply run_when_crashed in Hrest as [-> [= -> ->]].
      destruct (sample_lastKnownValues ctx rd l s) as [Hg Hl]. rewrite Hsm in Hg, Hl.
      cbn in Hg, Hl. cbn [last_tick]. split; [by rewrite Hg|]. right.
      intros z Hin. by apply Hl.
Qed.

End SamplerTicks.

Lemma last_in_range (ns : list Z) (d : Z) :
  Forall (fun n => 0 <= n < 2 ^ 32) ns -> 0 <= d < 2 ^ 32 ->
  0 <= List.last ns d < 2 ^ 32.
Proof.
  revert d. induction ns as [|n ns IH]; intros d Hns Hd; [done|].
  apply Forall_cons in Hns as [Hn Hns]. rewrite last_cons_default. by apply IH.
Qed.

(** X9. The sampler with [gc_runs_total] registered never panics, and
    what it adds to that counter follows the runtime's [NumGC]: every
    value added is a positive [uint32], the values added sum up to the
    last [NumGC] read modulo 2^32, and to exactly the last [NumGC] read
    as long as the readings have not wrapped around. *)
Theorem sampler_gc_counter_follows_NumGC
    (ctx : Context) (gc : Instrument) (rs : list Received)
    (s : State) (c : Sampler) (s' : State) :
  counters s !! "gc_runs_total"%string = Some gc ->
  uint32_readings rs ->
  sampler_run ctx (updateSystemMetrics_start s) rs (c, s') ->
  let final := List.last (NumGC_readings rs) 0 in
  c <> Crashed
  /\ (forall lastNumGC, c = Looping lastNumGC -> lastNumGC = final)
  /\ exists evs,
       trail s' = trail s ++ evs
       /\ Forall (fun a => 0 < fst a < 2 ^ 32) (counter_adds gc evs)
       /\ total_added (counter_adds gc evs) mod 2 ^ 32 = final
       /\ (nondecreasing 0 (NumGC_readings rs) ->
           total_added (counter_adds gc evs) = final).
Proof.
  intros Hgc Hu Hrun final.
  destruct (sampler_counts_gc_runs ctx gc rs 0 s c s' Hgc ltac:(lia) Hu Hrun)
    as (Hc & Hl & evs & Ht & Hpos & Hsum & Hex).
  fold final in Hl, Hsum, Hex. rewrite Z.sub_0_r in Hsum, Hex.
  split; [done|]. split; [done|]. exists evs.
  split; [done|]. split; [done|]. split; [|done].
  rewrite Hsum. apply Z.mod_small. apply last_in_range; [exact Hu|lia].
Qed.

Lemma sampler_gc_counter_follows_NumGC_witness :
  let gc := {| inst_id := 5%nat; inst_kind := Int64Counter;
               inst_name := "gc_runs_total";
               inst_description := "Total number of completed GC cycles";
               inst_unit := "" |} in
  let rs := [Tick example_reading; Tick example_reading; Tick later_reading] in
  let s1 := state_of (sample Background example_reading 0 enabled_state) in
  let s2 := state_of (sample Background example_reading 3 s1) in
  let s3 := state_of (sample Background later_reading 3 s2) in
  Looping 7 <> Crashed
  /\ (forall lastNumGC, Looping 7 = Looping lastNumGC -> lastNumGC = 7)
  /\ exists evs,
       trail s3 = trail enabled_state ++ evs
       /\ Forall (fun a => 0 < fst a < 2 ^ 32) (counter_adds gc evs)
       /\ total_added (counter_adds gc evs) mod 2 ^ 32 = 7
       /\ (nondecreasing 0 [3; 3; 7] -> total_added (counter_adds gc evs) = 7).
Proof.
  intros gc rs s1 s2 s3.
  apply (sampler_gc_counter_follows_NumGC Background gc rs enabled_state (Looping 7) s3).
  - vm_compute. reflexivity.
  - repeat constructor; vm_compute; congruence.
  - apply (run_cons Background _ (Tick example_reading) (Looping 3, s1)).
    { apply step_tick. vm_compute. reflexivity. }
    apply (run_cons Background _ (Tick example_reading) (Looping 3, s2)).
    { apply step_tick. vm_compute. reflexivity. }
    apply (run_cons Background _ (Tick later_reading) (Looping 7, s3)).
    { apply step_tick. vm_compute. reflexivity. }
    apply run_nil.
Defined.

(** X10. After any run of the sampler, returned, crashed or still looping,
    each of its gauges that is registered reads the value of the last tick
    received. *)
Theorem sampler_gauges_hold_last_tick
    (ctx : Context) (rs : list Received) (s : State) (c : Sampler) (s' : State)
    (rd : Reading) (n : string) (z : Z) :
  sampler_run ctx (updateSystemMetrics_start s) rs (c, s') ->
  last_tick None rs = Some rd ->
  In (n, z) (sampled_gauges rd) ->
  is_Some (gauges s !! n) ->
  getGaugeValue ctx n s' = Returned (float64_of_Z z) s'.
Proof.
  intros Hrun Hlast Hin Hs.
  destruct (sampler_gauges_from ctx rs _ _ _ _ None n Hrun Hs) as [_ H].
  rewrite Hlast in H. destruct H as [([=] & _)|H].
  rewrite getGaugeValue_outcome. by rewrite (H z Hin).
Qed.

Lemma sampler_gauges_hold_last_tick_witness :
  let s1 := state_of (sample cancellable_context example_reading 0 enabled_state) in
  let s2 := state_of (sample cancellable_context later_reading 3 s1) in
  getGaugeValue cancellable_context "num_goroutines" s2
  = Returned (float64_of_Z 12) s2.
Proof.
  intros s1 s2.
  apply (sampler_gauges_hold_last_tick cancellable_context
           [Tick example_reading; Tick later_reading; Done]
           enabled_state Stopped s2 later_reading "num_goroutines" 12).
  - apply (run_cons cancellable_context _ (Tick example_reading) (Looping 3, s1)).
    { apply step_tick. vm_compute. reflexivity. }
    apply (run_cons cancellable_context _ (Tick later_reading) (Looping 7, s2)).
    { apply step_tick. vm_compute. reflexivity. }
    apply (run_cons cancellable_context _ Done (Stopped, s2)); [|apply run_nil].
    apply step_done. reflexivity.
  - reflexivity.
  - cbn. tauto.
  - vm_compute. by eexists.
Defined.

(** * The middleware in every state *)

Section MiddlewareWrites.

Lemma writer_calls_app tr1 tr2 :
  writer_calls (tr1 ++ tr2) = writer_calls tr1 ++ writer_calls tr2.
Proof.
  induction tr1 as [|e tr1 IH]; [done|]. destruct e; cbn; by rewrite ?IH.
Qed.

Lemma writer_calls_writer_events next : writer_calls (writer_events next) = next.
Proof. induction next as [|[code|data] next IH]; cbn; by rewrite ?IH. Qed.

Lemma writes_ret {A} (a : A) : writes (ret a) [].
Proof. intros s. exists []. by rewrite app_nil_r. Qed.

Lemma writes_bind {A B} (m : M A) (k : A -> M B) w1 w2 :
  writes m w1 -> (forall a, writes (k a) w2) -> returns m \/ w2 = [] ->
  writes (bind m k) (w1 ++ w2).
Proof.
  intros Hm Hk Hor s. destruct (Hm s) as (e1 & Ht1 & Hw1). unfold bind.
  destruct (m s) as [a s1|reason s1] eqn:E; cbn [state_of] in *.
  - destruct (Hk a s1) as (e2 & Ht2 & Hw2). exists (e1 ++ e2).
    rewrite Ht2, Ht1, <- app_assoc, writer_calls_app, Hw1, Hw2. done.
  - destruct Hor as [Hr| ->].
    + destruct (Hr s) as [a Ha]. congruence.
    + exists e1. by rewrite app_nil_r.
Qed.

Lemma writes_RecordHistogram ctx n v attrs : writes (RecordHistogram ctx n v attrs) [].
Proof.
  intros s. rewrite RecordHistogram_outcome.
  destruct (histograms s !! n); eexists; (split; [reflexivity|done]).
Qed.

Lemma writes_IncrementCounter ctx n v attrs : writes (IncrementCounter ctx n v attrs) [].
Proof.
  intros s. rewrite IncrementCounter_outcome.
  destruct (counters s !! n); [eexists; split; [reflexivity|done]|].
  destruct (meter s) as [mt|]; [|exists []; by rewrite app_nil_r].
  destruct (meter_error mt _ _ _ _ _); eexists; (split; [reflexivity|done]).
Qed.

Lemma writes_span_SetAttributes sp attrs : writes (span_SetAttributes sp attrs) [].
Proof.
  intros s. destruct sp; cbn.
  - exists []. by rewrite app_nil_r.
  - eexists. split; [reflexivity|done].
Qed.

Lemma returns_span_SetAttributes sp attrs : returns (span_SetAttributes sp attrs).
Proof. intros s. destruct sp; by eexists. Qed.

Lemma writes_StartSpan ctx name : writes (StartSpan ctx name) [].
Proof.
  intros s. unfold StartSpan, tracer_Start, bind, get. cbn.
  destruct (tracer s) eqn:Et; cbn.
  - rewrite Et. cbn. eexists. split; [reflexivity|done].
  - exists []. by rewrite app_nil_r.
Qed.

Lemma returns_StartSpan ctx name : returns (StartSpan ctx name).
Proof.
  intros s. unfold StartSpan, tracer_Start, bind, get. cbn.
  destruct (tracer s) eqn:Et; cbn; [rewrite Et; cbn|]; by eexists.
Qed.

Lemma writes_ServeHTTP next crw : writes (ServeHTTP next crw) next.
Proof.
  intros s. rewrite ServeHTTP_outcome. eexists. split; [reflexivity|].
  apply writer_calls_writer_events.
Qed.

Lemma returns_ServeHTTP next crw : returns (ServeHTTP next crw).
Proof. intros s. rewrite ServeHTTP_outcome. by eexists. Qed.

Lemma writes_defer_span_End {A} sp (m : M A) ws :
  writes m ws -> writes (defer (span_End sp) m) ws.
Proof.
  intros Hm s. destruct (Hm s) as (evs & Ht & Hw). unfold defer.
  destruct (m s) as [a s1|reason s1]; cbn [state_of] in *; destruct sp; cbn.
  - by exists evs.
  - exists (evs ++ [SpanEnd (SdkSpan id)]).
    rewrite Ht, <- app_assoc, writer_calls_app, Hw. cbn. by rewrite app_nil_r.
  - by exists evs.
  - exists (evs ++ [SpanEnd (SdkSpan id)]).
    rewrite Ht, <- app_assoc, writer_calls_app, Hw. cbn. by rewrite app_nil_r.
Qed.

(** What follows the handler in the middleware. *)
Lemma writes_after_handler sp ctx code method path elapsed n :
  writes
    (span_SetAttributes sp [("http.status_code", AttrInt code)]%string ;;;
     RecordHistogram ctx "http_request_duration_seconds" (Seconds elapsed)
       [ ("method", AttrString method); ("path", AttrString path);
         ("status", AttrInt code) ]%string ;;;
     IncrementCounter ctx "http_requests_total" 1
       [ ("method", AttrString method); ("path", AttrString path);
         ("status", AttrInt code) ]%string ;;;
     IncrementCounter ctx n 1 [("status", AttrInt code)]%string) [].
Proof.
  apply (writes_bind _ _ [] []); [apply writes_span_SetAttributes| |by right].
  intros _. apply (writes_bind _ _ [] []); [apply writes_RecordHistogram| |by right].
  intros _. apply (writes_bind _ _ [] []); [apply writes_IncrementCounter| |by right].
  intros _. apply writes_IncrementCounter.
Qed.

End MiddlewareWrites.

(** X11. The middleware is transparent to the handler's response in every
    state of the package, telemetry initialised or not, and also when the
    middleware itself panics afterwards: the wrapped [http.ResponseWriter]
    receives exactly the handler's [WriteHeader] and [Write] calls, in
    order, and nothing else. *)
Theorem TraceMiddleware_passes_all_writer_calls
    (lower : rune -> rune) (next : list WriterCall) (elapsed : Z)
    (r : Request) (s : State) :
  exists evs,
    trail (state_of (TraceMiddleware lower next elapsed r s)) = trail s ++ evs
    /\ writer_calls evs = next.
Proof.
  revert s. change (writes (TraceMiddleware lower next elapsed r) next).
  unfold TraceMiddleware.
  apply (writes_bind _ _ [] next);
    [apply writes_StartSpan| |left; apply returns_StartSpan].
  intros [ctx span]. apply writes_defer_span_End.
  apply (writes_bind _ _ [] next);
    [apply writes_span_SetAttributes| |left; apply returns_span_SetAttributes].
  intros _. rewrite <- (app_nil_r next) at 2.
  apply (writes_bind _ _ next []); [apply writes_ServeHTTP| |by right].
  intros crw. apply writes_after_handler.
Qed.

(** X12. With the tracer set, the request span is always closed: whether
    the middleware returns or panics in its metrics calls, what it leaves
    on the trail starts with the start of a new span, ends with the end
    of that span, and in between carries the status code the handler left
    in the wrapper. *)
Theorem TraceMiddleware_always_ends_span
    (lower : rune -> rune) (next : list WriterCall) (elapsed : Z)
    (r : Request) (s : State) (tr : Tracer) :
  tracer s = Some tr ->
  let sp := SdkSpan (spans_started s) in
  exists mid,
    trail (state_of (TraceMiddleware lower next elapsed r s))
      = trail s ++ SpanStart sp "http_request" :: mid ++ [SpanEnd sp]
    /\ In (SpanSetAttributes sp
             [("http.status_code", AttrInt (last_status next StatusOK))]%string) mid
    /\ ~ In (SpanEnd sp) mid.
Proof.
  intros Ht sp. subst sp. unfold TraceMiddleware, StartSpan, tracer_Start.
  unfold bind at 1. unfold bind at 1. cbn [get]. rewrite Ht.
  unfold bind at 1 2 3. cbn [get modify emit ret]. rewrite Ht. cbn [modify emit ret bind].
  simpl_state.
  unfold defer. unfold bind at 1. cbn [span_SetAttributes emit modify]. simpl_state.
  unfold bind at 1. rewrite ServeHTTP_outcome. simpl_state.
  unfold bind at 1. cbn [span_SetAttributes emit modify statusCode].
  simpl_state.
  match goal with |- context [bind (RecordHistogram ?c ?n ?v ?l) ?k ?s0] =>
    set (rest := bind (RecordHistogram c n v l) k); set (s4 := s0)
  end.
  assert (Hrest : exists evs, trail (state_of (rest s4)) = trail s4 ++ evs
                              /\ Forall (fun e => forall sp', e <> SpanEnd sp') evs).
  { unfold rest. clearbody s4. clear.
    unfold bind at 1. rewrite RecordHistogram_outcome.
    set (l := [("method", _); _; _]).
    assert (Hinc : forall c n v a t, exists evs,
              trail (state_of (IncrementCounter c n v a t)) = trail t ++ evs
              /\ Forall (fun e => forall sp', e <> SpanEnd sp') evs).
    { intros c n v a t. rewrite IncrementCounter_outcome.
      destruct (counters t !! n);
        [eexists; split; [reflexivity|by repeat constructor]|].
      destruct (meter t) as [mt|]; [|exists []; by rewrite app_nil_r].
      destruct (meter_error mt _ _ _ _ _);
        eexists; (split; [reflexivity|by repeat constructor]). }
    assert (Hincs : forall c n1 a1 n2 a2 t, exists evs,
              trail (state_of ((IncrementCounter c n1 1 a1 ;;;
                                IncrementCounter c n2 1 a2) t)) = trail t ++ evs
              /\ Forall (fun e => forall sp', e <> SpanEnd sp') evs).
    { intros c n1 a1 n2 a2 t. unfold bind.
      destruct (Hinc c n1 1 a1 t) as (e1 & Ht1 & Hf1).
      destruct (IncrementCounter c n1 1 a1 t) as [[] t1|reason t1]; cbn [state_of] in *.
      - destruct (Hinc c n2 1 a2 t1) as (e2 & Ht2 & Hf2). exists (e1 ++ e2).
        rewrite Ht2, Ht1, <- app_assoc. split; [done|]. by apply Forall_app.
      - by exists e1. }
    destruct (histograms s4 !! _) as [h|].
    - match goal with |- context [bind _ _ ?s0] =>
        destruct (Hincs (ContextWithSpan (req_Context r) (SdkSpan (spans_started s))) "http_requests_total"%string l
                    (methodPathCounter lower (Method r) (URL_Path r))
                    [("status", AttrInt (last_status next StatusOK))]%string s0)
          as (evs & Ht & Hf) end.
      eexists. split; [rewrite Ht; cbn; rewrite <- app_assoc; reflexivity|].
      constructor; [done|exact Hf].
    - match goal with |- context [bind _ _ ?s0] =>
        destruct (Hincs (ContextWithSpan (req_Context r) (SdkSpan (spans_started s))) "http_requests_total"%string l
                    (methodPathCounter lower (Method r) (URL_Path r))
                    [("status", AttrInt (last_status next StatusOK))]%string s0)
          as (evs & Ht & Hf) end.
      eexists. split; [rewrite Ht; cbn; rewrite <- app_assoc; reflexivity|].
      constructor; [done|exact Hf]. }
  destruct Hrest as (evs & Hrest & Hno).
  assert (Hfinal : trail (span_End (SdkSpan (spans_started s)) (state_of (rest s4))) =
                   trail (state_of (rest s4)) ++ [SpanEnd (SdkSpan (spans_started s))]) by done.
  eexists (_ :: writer_events next ++ _ :: evs).
  split; [|split].
  - destruct (rest s4) as [[] s5|reason s5]; cbn [state_of] in *;
      rewrite Hfinal, Hrest; unfold s4; simpl_state;
      rewrite <- !app_assoc; cbn; rewrite <- !app_assoc; reflexivity.
  - right. apply in_or_app. right. by left.
  - intros [[=]|[Hin|[[=]|Hin]]%in_app_or].
    + clear -Hin. induction next as [|[?|?] next IH]; cbn in Hin; [done|..];
        by destruct Hin as [[=]|Hin]; auto.
    + rewrite List.Forall_forall in Hno. by apply (Hno _ Hin (SdkSpan (spans_started s))).
Qed.

Lemma TraceMiddleware_always_ends_span_witness :
  let s := state_of (InitTelemetry no_metrics_env true initial_state) in
  let sp := SdkSpan 0 in
  exists mid,
    trail (state_of (TraceMiddleware (fun c => c) [DoWriteHeader 404] 900000
                       example_request s))
      = trail s ++ SpanStart sp "http_request" :: mid ++ [SpanEnd sp]
    /\ In (SpanSetAttributes sp [("http.status_code", AttrInt 404)]%string) mid
    /\ ~ In (SpanEnd sp) mid.
Proof.
  intros s sp.
  apply (TraceMiddleware_always_ends_span (fun c => c) [DoWriteHeader 404] 900000
           example_request s (env_tracer example_env)).
  vm_compute. reflexivity.
Defined.

(** * More on [sanitizePath] *)

Section SanitizeMore.

Lemma ascii_of_byte_of (c : ascii) : ascii_of (byte_of c) = c.
Proof.
  unfold ascii_of. pose proof (byte_of_range c) as H.
  rewrite Z.mod_small by lia. unfold byte_of. rewrite N2Z.id.
  apply ascii_N_embedding.
Qed.

Lemma bytes_string_string_bytes (p : string) : bytes_string (string_bytes p) = p.
Proof. induction p as [|c p IH]; cbn; [done|]. by rewrite ascii_of_byte_of, IH. Qed.

Lemma all_bytes_impl (P Q : Z -> bool) (p : string) :
  (forall b, P b = true -> Q b = true) ->
  all_bytes P p = true -> all_bytes Q p = true.
Proof.
  intros H. induction p as [|c p IH]; cbn; [done|].
  intros [Hc Hp]%andb_true_iff. by rewrite (H _ Hc), IH.
Qed.

Lemma map_sanitize_fixed (p : string) :
  all_bytes is_sanitized p = true ->
  map sanitize_rune (string_bytes p) = string_bytes p.
Proof.
  induction p as [|c p IH]; cbn; [done|].
  intros [Hc Hp]%andb_true_iff. by rewrite sanitize_rune_fixed, IH.
Qed.

Lemma is_sanitized_ascii (b : Z) : is_sanitized b = true -> (b <? RuneSelf) = true.
Proof. unfold is_sanitized, is_alnum, underscore, RuneSelf. lia. Qed.

Lemma DecodeRuneInString_width (c : ascii) (t : string) :
  (1 <= snd (DecodeRuneInString (String c t)))%nat.
Proof.
  unfold DecodeRuneInString.
  repeat match goal with
         | |- context [match ?x with _ => _ end] => destruct x
         end; cbn [snd]; lia.
Qed.

Lemma length_drop_bytes (n : nat) (s : string) :
  (String.length (drop_bytes n s) <= String.length s)%nat.
Proof.
  revert s. induction n as [|n IH]; intros s; [done|].
  destruct s as [|c t]; cbn; [done|]. specialize (IH t). lia.
Qed.

Lemma length_range_runes (fuel : nat) (s : string) :
  (List.length (range_runes fuel s) <= String.length s)%nat.
Proof.
  revert s. induction fuel as [|fuel IH]; intros s; cbn [range_runes]; [cbn; lia|].
  destruct s as [|c t]; [done|].
  pose proof (DecodeRuneInString_width c t) as Hw.
  destruct (DecodeRuneInString (String c t)) as [r w]. cbn [snd] in Hw.
  destruct w as [|w]; [lia|]. cbn [drop_bytes List.length String.length].
  specialize (IH (drop_bytes w t)). pose proof (length_drop_bytes w t). lia.
Qed.

End SanitizeMore.

(** X13. The paths [sanitizePath] returns unchanged are exactly those made
    of ASCII letters, digits and underscores. *)
Theorem sanitizePath_unchanged_iff (p : string) :
  sanitizePath p = p <-> all_bytes is_sanitized p = true.
Proof.
  split.
  - intros <-. apply sanitizePath_sanitized.
  - intros H. rewrite sanitizePath_bytes, runes_ascii.
    + by rewrite map_sanitize_fixed, bytes_string_string_bytes.
    + revert H. apply all_bytes_impl, is_sanitized_ascii.
Qed.

(** X14. [sanitizePath] never returns more bytes than it is given: one
    byte for every rune of the path, a multi-byte rune included. *)
Theorem sanitizePath_not_longer (p : string) :
  (String.length (sanitizePath p) <= String.length p)%nat.
Proof.
  rewrite sanitizePath_bytes, length_bytes_string, length_map.
  apply length_range_runes.
Qed.

(** * The two variants of the file side by side *)

Section Variants.

(** The tracer the package holds once the loop of [createMetrics] is over. *)
Lemma tracer_after_createMetrics_from {A} l (k : option string -> M A) s :
  (forall r t, tracer (state_of (k r t)) = tracer t) ->
  tracer (state_of (bind (createMetrics_from l) k s)) = tracer s.
Proof.
  intros Hk. destruct (safe_createMetrics_from l s) as ((Ht & _) & _).
  unfold bind. destruct (createMetrics_from l s) as [r t|reason t]; cbn [state_of] in *.
  - by rewrite Hk.
  - done.
Qed.

Lemma tracer_after_InitTelemetry env enable :
  tracer (state_of (InitTelemetry env enable initial_state)) =
    (if enable then
       match env_resource_error env, env_trace_exporter_error env with
       | None, None => Some (env_tracer env)
       | _, _ => None
       end
     else None).
Proof.
  unfold InitTelemetry. destruct enable; cbn [negb]; [|done].
  destruct (env_resource_error env); [done|].
  destruct (env_trace_exporter_error env); [done|].
  unfold bind at 1. cbn [emit modify]. unfold bind at 1. cbn [modify].
  destruct (env_metric_exporter_error env); [done|].
  unfold bind at 1. cbn [emit modify]. unfold bind at 1. cbn [modify].
  unfold createMetrics. rewrite tracer_after_createMetrics_from; [done|].
  intros [e|] t; done.
Qed.

Lemma tracer_after_FirstVariant_InitTelemetry env enable :
  tracer (state_of (FirstVariant.InitTelemetry env enable initial_state)) =
    (if enable then
       match env_resource_error env, env_trace_exporter_error env with
       | None, None => Some (env_tracer env)
       | _, _ => None
       end
     else None).
Proof.
  unfold FirstVariant.InitTelemetry. destruct enable; cbn [negb]; [|done].
  destruct (env_resource_error env); [done|].
  destruct (env_trace_exporter_error env); [done|].
  unfold bind at 1. cbn [emit modify]. unfold bind at 1. cbn [modify].
  destruct (env_metric_exporter_error env); [done|].
  unfold bind at 1. cbn [emit modify]. unfold bind at 1. cbn [modify].
  unfold FirstVariant.createMetrics. rewrite tracer_after_createMetrics_from; [done|].
  intros [e|] t; done.
Qed.

Lemma FirstVariant_IncrementCounter_outcome ctx n v attrs s :
  FirstVariant.IncrementCounter ctx n v attrs s =
    match counters s !! n with
    | Some c => Returned tt (set_trail (trail s ++ [CounterAdd c v attrs]) s)
    | None => Returned tt s
    end.
Proof. unfold FirstVariant.IncrementCounter, bind, get. by destruct (counters s !! n). Qed.

End Variants.

(** X15. [StartSpan] after [InitTelemetry], for every outcome of
    [InitTelemetry]: where start-up got as far as assigning [tracer], both
    variants of the file return a new span in a context that carries it;
    where it did not (telemetry disabled, or the resource or the trace
    exporter failed), the first variant panics on the nil tracer and the
    second returns the context it was given and the no-op span. *)
Theorem StartSpan_after_InitTelemetry
    (env : Env) (enable : bool) (ctx : Context) (name : string) :
  let s1 := state_of (FirstVariant.InitTelemetry env enable initial_state) in
  let s2 := state_of (InitTelemetry env enable initial_state) in
  let traced :=
    enable && bool_decide (env_resource_error env = None)
           && bool_decide (env_trace_exporter_error env = None) in
  if traced then
    (exists sp s', FirstVariant.StartSpan ctx name s1
                   = Returned (ContextWithSpan ctx sp, sp) s')
    /\ (exists sp s', StartSpan ctx name s2 = Returned (ContextWithSpan ctx sp, sp) s')
  else
    FirstVariant.StartSpan ctx name s1 = Panicked nil_dereference s1
    /\ StartSpan ctx name s2 = Returned (ctx, NoopSpan) s2.
Proof.
  intros s1 s2 traced.
  pose proof (tracer_after_FirstVariant_InitTelemetry env enable) as H1.
  pose proof (tracer_after_InitTelemetry env enable) as H2.
  fold s1 in H1. fold s2 in H2. clearbody s1 s2.
  assert (Ht : tracer s1 = if traced then Some (env_tracer env) else None).
  { rewrite H1. unfold traced. destruct enable; [|done].
    destruct (env_resource_error env); [done|].
    by destruct (env_trace_exporter_error env). }
  assert (Ht2 : tracer s2 = tracer s1) by congruence.
  destruct traced.
  - split.
    + unfold FirstVariant.StartSpan, tracer_Start, bind, get. rewrite Ht. by eexists _, _.
    + unfold StartSpan, tracer_Start, bind, get. rewrite Ht2, Ht. cbn.
      rewrite Ht2, Ht. by eexists _, _.
  - split.
    + unfold FirstVariant.StartSpan, tracer_Start, bind, get. by rewrite Ht.
    + unfold StartSpan, bind, get. by rewrite Ht2, Ht.
Qed.

(** X16. A tick of the first variant's sampler returns in every state of
    the package and creates no instrument: with [gc_runs_total] not
    registered it adds to no counter and still moves [lastNumGC] on. *)
Theorem FirstVariant_tick_never_creates
    (ctx : Context) (rd : Reading) (lastNumGC : Z) (s : State) :
  let gcRuns := uint32 (NumGC (rd_MemStats rd) - lastNumGC) in
  exists s' evs,
    FirstVariant.sample ctx rd lastNumGC s
      = Returned (if 0 <? gcRuns then NumGC (rd_MemStats rd) else lastNumGC) s'
    /\ created s' = created s
    /\ counters s' = counters s /\ histograms s' = histograms s /\ gauges s' = gauges s
    /\ trail s' = trail s ++ evs
    /\ log_lines evs = []
    /\ (counters s !! "gc_runs_total"%string = None ->
        forall c, counter_adds c evs = []).
Proof.
  intros gcRuns.
  assert (Hset : forall {B} n v (k : unit -> M B) t, exists t1 e1,
            bind (SetGauge ctx n v []) k t = k tt t1
            /\ created t1 = created t /\ counters t1 = counters t
            /\ histograms t1 = histograms t /\ gauges t1 = gauges t
            /\ trail t1 = trail t ++ e1 /\ log_lines e1 = []
            /\ forall c, counter_adds c e1 = []).
  { intros B n v k t. unfold bind. rewrite SetGauge_outcome.
    destruct (gauges t !! n) as [g|]; cbn.
    - eexists _, _. split; [reflexivity|]. by cbn.
    - exists t, []. by rewrite app_nil_r. }
  unfold FirstVariant.sample. cbv zeta. fold gcRuns.
  destruct (Hset _ "memory_alloc_bytes"%string (float64_of_Z (Alloc (rd_MemStats rd)))
    (fun _ =>
       SetGauge ctx "memory_total_alloc_bytes"
         (float64_of_Z (TotalAlloc (rd_MemStats rd))) [] ;;;
       SetGauge ctx "memory_sys_bytes" (float64_of_Z (Sys (rd_MemStats rd))) [] ;;;
       SetGauge ctx "num_goroutines" (float64_of_Z (rd_NumGoroutine rd)) [] ;;;
       SetGauge ctx "num_cpu" (float64_of_Z (rd_NumCPU rd)) [] ;;;
       if 0 <? gcRuns
       then FirstVariant.IncrementCounter ctx "gc_runs_total" gcRuns [] ;;;
            ret (NumGC (rd_MemStats rd))
       else ret lastNumGC) s)
    as (s1 & e1 & -> & Hcr1 & Hc1 & Hh1 & Hg1 & Ht1 & Hl1 & Hq1).
  destruct (Hset _ "memory_total_alloc_bytes"%string
    (float64_of_Z (TotalAlloc (rd_MemStats rd)))
    (fun _ =>
       SetGauge ctx "memory_sys_bytes" (float64_of_Z (Sys (rd_MemStats rd))) [] ;;;
       SetGauge ctx "num_goroutines" (float64_of_Z (rd_NumGoroutine rd)) [] ;;;
       SetGauge ctx "num_cpu" (float64_of_Z (rd_NumCPU rd)) [] ;;;
       if 0 <? gcRuns
       then FirstVariant.IncrementCounter ctx "gc_runs_total" gcRuns [] ;;;
            ret (NumGC (rd_MemStats rd))
       else ret lastNumGC) s1)
    as (s2 & e2 & -> & Hcr2 & Hc2 & Hh2 & Hg2 & Ht2 & Hl2 & Hq2).
  destruct (Hset _ "memory_sys_bytes"%string (float64_of_Z (Sys (rd_MemStats rd)))
    (fun _ =>
       SetGauge ctx "num_goroutines" (float64_of_Z (rd_NumGoroutine rd)) [] ;;;
       SetGauge ctx "num_cpu" (float64_of_Z (rd_NumCPU rd)) [] ;;;
       if 0 <? gcRuns
       then FirstVariant.IncrementCounter ctx "gc_runs_total" gcRuns [] ;;;
            ret (NumGC (rd_MemStats rd))
       else ret lastNumGC) s2)
    as (s3 & e3 & -> & Hcr3 & Hc3 & Hh3 & Hg3 & Ht3 & Hl3 & Hq3).
  destruct (Hset _ "num_goroutines"%string (float64_of_Z (rd_NumGoroutine rd))
    (fun _ =>
       SetGauge ctx "num_cpu" (float64_of_Z (rd_NumCPU rd)) [] ;;;
       if 0 <? gcRuns
       then FirstVariant.IncrementCounter ctx "gc_runs_total" gcRuns [] ;;;
            ret (NumGC (rd_MemStats rd))
       else ret lastNumGC) s3)
    as (s4 & e4 & -> & Hcr4 & Hc4 & Hh4 & Hg4 & Ht4 & Hl4 & Hq4).
  destruct (Hset _ "num_cpu"%string (float64_of_Z (rd_NumCPU rd))
    (fun _ =>
       if 0 <? gcRuns
       then FirstVariant.IncrementCounter ctx "gc_runs_total" gcRuns [] ;;;
            ret (NumGC (rd_MemStats rd))
       else ret lastNumGC) s4)
    as (s5 & e5 & -> & Hcr5 & Hc5 & Hh5 & Hg5 & Ht5 & Hl5 & Hq5).
  assert (Hlog : forall a b, log_lines (a ++ b) = log_lines a ++ log_lines b).
  { intros a b. induction a as [|e a IH]; [done|]. destruct e; cbn; by rewrite ?IH. }
  assert (Hc : counters s5 = counters s) by congruence.
  assert (Ht : trail s5 = trail s ++ (e1 ++ e2 ++ e3 ++ e4 ++ e5)).
  { rewrite Ht5, Ht4, Ht3, Ht2, Ht1. by rewrite <- !app_assoc. }
  assert (Hl : log_lines (e1 ++ e2 ++ e3 ++ e4 ++ e5) = []).
  { by rewrite !Hlog, Hl1, Hl2, Hl3, Hl4, Hl5. }
  assert (Hq : forall c, counter_adds c (e1 ++ e2 ++ e3 ++ e4 ++ e5) = []).
  { intros c. by rewrite !counter_adds_app, Hq1, Hq2, Hq3, Hq4, Hq5. }
  destruct (0 <? gcRuns).
  - unfold bind. rewrite FirstVariant_IncrementCounter_outcome, Hc.
    destruct (counters s !! "gc_runs_total"%string) as [gc|] eqn:Egc.
    + eexists _, (_ ++ [_]). split; [reflexivity|]. cbn.
      repeat (split; [congruence|]). split; [by rewrite Ht, <- app_assoc|].
      split; [by rewrite Hlog, Hl|]. done.
    + exists s5, (e1 ++ e2 ++ e3 ++ e4 ++ e5). split; [reflexivity|].
      repeat (split; [congruence|]). done.
  - exists s5, (e1 ++ e2 ++ e3 ++ e4 ++ e5). split; [reflexivity|].
    repeat (split; [congruence|]). done.
Qed.
